(** * CampusLink backend: tenant scoping, verification workflow,
      notification fan-out and media storage.

    A shallow embedding of the FastAPI handlers of
    [backend/app/api/v1/endpoints/{events,users,marketplace,verifications}.py]
    and of [backend/app/utils/storage.py].

    Conventions of the embedding.
    - A handler is a computation in the monad [M]: it reads and writes a
      [World] (database tables, the trace of storage calls, the payloads
      handed to the broadcaster, the lines printed) and either returns a
      value or raises an exception.  A raise keeps the world as it was at
      that point: what was committed before stays committed.
    - [db.add(x); await db.commit()] is one atomic write of the table.
    - A database commit fails where a declared constraint of
      [models.py] is violated by what the handler writes (the unique,
      non-null email and the foreign key [college_id] of a user), and
      where the [Env] says so: the commit of the notification row in
      [create_event] and the remote calls of [SupabaseStorage], whose
      failures the source handles with [try/except].
    - The local file system starts without the upload directories: a
      directory exists once an [upload_dir.mkdir] has made it, and a
      write into a directory that does not exist raises.
    - A query without ORDER BY returns rows in table order.
    - Strings are byte strings; [str.lower] acts on ASCII letters. *)

From Stdlib Require Import ZArith List String Ascii Bool Lia.
From Stdlib Require Import DecimalString PrimFloat.
Import ListNotations.

Open Scope string_scope.
Open Scope Z_scope.

(* ================================================================== *)
(** ** Python strings *)

Module Py.

(** [c.lower()] on one character. *)
Definition lower_ascii (c : ascii) : ascii :=
  let n := nat_of_ascii c in
  if (Nat.leb 65 n && Nat.leb n 90)%bool then ascii_of_nat (n + 32) else c.

(** [s.lower()] *)
Fixpoint lower (s : string) : string :=
  match s with
  | EmptyString => EmptyString
  | String c s' => String (lower_ascii c) (lower s')
  end.

(** [s.split(sep)] for a one-character separator: never empty. *)
Fixpoint split (sep : ascii) (s : string) : list string :=
  match s with
  | EmptyString => [EmptyString]
  | String c s' =>
      if Ascii.eqb c sep then EmptyString :: split sep s'
      else match split sep s' with
           | [] => [String c EmptyString]
           | hd :: tl => String c hd :: tl
           end
  end.

(** [l[-1]] on the result of a split. *)
Definition last_item (l : list string) : string := List.last l EmptyString.

(** [sep.join(l)] *)
Fixpoint join (sep : string) (l : list string) : string :=
  match l with
  | [] => EmptyString
  | [x] => x
  | x :: tl => x ++ sep ++ join sep tl
  end.

(** [s.replace(a, b)] for one-character [a] and [b]. *)
Fixpoint replace (a b : ascii) (s : string) : string :=
  match s with
  | EmptyString => EmptyString
  | String c s' => String (if Ascii.eqb c a then b else c) (replace a b s')
  end.

(** [str(n)] for an int. *)
Definition str (n : Z) : string := NilZero.string_of_int (Z.to_int n).

(** [f"{x}"] for an [Optional[str]]. *)
Definition str_opt (o : option string) : string :=
  match o with Some s => s | None => "None" end.

(** truthiness of an [Optional[str]] *)
Definition truthy (o : option string) : bool :=
  match o with Some EmptyString => false | Some _ => true | None => false end.

(** [x in l] for a list of strings. *)
Definition mem (x : string) (l : list string) : bool :=
  existsb (String.eqb x) l.

(** Components of a [PurePosixPath]: empty and ["."] components vanish. *)
Definition path_parts (p : string) : list string :=
  filter (fun c => negb (String.eqb c "" || String.eqb c "."))
         (split "/" p).

(** [Path(p).name] *)
Definition path_name (p : string) : string :=
  List.last (path_parts p) EmptyString.

(** [Path(p).suffix]: from the last dot of the name, when that dot is
    neither the first nor the last character of the name. *)
Definition suffix (p : string) : string :=
  let name := path_name p in
  let parts := split "." name in
  let ext := last_item parts in
  if (Nat.leb 2 (List.length parts)
      && negb (String.eqb ext "")
      && Nat.ltb (String.length ext + 1) (String.length name))%bool
  then "." ++ ext else "".

(** [str(Path(dir) / name)] for a relative [dir] without redundant
    components and a [name] that does not start with a slash. *)
Definition path_join (dir name : string) : string :=
  join "/" (dir :: path_parts name).

End Py.

(* ================================================================== *)
(** ** models.py *)

Definition bytes := list Byte.byte.

Definition opt_Z_eqb (a b : option Z) : bool :=
  match a, b with
  | Some x, Some y => x =? y
  | None, None => true
  | _, _ => false
  end.

Definition opt_string_eqb (a b : option string) : bool :=
  match a, b with
  | Some x, Some y => String.eqb x y
  | None, None => true
  | _, _ => false
  end.

Module College.
Record t := mk {
  id : Z;
  name : string;
  invite_code : string;
  slug : string;
  is_active : bool;
  created_at : Z
}.
End College.

Module User.
Record t := mk {
  id : Z;
  full_name : option string;
  email : string;
  hashed_password : string;
  role : option string;
  college_id : option Z;
  phone_number : option string;
  address : option string;
  interests : option string;
  college_name : option string;
  profile_image_url : option string;
  theme_preference : option string;
  is_active : option bool;
  is_superuser : bool;
  events_count : option Z;
  buddies_count : option Z
}.
End User.

Module Event.
Record t := mk {
  id : Z;
  title : string;
  description : option string;
  location : option string;
  start_time : option Z;
  end_time : option Z;
  image_url : option string;
  organizer_id : Z;
  college_id : option Z;
  created_at : Z
}.

Definition set_image_url (e : t) (u : option string) : t :=
  mk (id e) (title e) (description e) (location e) (start_time e)
     (end_time e) u (organizer_id e) (college_id e) (created_at e).
End Event.

Module Participation.
Record t := mk {
  id : Z;
  user_id : Z;
  event_id : Z;
  registered_at : Z;
  status : string
}.
End Participation.

Module Notification.
Record t := mk {
  id : Z;
  user_id : option Z;
  title : string;
  message : string;
  type : string;
  is_read : bool;
  created_at : Z
}.
End Notification.

Module MarketplaceItem.
Record t := mk {
  id : Z;
  owner_id : Z;
  title : string;
  description : string;
  price : float;
  category : string;
  image_url : option string;
  is_available : bool;
  created_at : Z
}.

Definition set_image_url (i : t) (u : option string) : t :=
  mk (id i) (owner_id i) (title i) (description i) (price i) (category i)
     u (is_available i) (created_at i).
End MarketplaceItem.

Module VerificationRequest.
Record t := mk {
  id : Z;
  user_id : Z;
  id_card_url : string;
  status : string;
  admin_note : option string;
  created_at : Z
}.

Definition set_status (v : t) (s : string) : t :=
  mk (id v) (user_id v) (id_card_url v) s (admin_note v) (created_at v).

Definition set_admin_note (v : t) (n : option string) : t :=
  mk (id v) (user_id v) (id_card_url v) (status v) n (created_at v).
End VerificationRequest.

(* ================================================================== *)
(** ** The world a handler runs in *)

(** One call to a storage backend, remote or local. *)
Inductive StorageCall :=
| RemoteRemove (storage_path : string)
| RemoteUpload (storage_path : string) (content : bytes) (content_type : string)
| LocalMkdir (dir : string)
| LocalWrite (file_path : string) (content : bytes).

(** The dict passed to [manager.broadcast]. *)
Record BroadcastPayload := mkPayload {
  p_type : string;
  p_title : string;
  p_message : string;
  p_notif_type : string;
  p_id : Z
}.

Record World := mkWorld {
  colleges : list College.t;
  users : list User.t;
  events : list Event.t;
  participations : list Participation.t;
  notifications : list Notification.t;
  marketplace_items : list MarketplaceItem.t;
  verification_requests : list VerificationRequest.t;
  storage_calls : list StorageCall;
  broadcasts : list BroadcastPayload;
  printed : list string
}.

Definition with_users (f : list User.t -> list User.t) (w : World) :=
  mkWorld (colleges w) (f (users w)) (events w) (participations w) (notifications w)
          (marketplace_items w) (verification_requests w) (storage_calls w)
          (broadcasts w) (printed w).
Definition with_events (f : list Event.t -> list Event.t) (w : World) :=
  mkWorld (colleges w) (users w) (f (events w)) (participations w) (notifications w)
          (marketplace_items w) (verification_requests w) (storage_calls w)
          (broadcasts w) (printed w).
Definition with_participations
    (f : list Participation.t -> list Participation.t) (w : World) :=
  mkWorld (colleges w) (users w) (events w) (f (participations w)) (notifications w)
          (marketplace_items w) (verification_requests w) (storage_calls w)
          (broadcasts w) (printed w).
Definition with_notifications
    (f : list Notification.t -> list Notification.t) (w : World) :=
  mkWorld (colleges w) (users w) (events w) (participations w) (f (notifications w))
          (marketplace_items w) (verification_requests w) (storage_calls w)
          (broadcasts w) (printed w).
Definition with_marketplace_items
    (f : list MarketplaceItem.t -> list MarketplaceItem.t) (w : World) :=
  mkWorld (colleges w) (users w) (events w) (participations w) (notifications w)
          (f (marketplace_items w)) (verification_requests w)
          (storage_calls w) (broadcasts w) (printed w).
Definition with_verification_requests
    (f : list VerificationRequest.t -> list VerificationRequest.t)
    (w : World) :=
  mkWorld (colleges w) (users w) (events w) (participations w) (notifications w)
          (marketplace_items w) (f (verification_requests w))
          (storage_calls w) (broadcasts w) (printed w).
Definition with_storage_calls
    (f : list StorageCall -> list StorageCall) (w : World) :=
  mkWorld (colleges w) (users w) (events w) (participations w) (notifications w)
          (marketplace_items w) (verification_requests w)
          (f (storage_calls w)) (broadcasts w) (printed w).
Definition with_broadcasts
    (f : list BroadcastPayload -> list BroadcastPayload) (w : World) :=
  mkWorld (colleges w) (users w) (events w) (participations w) (notifications w)
          (marketplace_items w) (verification_requests w) (storage_calls w)
          (f (broadcasts w)) (printed w).
Definition with_printed (f : list string -> list string) (w : World) :=
  mkWorld (colleges w) (users w) (events w) (participations w) (notifications w)
          (marketplace_items w) (verification_requests w) (storage_calls w)
          (broadcasts w) (f (printed w)).

(* ================================================================== *)
(** ** Exceptions and the handler monad *)

Inductive exn :=
| HTTPException (status_code : Z) (detail : string)
| PermissionDenied
| MultipleResultsFound
| IntegrityError
| Exception (msg : string).

Definition exn_str (e : exn) : string :=
  match e with
  | HTTPException _ d => d
  | PermissionDenied => "PermissionDenied"
  | MultipleResultsFound => "MultipleResultsFound"
  | IntegrityError => "IntegrityError"
  | Exception m => m
  end.

Inductive outcome (A : Type) :=
| Return (a : A)
| Raise (e : exn).
Arguments Return {A} a.
Arguments Raise {A} e.

(** What the process is started with and what its collaborators do. *)
Record Env := mkEnv {
  SUPABASE_URL : option string;
  SUPABASE_SERVICE_ROLE_KEY : option string;
  SUPABASE_BUCKET : string;
  (** [from supabase import create_client] succeeded *)
  create_client : bool;
  (** the remote store refuses the upload to this path *)
  remote_upload_raises : string -> bool;
  (** the remote store refuses the removal of this path *)
  remote_remove_raises : string -> bool;
  (** [uuid.uuid4().hex] *)
  uuid4_hex : string;
  (** the commit of the notification row fails *)
  notification_commit_raises : bool;
  (** [manager.broadcast] fails *)
  broadcast_raises : bool;
  (** [security.get_password_hash] *)
  get_password_hash : option string -> outcome string;
  (** [func.now()] *)
  now : Z
}.


Definition M (A : Type) : Type := World -> outcome A * World.

Definition ret {A} (a : A) : M A := fun w => (Return a, w).

Definition bind {A B} (m : M A) (k : A -> M B) : M B :=
  fun w =>
    match m w with
    | (Return a, w') => k a w'
    | (Raise e, w') => (Raise e, w')
    end.

Definition raise {A} (e : exn) : M A := fun w => (Raise e, w).

Definition get : M World := fun w => (Return w, w).

Definition modify (f : World -> World) : M unit := fun w => (Return tt, f w).

(** [try: body except Exception as e: handler(e)] *)
Definition try_except {A} (body : M A) (handler : exn -> M A) : M A :=
  fun w =>
    match body w with
    | (Return a, w') => (Return a, w')
    | (Raise e, w') => handler e w'
    end.

Declare Scope handler_scope.
Delimit Scope handler_scope with handler.
Notation "x <- c ;; k" := (bind c (fun x => k))
  (at level 100, c at next level, right associativity) : handler_scope.
Notation "c ;;; k" := (bind c (fun _ => k))
  (at level 100, right associativity) : handler_scope.
Open Scope handler_scope.

(** [print(line)] *)
Definition print (line : string) : M unit :=
  modify (with_printed (fun l => (l ++ [line])%list)).

(** [result.scalar_one_or_none()] *)
Definition scalar_one_or_none {A} (rows : list A) : M (option A) :=
  match rows with
  | [] => ret None
  | [r] => ret (Some r)
  | _ :: _ :: _ => raise MultipleResultsFound
  end.

(** The value an autoincrement primary key gets. *)
Definition next_id (ids : list Z) : Z := fold_right Z.max 0 ids + 1.

(* ================================================================== *)
(** ** utils/storage.py *)

Module storage.

(** [self.client is not None], with [__init__] creating the client
    when the URL and the key are set and the import succeeded. *)
Definition is_configured (env : Env) : bool :=
  Py.truthy (SUPABASE_URL env)
  && Py.truthy (SUPABASE_SERVICE_ROLE_KEY env)
  && create_client env.

Definition _get_public_url (env : Env) (storage_path : string) : string :=
  Py.str_opt (SUPABASE_URL env) ++ "/storage/v1/object/public/"
    ++ SUPABASE_BUCKET env ++ "/" ++ storage_path.

Definition content_types : list (string * string) :=
  [ (".jpg", "image/jpeg"); (".jpeg", "image/jpeg"); (".png", "image/png");
    (".webp", "image/webp"); (".pdf", "application/pdf");
    (".gif", "image/gif") ].

Fixpoint dict_get (d : list (string * string)) (k default : string) :=
  match d with
  | [] => default
  | (k', v) :: d' => if String.eqb k k' then v else dict_get d' k default
  end.

Definition _get_content_type (extension : string) : string :=
  dict_get content_types (Py.lower extension) "application/octet-stream".

(** [self.client.storage.from_(bucket).remove([storage_path])] *)
Definition remote_remove (env : Env) (storage_path : string) : M unit :=
  modify (with_storage_calls
            (fun l => (l ++ [RemoteRemove storage_path])%list)) ;;;
  if remote_remove_raises env storage_path
  then raise (Exception "remove failed")
  else ret tt.

(** [self.client.storage.from_(bucket).upload(storage_path, ...)] *)
Definition remote_upload (env : Env) (storage_path : string)
    (file_content : bytes) (content_type : string) : M unit :=
  modify (with_storage_calls
            (fun l => (l ++ [RemoteUpload storage_path file_content
                                          content_type])%list)) ;;;
  if remote_upload_raises env storage_path
  then raise (Exception "upload failed")
  else ret tt.

Definition upload_profile_image (env : Env) (user_id : Z)
    (file_path : string) (file_content : bytes) : M (option string) :=
  if negb (is_configured env) then ret None
  else
    try_except
      (let ext := Py.lower (Py.suffix file_path) in
       let filename := "profile_picture" ++ ext in
       let storage_path :=
         "users/" ++ Py.str user_id ++ "/profile_picture/" ++ filename in
       try_except (remote_remove env storage_path) (fun _ => ret tt) ;;;
       remote_upload env storage_path file_content
                     (_get_content_type ext) ;;;
       ret (Some (_get_public_url env storage_path)))
      (fun e =>
         print ("Error uploading profile image: " ++ exn_str e) ;;;
         ret None).

Definition upload_verification_document (env : Env) (user_id : Z)
    (file_path : string) (file_content : bytes) : M (option string) :=
  if negb (is_configured env) then ret None
  else
    try_except
      (let ext := Py.lower (Py.suffix file_path) in
       let unique_name := "id_card_" ++ uuid4_hex env ++ ext in
       let storage_path :=
         "users/" ++ Py.str user_id ++ "/verification/" ++ unique_name in
       remote_upload env storage_path file_content
                     (_get_content_type ext) ;;;
       ret (Some (_get_public_url env storage_path)))
      (fun e =>
         print ("Error uploading verification document: " ++ exn_str e) ;;;
         ret None).

Definition upload_marketplace_item (env : Env) (user_id item_id : Z)
    (file_path : string) (file_content : bytes) : M (option string) :=
  if negb (is_configured env) then ret None
  else
    try_except
      (let ext := Py.lower (Py.suffix file_path) in
       let filename := "item_image" ++ ext in
       let storage_path :=
         "marketplace/" ++ Py.str user_id ++ "/items/" ++ Py.str item_id
           ++ "/" ++ filename in
       remote_upload env storage_path file_content
                     (_get_content_type ext) ;;;
       ret (Some (_get_public_url env storage_path)))
      (fun e =>
         print ("Error uploading marketplace item: " ++ exn_str e) ;;;
         ret None).

Definition upload_event_image (env : Env) (event_id organizer_id : Z)
    (file_path : string) (file_content : bytes) : M (option string) :=
  if negb (is_configured env) then ret None
  else
    try_except
      (let ext := Py.lower (Py.suffix file_path) in
       let filename := "event_image" ++ ext in
       let storage_path :=
         "events/" ++ Py.str event_id ++ "/" ++ filename in
       remote_upload env storage_path file_content
                     (_get_content_type ext) ;;;
       ret (Some (_get_public_url env storage_path)))
      (fun e =>
         print ("Error uploading event image: " ++ exn_str e) ;;;
         ret None).

Definition delete_file (env : Env) (storage_path : string) : M bool :=
  if negb (is_configured env) then ret false
  else
    try_except
      (remote_remove env storage_path ;;; ret true)
      (fun e => print ("Error deleting file: " ++ exn_str e) ;;; ret false).

End storage.

(** [upload_dir.mkdir(parents=True, exist_ok=True)] *)
Definition local_mkdir (dir : string) : M unit :=
  modify (with_storage_calls (fun l => (l ++ [LocalMkdir dir])%list)).

(** [c in s] for a character. *)
Fixpoint has_char (c : ascii) (s : string) : bool :=
  match s with
  | EmptyString => false
  | String x s' => Ascii.eqb x c || has_char c s'
  end.

(** The directory and the file name of a path, as [open] resolves it:
    what is before and what is after the last slash. *)
Definition path_dir (p : string) : string :=
  Py.join "/" (removelast (Py.split "/" p)).

Definition path_base (p : string) : string :=
  Py.last_item (Py.split "/" p).

(** The local directories that exist are those an [upload_dir.mkdir] has
    made: the handlers make no other directory. *)
Definition dir_made (d : string) (w : World) : bool :=
  existsb (fun c => match c with
                    | LocalMkdir d' => String.eqb d' d
                    | _ => false
                    end)
          (storage_calls w).

(** A name under which [open] can create a file: not empty, neither [.]
    nor [..], without a NUL byte.  The length limit of the file system is
    left out: the names are an id, an extension and, for two of the
    handlers, the filename of the client. *)
Definition valid_file_name (n : string) : bool :=
  negb (String.eqb n "") && negb (String.eqb n ".")
  && negb (String.eqb n "..") && negb (has_char Ascii.zero n).

(** [with open(file_path, "wb") as buffer: buffer.write(contents)].  The
    [open] raises a [ValueError] for a path with a NUL byte, and an
    [OSError] ([FileNotFoundError] and the like) when the directory of
    the path does not exist or the name is no file name; no handler
    catches either.  A [LocalWrite] of the trace is a file written. *)
Definition local_write (file_path : string) (contents : bytes) : M unit :=
  w <- get ;;
  if has_char Ascii.zero file_path
  then raise (Exception "ValueError")
  else if dir_made (path_dir file_path) w
          && valid_file_name (path_base file_path)
  then modify (with_storage_calls
                 (fun l => (l ++ [LocalWrite file_path contents])%list))
  else raise (Exception "OSError").

(** [file.filename.split(".")[-1].lower()] *)
Definition file_extension_of (filename : string) : string :=
  Py.lower (Py.last_item (Py.split "." filename)).

(* ================================================================== *)
(** ** api/deps.py *)

(** Modelled from the spec: [app/api/deps.py] is not under src.  Section 4.3
    of the spec: [super_admin] is always allowed, and a
    [college_admin_or_above] action is allowed iff the actor's role is
    [college_admin]. *)
Definition college_admin_or_above (u : User.t) : bool :=
  opt_string_eqb (User.role u) (Some "super_admin")
  || opt_string_eqb (User.role u) (Some "college_admin").

(** Modelled from the spec: [deps.get_current_active_college_admin] is not
    under src.  Section 4.3: an actor without the capability gets
    [PermissionDenied]; the handler body runs with the actor otherwise. *)
Definition get_current_active_college_admin (u : User.t) : M User.t :=
  if college_admin_or_above u then ret u else raise PermissionDenied.

(* ================================================================== *)
(** ** api/v1/endpoints/events.py *)

(** Modelled from the spec: [app/schemas/event.py] is not under src.  A
    creation request carries the columns of [Event] that the handler does
    not set itself (section 8: [{title: "Hack Night"}]). *)
Module EventCreate.
Record t := mk {
  title : string;
  description : option string;
  location : option string;
  start_time : option Z;
  end_time : option Z
}.
End EventCreate.

(** Modelled from the spec: [app/schemas/event.py] is not under src.  An
    update request lists the fields that change; [None] is a field the
    request does not set ([exclude_unset]). *)
Module EventUpdate.
Record t := mk {
  title : option string;
  description : option (option string);
  location : option (option string);
  start_time : option (option Z);
  end_time : option (option Z)
}.
End EventUpdate.

Definition or_keep {A} (new : option A) (old : A) : A :=
  match new with Some v => v | None => old end.

(** [for field in update_data: setattr(event, field, update_data[field])] *)
Definition apply_event_update (e : Event.t) (u : EventUpdate.t) : Event.t :=
  Event.mk (Event.id e)
           (or_keep (EventUpdate.title u) (Event.title e))
           (or_keep (EventUpdate.description u) (Event.description e))
           (or_keep (EventUpdate.location u) (Event.location e))
           (or_keep (EventUpdate.start_time u) (Event.start_time e))
           (or_keep (EventUpdate.end_time u) (Event.end_time e))
           (Event.image_url e) (Event.organizer_id e) (Event.college_id e)
           (Event.created_at e).

(** [select(EventModel).where(EventModel.id == id)] *)
Definition events_by_id (id : Z) (w : World) : list Event.t :=
  filter (fun e => Event.id e =? id) (events w).

(** The UPDATE a commit issues for a loaded row: by primary key. *)
Definition replace_event (e : Event.t) (l : list Event.t) : list Event.t :=
  map (fun x => if Event.id x =? Event.id e then e else x) l.

(** [skip] and [limit] are the OFFSET and LIMIT of the query, taken
    non-negative (the only values every SQL back end accepts). *)
Definition read_events (current_user : User.t) (skip limit : nat)
  : M (list Event.t) :=
  w <- get ;;
  let query := events w in
  let query :=
    if negb (User.is_superuser current_user)
    then filter (fun e => opt_Z_eqb (Event.college_id e)
                                    (User.college_id current_user)) query
    else query in
  ret (firstn limit (skipn skip query)).

Definition default_skip : nat := 0.
Definition default_limit : nat := 100.

(** [db.add(new_notif); await db.commit(); await db.refresh(new_notif)] *)
Definition commit_notification (env : Env) (title message type : string)
  : M Notification.t :=
  if notification_commit_raises env then raise (Exception "commit failed")
  else
    w <- get ;;
    let n := Notification.mk
               (next_id (map Notification.id (notifications w)))
               None title message type false (now env) in
    modify (with_notifications (fun l => (l ++ [n])%list)) ;;;
    ret n.

(** [await manager.broadcast(payload)] *)
Definition broadcast (env : Env) (payload : BroadcastPayload) : M unit :=
  modify (with_broadcasts (fun l => (l ++ [payload])%list)) ;;;
  if broadcast_raises env then raise (Exception "broadcast failed")
  else ret tt.

(** [return db_obj] under [response_model=Event]: the response is built
    by reading the attributes of [db_obj] through the session.  A commit
    that failed has rolled the session back and expired the objects
    loaded through it, [db_obj] among them; the read then raises and the
    request ends in a 500.  [expired] says whether that happened. *)
Definition respond {A : Type} (expired : bool) (obj : A) : M A :=
  if expired then raise (HTTPException 500 "Internal Server Error")
  else ret obj.

(** The session is rolled back exactly when the commit of the
    notification row fails; a broadcast that fails leaves it alone. *)
Definition create_event (env : Env) (event_in : EventCreate.t)
    (current_user : User.t) : M Event.t :=
  current_user <- get_current_active_college_admin current_user ;;
  w <- get ;;
  let db_obj :=
    Event.mk (next_id (map Event.id (events w)))
             (EventCreate.title event_in)
             (EventCreate.description event_in)
             (EventCreate.location event_in)
             (EventCreate.start_time event_in)
             (EventCreate.end_time event_in)
             None
             (User.id current_user)
             (User.college_id current_user)
             (now env) in
  modify (with_events (fun l => (l ++ [db_obj])%list)) ;;;
  try_except
    (new_notif <- commit_notification env "New Event!"
                    (Event.title db_obj ++ " has been organized by "
                       ++ Py.str_opt (User.full_name current_user))
                    "info" ;;
     broadcast env (mkPayload "notification"
                              (Notification.title new_notif)
                              (Notification.message new_notif)
                              (Notification.type new_notif)
                              (Notification.id new_notif)))
    (fun e => print ("Notification Error: " ++ exn_str e)) ;;;
  respond (notification_commit_raises env) db_obj.

Definition read_event (id : Z) : M Event.t :=
  w <- get ;;
  event <- scalar_one_or_none (events_by_id id w) ;;
  match event with
  | None => raise (HTTPException 404 "Event not found")
  | Some event => ret event
  end.

Definition update_event (id : Z) (event_in : EventUpdate.t)
    (current_user : User.t) : M Event.t :=
  w <- get ;;
  event <- scalar_one_or_none (events_by_id id w) ;;
  match event with
  | None => raise (HTTPException 404 "Event not found")
  | Some event =>
      if negb (User.is_superuser current_user)
         && negb (Event.organizer_id event =? User.id current_user)
      then raise (HTTPException 400 "Not enough permissions")
      else
        let event := apply_event_update event event_in in
        modify (with_events (replace_event event)) ;;;
        ret event
  end.

Definition delete_event (id : Z) (current_user : User.t) : M Event.t :=
  w <- get ;;
  event <- scalar_one_or_none (events_by_id id w) ;;
  match event with
  | None => raise (HTTPException 404 "Event not found")
  | Some event =>
      if negb (User.is_superuser current_user)
         && negb (Event.organizer_id event =? User.id current_user)
      then raise (HTTPException 400 "Not enough permissions")
      else
        modify (fun w =>
          with_participations
            (filter (fun p => negb (Participation.event_id p
                                    =? Event.id event)))
            (with_events
               (filter (fun e => negb (Event.id e =? Event.id event))) w)) ;;;
        ret event
  end.

Definition image_extensions : list string := ["jpg"; "jpeg"; "png"; "webp"].

Definition upload_event_image (env : Env) (id : Z) (filename : string)
    (contents : bytes) (current_user : User.t) : M Event.t :=
  w <- get ;;
  event <- scalar_one_or_none (events_by_id id w) ;;
  match event with
  | None => raise (HTTPException 404 "Event not found")
  | Some event =>
      if negb (User.is_superuser current_user)
         && negb (Event.organizer_id event =? User.id current_user)
      then raise (HTTPException 403 "Not enough permissions")
      else
        let file_extension := file_extension_of filename in
        if negb (Py.mem file_extension image_extensions)
        then raise (HTTPException 400
                      "Invalid file type. Only JPG/PNG/WEBP allowed.")
        else
          image_url <- storage.upload_event_image env (Event.id event)
                         (Event.organizer_id event) filename contents ;;
          image_url <-
            match image_url with
            | Some url => ret url
            | None =>
                let upload_dir := "static/events" in
                local_mkdir upload_dir ;;;
                let file_name :=
                  "event_" ++ Py.str (Event.id event) ++ "."
                    ++ file_extension in
                local_write (Py.path_join upload_dir file_name) contents ;;;
                ret ("/static/events/" ++ file_name)
            end ;;
          let event := Event.set_image_url event (Some image_url) in
          modify (with_events (replace_event event)) ;;;
          ret event
  end.

(* ================================================================== *)
(** ** schemas/user.py and api/v1/endpoints/users.py *)

(** [UserUpdate(UserBase)]: every field is optional in the request.  The
    outer [option] says whether the request sets the field (what
    [dict(exclude_unset=True)] keeps), the inner one is the [Optional] of
    the schema. *)
Module UserUpdate.
Record t := mk {
  email : option (option string);
  is_active : option (option bool);
  is_superuser : option bool;
  full_name : option (option string);
  phone_number : option (option string);
  address : option (option string);
  interests : option (option string);
  college_name : option (option string);
  profile_image_url : option (option string);
  theme_preference : option (option string);
  college_id : option (option Z);
  role : option (option string);
  password : option (option string)
}.

(** The request that sets nothing. *)
Definition unset : t :=
  mk None None None None None None None None None None None None None.
End UserUpdate.

(** What an update request does to one field: the value of the request
    when it sets the field, the old value otherwise. *)
Definition assigned {A : Type} (request : option A) (old new : A) : Prop :=
  match request with
  | Some v => new = v
  | None => new = old
  end.

(** [for field in update_data: setattr(current_user, field, ...)], for the
    fields other than [email] and [password]. *)
Definition apply_user_update (u : User.t) (d : UserUpdate.t)
    (email hashed_password : string) : User.t :=
  User.mk (User.id u)
          (or_keep (UserUpdate.full_name d) (User.full_name u))
          email
          hashed_password
          (or_keep (UserUpdate.role d) (User.role u))
          (or_keep (UserUpdate.college_id d) (User.college_id u))
          (or_keep (UserUpdate.phone_number d) (User.phone_number u))
          (or_keep (UserUpdate.address d) (User.address u))
          (or_keep (UserUpdate.interests d) (User.interests u))
          (or_keep (UserUpdate.college_name d) (User.college_name u))
          (or_keep (UserUpdate.profile_image_url d)
                   (User.profile_image_url u))
          (or_keep (UserUpdate.theme_preference d)
                   (User.theme_preference u))
          (or_keep (UserUpdate.is_active d) (User.is_active u))
          (or_keep (UserUpdate.is_superuser d) (User.is_superuser u))
          (User.events_count u)
          (User.buddies_count u).

Definition replace_user (u : User.t) (l : list User.t) : list User.t :=
  map (fun x => if User.id x =? User.id u then u else x) l.

(** [email] is [unique=True, nullable=False]: the commit of a row whose
    email is null or belongs to another row raises. *)
Definition checked_email (current_user : User.t)
    (e : option (option string)) : M string :=
  match e with
  | None => ret (User.email current_user)
  | Some None => raise IntegrityError
  | Some (Some a) =>
      w <- get ;;
      if existsb (fun x => String.eqb (User.email x) a
                           && negb (User.id x =? User.id current_user))
                 (users w)
      then raise IntegrityError
      else ret a
  end.

(** [college_id] is [ForeignKey("colleges.id")]: the commit of a row
    whose new college is the id of no college raises. *)
Definition checked_college (c : option (option Z)) : M unit :=
  match c with
  | Some (Some id) =>
      w <- get ;;
      if existsb (fun x => College.id x =? id) (colleges w)
      then ret tt
      else raise IntegrityError
  | _ => ret tt
  end.

Definition update_user_me (env : Env) (user_in : UserUpdate.t)
    (current_user : User.t) : M User.t :=
  hashed_password <-
    match UserUpdate.password user_in with
    | Some p =>
        (fun w => (get_password_hash env p, w))
    | None => ret (User.hashed_password current_user)
    end ;;
  email <- checked_email current_user (UserUpdate.email user_in) ;;
  checked_college (UserUpdate.college_id user_in) ;;;
  let current_user :=
    apply_user_update current_user user_in email hashed_password in
  modify (with_users (replace_user current_user)) ;;;
  ret current_user.

Definition set_profile_image_url (u : User.t) (url : option string)
  : User.t :=
  User.mk (User.id u) (User.full_name u) (User.email u)
          (User.hashed_password u) (User.role u) (User.college_id u)
          (User.phone_number u) (User.address u) (User.interests u)
          (User.college_name u) url (User.theme_preference u)
          (User.is_active u) (User.is_superuser u) (User.events_count u)
          (User.buddies_count u).

Definition upload_profile_image (env : Env) (filename : string)
    (contents : bytes) (current_user : User.t) : M User.t :=
  let file_extension := file_extension_of filename in
  if negb (Py.mem file_extension image_extensions)
  then raise (HTTPException 400
                "Invalid file type. Only JPG/PNG/WEBP allowed.")
  else
    image_url <- storage.upload_profile_image env (User.id current_user)
                   filename contents ;;
    image_url <-
      match image_url with
      | Some url => ret url
      | None =>
          let upload_dir := "static/profile_images" in
          local_mkdir upload_dir ;;;
          let file_name :=
            "user_" ++ Py.str (User.id current_user) ++ "."
              ++ file_extension in
          local_write (Py.path_join upload_dir file_name) contents ;;;
          ret ("/static/profile_images/" ++ file_name)
      end ;;
    let current_user := set_profile_image_url current_user (Some image_url) in
    modify (with_users (replace_user current_user)) ;;;
    ret current_user.

(** [UserCreate(UserBase)]: the fields that [create_user] reads. *)
Module UserCreate.
Record t := mk {
  email : string;
  password : string;
  full_name : option string;
  is_superuser : bool
}.
End UserCreate.

(** [select(College).where(College.invite_code == invite_code)] *)
Definition colleges_by_invite_code (invite_code : string) (w : World)
  : list College.t :=
  filter (fun c => String.eqb (College.invite_code c) invite_code)
         (colleges w).

Definition create_user (env : Env) (user_in : UserCreate.t)
    (invite_code : option string) : M User.t :=
  w <- get ;;
  user <- scalar_one_or_none
            (filter (fun u => String.eqb (User.email u)
                                         (UserCreate.email user_in))
                    (users w)) ;;
  match user with
  | Some _ =>
      raise (HTTPException 400
               "The user with this username already exists in the system.")
  | None =>
      college_id <-
        (if Py.truthy invite_code
         then
           college <- scalar_one_or_none
                        (colleges_by_invite_code (Py.str_opt invite_code) w) ;;
           match college with
           | None => raise (HTTPException 400 "Invalid invite code")
           | Some college => ret (Some (College.id college))
           end
         else ret None) ;;
      hashed_password <-
        (fun w => (get_password_hash env
                     (Some (UserCreate.password user_in)), w)) ;;
      let db_obj :=
        User.mk (next_id (map User.id (users w)))
                (UserCreate.full_name user_in)
                (UserCreate.email user_in)
                hashed_password
                (Some (if negb (UserCreate.is_superuser user_in)
                       then "student" else "super_admin"))
                college_id None None None None None (Some "system")
                (Some true) (UserCreate.is_superuser user_in)
                (Some 0) (Some 0) in
      modify (with_users (fun l => (l ++ [db_obj])%list)) ;;;
      ret db_obj
  end.

Definition read_users (current_user : User.t) (skip limit : nat)
  : M (list User.t) :=
  current_user <- get_current_active_college_admin current_user ;;
  w <- get ;;
  let query := users w in
  let query :=
    if negb (User.is_superuser current_user)
    then filter (fun u => opt_Z_eqb (User.college_id u)
                                    (User.college_id current_user)) query
    else query in
  ret (firstn limit (skipn skip query)).

Definition set_counts (u : User.t) (events_count buddies_count : Z)
  : User.t :=
  User.mk (User.id u) (User.full_name u) (User.email u)
          (User.hashed_password u) (User.role u) (User.college_id u)
          (User.phone_number u) (User.address u) (User.interests u)
          (User.college_name u) (User.profile_image_url u)
          (User.theme_preference u) (User.is_active u)
          (User.is_superuser u) (Some events_count) (Some buddies_count).

Definition read_user_me (current_user : User.t) : M User.t :=
  w <- get ;;
  let mine :=
    filter (fun p => Participation.user_id p =? User.id current_user)
           (participations w) in
  let evt_count := Z.of_nat (List.length mine) in
  let subq := map Participation.event_id mine in
  let buddies :=
    nodup Z.eq_dec
      (map Participation.user_id
         (filter (fun p =>
                    existsb (Z.eqb (Participation.event_id p)) subq
                    && negb (Participation.user_id p
                             =? User.id current_user))
                 (participations w))) in
  let buddy_count := Z.of_nat (List.length buddies) in
  let current_user := set_counts current_user evt_count buddy_count in
  modify (with_users (replace_user current_user)) ;;;
  ret current_user.

Definition set_college (u : User.t) (college_id : option Z)
    (college_name : option string) : User.t :=
  User.mk (User.id u) (User.full_name u) (User.email u)
          (User.hashed_password u) (User.role u) college_id
          (User.phone_number u) (User.address u) (User.interests u)
          college_name (User.profile_image_url u)
          (User.theme_preference u) (User.is_active u)
          (User.is_superuser u) (User.events_count u)
          (User.buddies_count u).

Definition join_college (invite_code : string) (current_user : User.t)
  : M string :=
  w <- get ;;
  college <- scalar_one_or_none (colleges_by_invite_code invite_code w) ;;
  match college with
  | None => raise (HTTPException 400 "Invalid invite code")
  | Some college =>
      let current_user :=
        set_college current_user (Some (College.id college))
                    (Some (College.name college)) in
      modify (with_users (replace_user current_user)) ;;;
      ret ("Successfully joined " ++ College.name college)
  end.

(** [await db.delete(user); await db.commit()]: the row goes, and with it
    the rows that reference it ([cascade="all, delete-orphan"] on the
    relationships, [ondelete="CASCADE"] on the foreign keys). *)
Definition delete_user_rows (id : Z) (w : World) : World :=
  let organized e := Event.organizer_id e =? id in
  let gone := map Event.id (filter organized (events w)) in
  with_users (filter (fun u => negb (User.id u =? id)))
    (with_events (filter (fun e => negb (organized e)))
       (with_participations
          (filter (fun p =>
                     negb (Participation.user_id p =? id)
                     && negb (existsb (Z.eqb (Participation.event_id p))
                                      gone)))
          (with_notifications
             (filter (fun n => negb (opt_Z_eqb (Notification.user_id n)
                                               (Some id))))
             (with_marketplace_items
                (filter (fun i => negb (MarketplaceItem.owner_id i =? id)))
                (with_verification_requests
                   (filter (fun v =>
                              negb (VerificationRequest.user_id v =? id)))
                   w))))).

Definition delete_user (id : Z) (current_user : User.t) : M string :=
  if negb (User.is_superuser current_user)
     && negb (User.id current_user =? id)
  then raise (HTTPException 403 "Not enough permissions")
  else
    w <- get ;;
    user <- scalar_one_or_none
              (filter (fun u => User.id u =? id) (users w)) ;;
    match user with
    | None => raise (HTTPException 404 "User not found")
    | Some user =>
        modify (delete_user_rows (User.id user)) ;;;
        ret "User deleted"
    end.

(* ================================================================== *)
(** ** api/v1/endpoints/marketplace.py *)

Definition replace_item (i : MarketplaceItem.t)
    (l : list MarketplaceItem.t) : list MarketplaceItem.t :=
  map (fun x => if MarketplaceItem.id x =? MarketplaceItem.id i
                then i else x) l.

(** [file] is the optional upload: its filename and its content. *)
Definition create_item (env : Env) (title description : string)
    (price : float) (category : string) (file : option (string * bytes))
    (current_user : User.t) : M MarketplaceItem.t :=
  w <- get ;;
  let db_obj :=
    MarketplaceItem.mk
      (next_id (map MarketplaceItem.id (marketplace_items w)))
      (User.id current_user) title description price category None true
      (now env) in
  modify (with_marketplace_items (fun l => (l ++ [db_obj])%list)) ;;;
  match file with
  | None => ret db_obj
  | Some (filename, contents) =>
      let ext := file_extension_of filename in
      if negb (Py.mem ext image_extensions)
      then raise (HTTPException 400
                    "Invalid file type. Only JPG/PNG/WEBP allowed.")
      else
        image_url <- storage.upload_marketplace_item env
                       (User.id current_user) (MarketplaceItem.id db_obj)
                       filename contents ;;
        image_url <-
          match image_url with
          | Some url => ret url
          | None =>
              local_mkdir "static/marketplace" ;;;
              let safe_name :=
                Py.str (User.id current_user) ++ "_" ++ filename in
              let image_path := "static/marketplace/" ++ safe_name in
              local_write image_path contents ;;;
              ret (Py.replace "\" "/" image_path)
          end ;;
        let db_obj := MarketplaceItem.set_image_url db_obj (Some image_url) in
        modify (with_marketplace_items (replace_item db_obj)) ;;;
        ret db_obj
  end.

(** The rows of [select(MIModel, UserModel.full_name).join(UserModel,
    MIModel.owner_id == UserModel.id).where(MIModel.is_available == True)],
    paged: each available item with the name of its owner. *)
Definition read_items (current_user : User.t) (skip limit : nat)
  : M (list (MarketplaceItem.t * option string)) :=
  w <- get ;;
  let rows :=
    flat_map
      (fun i =>
         map (fun u => (i, User.full_name u))
             (filter (fun u => MarketplaceItem.owner_id i =? User.id u)
                     (users w)))
      (filter MarketplaceItem.is_available (marketplace_items w)) in
  ret (firstn limit (skipn skip rows)).

Definition delete_item (id : Z) (current_user : User.t) : M string :=
  w <- get ;;
  item <- scalar_one_or_none
            (filter (fun i => MarketplaceItem.id i =? id)
                    (marketplace_items w)) ;;
  match item with
  | None => raise (HTTPException 404 "Item not found")
  | Some item =>
      if negb (User.is_superuser current_user)
         && negb (MarketplaceItem.owner_id item =? User.id current_user)
      then raise (HTTPException 403 "Not enough permissions")
      else
        modify (with_marketplace_items
                  (filter (fun i => negb (MarketplaceItem.id i
                                          =? MarketplaceItem.id item)))) ;;;
        ret "Item deleted"
  end.

(* ================================================================== *)
(** ** api/v1/endpoints/verifications.py *)

Definition document_extensions : list string := ["jpg"; "jpeg"; "png"; "pdf"].

(** [select(VRModel).where(VRModel.user_id == uid,
                            VRModel.status == "pending")] *)
Definition pending_of (uid : Z) (l : list VerificationRequest.t)
  : list VerificationRequest.t :=
  filter (fun v => (VerificationRequest.user_id v =? uid)
                   && String.eqb (VerificationRequest.status v) "pending") l.

(** [select(VRModel).where(VRModel.id == id)] *)
Definition requests_by_id (id : Z) (w : World)
  : list VerificationRequest.t :=
  filter (fun v => VerificationRequest.id v =? id) (verification_requests w).

Definition replace_request (v : VerificationRequest.t)
    (l : list VerificationRequest.t) : list VerificationRequest.t :=
  map (fun x => if VerificationRequest.id x =? VerificationRequest.id v
                then v else x) l.

Definition create_verification_request (env : Env) (filename : string)
    (contents : bytes) (current_user : User.t) : M string :=
  w <- get ;;
  existing <- scalar_one_or_none
                (pending_of (User.id current_user)
                            (verification_requests w)) ;;
  match existing with
  | Some _ =>
      raise (HTTPException 400
               "A pending verification request already exists.")
  | None =>
      let ext := file_extension_of filename in
      if negb (Py.mem ext document_extensions)
      then raise (HTTPException 400
                    "Invalid file type. Only JPG/PNG/PDF allowed.")
      else
        id_card_url <- storage.upload_verification_document env
                         (User.id current_user) filename contents ;;
        id_card_url <-
          match id_card_url with
          | Some url => ret url
          | None =>
              let upload_dir := "static/verifications" in
              local_mkdir upload_dir ;;;
              let file_path :=
                Py.path_join upload_dir
                  ("id_" ++ Py.str (User.id current_user) ++ "_"
                     ++ filename) in
              local_write file_path contents ;;;
              ret (Py.replace "\" "/" file_path)
          end ;;
        w <- get ;;
        let db_obj :=
          VerificationRequest.mk
            (next_id (map VerificationRequest.id (verification_requests w)))
            (User.id current_user) id_card_url "pending" None (now env) in
        modify (with_verification_requests (fun l => (l ++ [db_obj])%list)) ;;;
        ret "Verification request submitted successfully"
  end.

Definition approve_request (id : Z) (current_user : User.t) : M string :=
  current_user <- get_current_active_college_admin current_user ;;
  w <- get ;;
  vr <- scalar_one_or_none (requests_by_id id w) ;;
  match vr with
  | None => raise (HTTPException 404 "Verification request not found")
  | Some vr =>
      let vr := VerificationRequest.set_status vr "approved" in
      modify (with_verification_requests (replace_request vr)) ;;;
      ret "Approved"
  end.

Definition reject_request (id : Z) (note : option string)
    (current_user : User.t) : M string :=
  current_user <- get_current_active_college_admin current_user ;;
  w <- get ;;
  vr <- scalar_one_or_none (requests_by_id id w) ;;
  match vr with
  | None => raise (HTTPException 404 "Verification request not found")
  | Some vr =>
      let vr := VerificationRequest.set_status vr "rejected" in
      let vr := VerificationRequest.set_admin_note vr note in
      modify (with_verification_requests (replace_request vr)) ;;;
      ret "Rejected"
  end.

(** The requests of the given status with the name of the submitter; for
    a reviewer who is not a superuser, those of the reviewer's college. *)
Definition read_verification_requests (current_user : User.t)
    (status : string) : M (list (VerificationRequest.t * option string)) :=
  current_user <- get_current_active_college_admin current_user ;;
  w <- get ;;
  let rows :=
    flat_map
      (fun v =>
         map (fun u => (v, User.full_name u))
             (filter
                (fun u =>
                   (VerificationRequest.user_id v =? User.id u)
                   && (User.is_superuser current_user
                       || opt_Z_eqb (User.college_id u)
                                    (User.college_id current_user)))
                (users w)))
      (filter (fun v => String.eqb (VerificationRequest.status v) status)
              (verification_requests w)) in
  ret rows.

(* ================================================================== *)
(** ** Sample data *)

Module Sample.

(** No remote store: neither URL nor key is set; notifications fail. *)
Definition env_offline : Env :=
  mkEnv None None "campus-storage" true (fun _ => false) (fun _ => false)
        "0123456789abcdef0123456789abcdef" true true
        (fun p => match p with
                  | Some s => Return ("hash:" ++ s)
                  | None => Raise (Exception "TypeError")
                  end)
        1700000000.

(** A configured remote store that accepts every call. *)
Definition env_online : Env :=
  mkEnv (Some "https://x.supabase.co") (Some "service-key")
        "campus-storage" true (fun _ => false) (fun _ => false)
        "0123456789abcdef0123456789abcdef" false false
        (fun p => match p with
                  | Some s => Return ("hash:" ++ s)
                  | None => Raise (Exception "TypeError")
                  end)
        1700000000.

Definition user (id : Z) (name : string) (role : string)
    (college : option Z) (super : bool) : User.t :=
  User.mk id (Some name) (name ++ "@campus.edu") "x" (Some role) college
          None None None None None (Some "system") (Some true) super
          (Some 0) (Some 0).

Definition college_t1 : College.t :=
  College.mk 1 "North College" "ABC123" "north" true 1680000000.
Definition college_t2 : College.t :=
  College.mk 2 "South College" "XYZ789" "south" true 1680000000.

Definition admin_t1 : User.t := user 10 "alice" "college_admin" (Some 1) false.
Definition student_t1 : User.t := user 11 "sam" "student" (Some 1) false.
Definition student_t2 : User.t := user 20 "tom" "student" (Some 2) false.
Definition admin_t2 : User.t := user 21 "ann" "college_admin" (Some 2) false.
Definition root : User.t := user 1 "root" "super_admin" None true.

Definition event (id : Z) (title : string) (organizer : Z)
    (college : option Z) : Event.t :=
  Event.mk id title None None None None None organizer college 1690000000.

Definition hack_night : Event.t := event 1 "Hack Night" 10 (Some 1).
Definition quiz : Event.t := event 2 "Quiz" 21 (Some 2).

Definition request (id uid : Z) (status : string) : VerificationRequest.t :=
  VerificationRequest.mk id uid "static/verifications/id.png" status None
                         1690000000.

Definition world : World :=
  mkWorld [college_t1; college_t2]
          [root; admin_t1; student_t1; student_t2; admin_t2]
          [hack_night; quiz] [] [] []
          [request 1 11 "pending"; request 2 20 "rejected"] [] [] [].

(** 101 events of tenant 1, ids 1 to 101. *)
Definition many_events : list Event.t :=
  map (fun n => event (Z.of_nat n) "Meetup" 10 (Some 1)) (seq 1 101).

Definition crowded_world : World :=
  mkWorld [college_t1] [admin_t1; student_t1] many_events [] [] [] [] [] [] [].

Definition hack_night_in : EventCreate.t :=
  EventCreate.mk "Hack Night" None None None None.

Definition rename : EventUpdate.t :=
  EventUpdate.mk (Some "Taken over") None None None None.

Definition content : bytes := [Byte.x89; Byte.x50; Byte.x4e; Byte.x47].

End Sample.

(* ================================================================== *)
(** ** The operations of the API as one request type *)

Inductive request :=
| ReadEvents (current_user : User.t) (skip limit : nat)
| CreateEvent (event_in : EventCreate.t) (current_user : User.t)
| ReadEvent (id : Z)
| UpdateEvent (id : Z) (event_in : EventUpdate.t) (current_user : User.t)
| DeleteEvent (id : Z) (current_user : User.t)
| UploadEventImage (id : Z) (filename : string) (contents : bytes)
                   (current_user : User.t)
| UpdateUserMe (user_in : UserUpdate.t) (current_user : User.t)
| UploadProfileImage (filename : string) (contents : bytes)
                     (current_user : User.t)
| CreateItem (title description : string) (price : float)
             (category : string) (file : option (string * bytes))
             (current_user : User.t)
| CreateVerificationRequest (filename : string) (contents : bytes)
                            (current_user : User.t)
| ApproveRequest (id : Z) (current_user : User.t)
| RejectRequest (id : Z) (note : option string) (current_user : User.t)
| ReadVerificationRequests (current_user : User.t) (status : string)
| CreateUser (user_in : UserCreate.t) (invite_code : option string)
| ReadUsers (current_user : User.t) (skip limit : nat)
| ReadUserMe (current_user : User.t)
| JoinCollege (invite_code : string) (current_user : User.t)
| DeleteUser (id : Z) (current_user : User.t)
| ReadItems (current_user : User.t) (skip limit : nat)
| DeleteItem (id : Z) (current_user : User.t).

(** The world a request leaves behind, whether it returns or raises.
    ([register_participation] is not among the requests: it only calls
    [app.services.event_service], which is not under src.) *)
Definition world_after (env : Env) (r : request) (w : World) : World :=
  match r with
  | ReadEvents u skip limit => snd (read_events u skip limit w)
  | CreateEvent e u => snd (create_event env e u w)
  | ReadEvent id => snd (read_event id w)
  | UpdateEvent id e u => snd (update_event id e u w)
  | DeleteEvent id u => snd (delete_event id u w)
  | UploadEventImage id f c u => snd (upload_event_image env id f c u w)
  | UpdateUserMe d u => snd (update_user_me env d u w)
  | UploadProfileImage f c u => snd (upload_profile_image env f c u w)
  | CreateItem t d p c f u => snd (create_item env t d p c f u w)
  | CreateVerificationRequest f c u =>
      snd (create_verification_request env f c u w)
  | ApproveRequest id u => snd (approve_request id u w)
  | RejectRequest id note u => snd (reject_request id note u w)
  | ReadVerificationRequests u status =>
      snd (read_verification_requests u status w)
  | CreateUser d invite_code => snd (create_user env d invite_code w)
  | ReadUsers u skip limit => snd (read_users u skip limit w)
  | ReadUserMe u => snd (read_user_me u w)
  | JoinCollege invite_code u => snd (join_college invite_code u w)
  | DeleteUser id u => snd (delete_user id u w)
  | ReadItems u skip limit => snd (read_items u skip limit w)
  | DeleteItem id u => snd (delete_item id u w)
  end.

(** At most one pending verification request per user. *)
Definition at_most_one_pending (l : list VerificationRequest.t) : Prop :=
  forall uid, (List.length (pending_of uid l) <= 1)%nat.

(** The events an actor may list: all of them for a superuser, those of
    the actor's college otherwise. *)
Definition visible_events (u : User.t) (w : World) : list Event.t :=
  if User.is_superuser u then events w
  else filter (fun e => opt_Z_eqb (Event.college_id e) (User.college_id u))
              (events w).

(** The row that [create_item] commits before it looks at the file. *)
Definition new_item (env : Env) (title description : string) (price : float)
    (category : string) (current_user : User.t) (w : World)
  : MarketplaceItem.t :=
  MarketplaceItem.mk
    (next_id (map MarketplaceItem.id (marketplace_items w)))
    (User.id current_user) title description price category None true
    (now env).

(** A computation leaves a part of the world as it found it, whether it
    returns or raises. *)
Definition preserves {T A : Type} (proj : World -> T) (m : M A) : Prop :=
  forall w, proj (snd (m w)) = proj w.

(** A computation that returns a value from every world: no exception
    reaches its caller, and only the traces of the world may change. *)
Definition quiet {A : Type} (m : M A) : Prop :=
  forall w, exists a w',
    m w = (Return a, w')
    /\ users w' = users w /\ events w' = events w
    /\ participations w' = participations w
    /\ notifications w' = notifications w
    /\ marketplace_items w' = marketplace_items w
    /\ verification_requests w' = verification_requests w
    /\ colleges w' = colleges w.

(** The database tables, without the traces. *)
Definition tables (w : World) :=
  (colleges w, users w, events w, participations w, notifications w,
   marketplace_items w, verification_requests w).

(** More sample data: a configured store that refuses every upload and
    every removal. *)
Module Fixture.


(** A configured store whose removals fail and whose uploads work. *)
Definition env_no_removal : Env :=
  mkEnv (Some "https://x.supabase.co") (Some "service-key")
        "campus-storage" true (fun _ => false) (fun _ => true)
        "0123456789abcdef0123456789abcdef" false false
        (fun p => match p with
                  | Some s => Return ("hash:" ++ s)
                  | None => Raise (Exception "TypeError")
                  end)
        1700000000.

(** No store; the notification row is committed and the broadcast
    fails. *)
Definition env_broadcast_down : Env :=
  mkEnv None None "campus-storage" true (fun _ => false) (fun _ => false)
        "0123456789abcdef0123456789abcdef" false true
        (fun p => match p with
                  | Some s => Return ("hash:" ++ s)
                  | None => Raise (Exception "TypeError")
                  end)
        1700000000.

Definition participation (id uid eid : Z) : Participation.t :=
  Participation.mk id uid eid 1695000000 "registered".

Definition item (id owner : Z) (title : string) (available : bool)
  : MarketplaceItem.t :=
  MarketplaceItem.mk id owner title "as new" 5%float "other" None available
                     1695000000.

(** A world with participations and marketplace items. *)
Definition busy_world : World :=
  mkWorld [Sample.college_t1; Sample.college_t2]
          [Sample.root; Sample.admin_t1; Sample.student_t1;
           Sample.student_t2; Sample.admin_t2]
          [Sample.hack_night; Sample.quiz]
          [participation 1 11 1; participation 2 20 1;
           participation 3 20 2; participation 4 10 1]
          []
          [item 1 11 "Lamp" true; item 2 20 "Bike" false;
           item 3 99 "Orphan" true]
          [Sample.request 1 11 "pending"; Sample.request 2 20 "rejected"]
          [] [] [].

Definition eve : UserCreate.t :=
  UserCreate.mk "eve@campus.edu" "pw" (Some "eve") true.

End Fixture.

(* ================================================================== *)
(** ** Basic facts *)

Lemma opt_Z_eqb_eq (a b : option Z) : opt_Z_eqb a b = true <-> a = b.
Proof.
  destruct a as [x|], b as [y|]; simpl; split; intro H;
    try discriminate; try reflexivity.
  - apply Z.eqb_eq in H. now subst.
  - inversion H. apply Z.eqb_refl.
Qed.

Lemma next_id_above (ids : list Z) (x : Z) : In x ids -> x < next_id ids.
Proof.
  unfold next_id. induction ids as [|y ids IH]; simpl; intros H.
  - contradiction.
  - destruct H as [-> | H]; [| specialize (IH H)]; lia.
Qed.

Section ByKey.
Context {A : Type} (key : A -> Z).

Lemma filter_key_absent (l : list A) (k : Z) :
  ~ In k (map key l) -> filter (fun y => key y =? k) l = [].
Proof.
  induction l as [|a l IH]; simpl; intros H; [reflexivity|].
  destruct (Z.eqb_spec (key a) k) as [E|E].
  - exfalso. apply H. now left.
  - apply IH. intros I. apply H. now right.
Qed.

Lemma filter_key_unique (l : list A) (x : A) :
  NoDup (map key l) -> In x l ->
  filter (fun y => key y =? key x) l = [x].
Proof.
  induction l as [|a l IH]; simpl; intros ND I; [contradiction|].
  inversion ND as [|? ? NI ND']; subst.
  destruct I as [-> | I].
  - rewrite Z.eqb_refl. f_equal. now apply filter_key_absent.
  - destruct (Z.eqb_spec (key a) (key x)) as [E|E].
    + exfalso. apply NI. rewrite E. now apply in_map.
    + now apply IH.
Qed.


(** After the rewrite of a row, a lookup by its key finds the new row. *)
Lemma filter_key_replaced (l : list A) (x x' : A) :
  NoDup (map key l) -> In x l -> key x' = key x ->
  filter (fun y => key y =? key x)
         (map (fun y => if key y =? key x' then x' else y) l) = [x'].
Proof.
  intros ND I E. rewrite E.
  induction l as [|a l IH]; simpl; [contradiction|].
  inversion ND as [|? ? NI ND']; subst.
  assert (G : forall m, ~ In (key x) (map key m) ->
              filter (fun y => key y =? key x)
                (map (fun y => if key y =? key x then x' else y) m) = []).
  { induction m as [|b m IHm]; simpl; intros H; [reflexivity|].
    destruct (Z.eqb_spec (key b) (key x)) as [K|K].
    - exfalso. apply H. now left.
    - apply Z.eqb_neq in K. rewrite K. apply IHm.
      intros J. apply H. now right. }
  destruct I as [-> | I].
  - rewrite Z.eqb_refl, E, Z.eqb_refl. f_equal. now apply G.
  - destruct (Z.eqb_spec (key a) (key x)) as [K|K].
    + exfalso. apply NI. rewrite K. now apply in_map.
    + apply Z.eqb_neq in K. rewrite K. now apply IH.
Qed.
End ByKey.

(* ================================================================== *)
(** ** Listing events *)

Lemma read_events_eq (u : User.t) (skip limit : nat) (w : World) :
  read_events u skip limit w
  = (Return (firstn limit (skipn skip (visible_events u w))), w).
Proof.
  unfold read_events, visible_events, bind, get, ret. simpl.
  now destruct (User.is_superuser u).
Qed.

Lemma in_page {A} (l : list A) (skip limit : nat) (x : A) :
  In x (firstn limit (skipn skip l)) -> In x l.
Proof.
  intros H.
  rewrite <- (firstn_skipn skip l). apply in_or_app. right.
  rewrite <- (firstn_skipn limit (skipn skip l)). apply in_or_app. now left.
Qed.

Lemma visible_events_tenant (u : User.t) (w : World) (e : Event.t) :
  User.is_superuser u = false ->
  (In e (visible_events u w) <->
   In e (events w) /\ Event.college_id e = User.college_id u).
Proof.
  intros S. unfold visible_events. rewrite S, filter_In.
  now rewrite opt_Z_eqb_eq.
Qed.

(** C1, as amended.  A listing returns the window of [limit] rows after
    the first [skip] of the events the actor may see, and leaves the world
    as it was.  For an actor who is not a superuser the events that may be
    seen are exactly those of the actor's college, so every listed event
    belongs to it; for a superuser they are the events of all tenants.
    The window is the whole of them when [skip] is 0 and [limit] is at
    least their number. *)
Theorem read_events_page (u : User.t) (skip limit : nat) (w : World) :
  let page := firstn limit (skipn skip (visible_events u w)) in
  read_events u skip limit w = (Return page, w)
  /\ (forall e, In e page -> In e (visible_events u w))
  /\ (forall e, User.is_superuser u = false ->
        (In e (visible_events u w) <->
         In e (events w) /\ Event.college_id e = User.college_id u))
  /\ (User.is_superuser u = true -> visible_events u w = events w)
  /\ (skip = 0%nat -> (List.length (visible_events u w) <= limit)%nat ->
        page = visible_events u w).
Proof.
  intros page. split; [|split; [|split; [|split]]].
  - apply read_events_eq.
  - intros e. apply in_page.
  - intros e S. now apply visible_events_tenant.
  - intros S. unfold visible_events. now rewrite S.
  - intros -> L. unfold page. simpl. now apply firstn_all2.
Qed.

Lemma read_events_page_witness :
  User.is_superuser Sample.student_t2 = false
  /\ read_events Sample.student_t2 default_skip default_limit Sample.world
     = (Return [Sample.quiz], Sample.world)
  /\ read_events Sample.root default_skip default_limit Sample.world
     = (Return [Sample.hack_night; Sample.quiz], Sample.world).
Proof.
  split; [reflexivity|]. split.
  - destruct (read_events_page Sample.student_t2 default_skip default_limit
                Sample.world) as (E & _).
    exact E.
  - destruct (read_events_page Sample.root default_skip default_limit
                Sample.world) as (E & _).
    exact E.
Defined.

(** C1, as stated, fails: with the default [skip] and [limit], a student
    of a college that has 101 events is given 100 of them. *)
Lemma read_events_not_all :
  fst (read_events Sample.student_t1 default_skip default_limit
                   Sample.crowded_world)
  <> Return (filter (fun e => opt_Z_eqb (Event.college_id e)
                                (User.college_id Sample.student_t1))
                    (events Sample.crowded_world)).
Proof.
  intros H.
  assert (L : forall a b : list Event.t,
             @Return (list Event.t) a = Return b ->
             List.length a = List.length b) by (intros a b E; now inversion E).
  apply L in H. vm_compute in H. discriminate H.
Qed.

(* ================================================================== *)
(** ** Creating an event *)

Ltac run_handler :=
  unfold bind, get, ret, raise, modify, try_except, print; simpl.

(** C2, on the code.  For an actor with the capability, [create_event]
    always leaves the event row committed: the table is the old one with
    the new event.  A broadcast that fails is caught and only printed,
    and the created event is returned.  A commit of the notification row
    that fails is caught and printed as well, but the request then ends
    in a 500 instead of returning the event: the failed commit has
    expired the object the response is built from. *)
Theorem create_event_notification_outcomes
    (env : Env) (event_in : EventCreate.t) (u : User.t) (w : World) :
  college_admin_or_above u = true ->
  exists db_obj o w',
    create_event env event_in u w = (o, w')
    /\ events w' = (events w ++ [db_obj])%list
    /\ Event.title db_obj = EventCreate.title event_in
    /\ Event.organizer_id db_obj = User.id u
    /\ Event.college_id db_obj = User.college_id u
    /\ (notification_commit_raises env = true ->
          o = Raise (HTTPException 500 "Internal Server Error")
          /\ notifications w' = notifications w
          /\ broadcasts w' = broadcasts w
          /\ printed w'
             = (printed w ++ ["Notification Error: commit failed"])%list)
    /\ (notification_commit_raises env = false ->
        broadcast_raises env = true ->
          o = Return db_obj
          /\ List.length (notifications w')
             = S (List.length (notifications w))
          /\ printed w'
             = (printed w ++ ["Notification Error: broadcast failed"])%list)
    /\ (notification_commit_raises env = false ->
        broadcast_raises env = false ->
          o = Return db_obj
          /\ List.length (notifications w')
             = S (List.length (notifications w))
          /\ List.length (broadcasts w') = S (List.length (broadcasts w))
          /\ printed w' = printed w).
Proof.
  intros C. unfold create_event, get_current_active_college_admin.
  rewrite C. unfold commit_notification, broadcast, respond.
  destruct (notification_commit_raises env) eqn:N;
    [| destruct (broadcast_raises env) eqn:B]; run_handler;
    rewrite ?N, ?B; simpl;
    (eexists; eexists; eexists; split; [reflexivity|]); simpl;
    repeat split; try discriminate; try reflexivity;
    rewrite ?length_app; simpl; lia.
Qed.

Lemma create_event_notification_outcomes_witness :
  college_admin_or_above Sample.admin_t1 = true
  /\ notification_commit_raises Sample.env_offline = true
  /\ (exists db_obj w',
         create_event Sample.env_offline Sample.hack_night_in Sample.admin_t1
                      Sample.world
         = (Raise (HTTPException 500 "Internal Server Error"), w')
         /\ events w' = (events Sample.world ++ [db_obj])%list
         /\ Event.title db_obj = "Hack Night")
  /\ (exists db_obj w',
         create_event Fixture.env_broadcast_down Sample.hack_night_in
                      Sample.admin_t1 Sample.world
         = (Return db_obj, w')
         /\ events w' = (events Sample.world ++ [db_obj])%list
         /\ printed w'
            = (printed Sample.world
               ++ ["Notification Error: broadcast failed"])%list).
Proof.
  split; [reflexivity|]. split; [reflexivity|]. split.
  - destruct (create_event_notification_outcomes
                Sample.env_offline Sample.hack_night_in Sample.admin_t1
                Sample.world eq_refl)
      as (db_obj & o & w' & E & Ev & T & _ & _ & F & _).
    destruct (F eq_refl) as (O & _). subst o.
    exists db_obj, w'. split; [exact E|]. split; [exact Ev | exact T].
  - destruct (create_event_notification_outcomes
                Fixture.env_broadcast_down Sample.hack_night_in
                Sample.admin_t1 Sample.world eq_refl)
      as (db_obj & o & w' & E & Ev & _ & _ & _ & _ & B & _).
    destruct (B eq_refl eq_refl) as (O & _ & P). subst o.
    exists db_obj, w'. split; [exact E|]. split; [exact Ev | exact P].
Defined.

(* ================================================================== *)
(** ** What a computation leaves alone *)

Section Preserves.
Context {T : Type} (proj : World -> T).

Lemma preserves_ret {A} (a : A) : preserves proj (ret a).
Proof. intros w. reflexivity. Qed.

Lemma preserves_raise {A} (e : exn) : preserves proj (@raise A e).
Proof. intros w. reflexivity. Qed.

Lemma preserves_get : preserves proj get.
Proof. intros w. reflexivity. Qed.

Lemma preserves_bind {A B} (m : M A) (k : A -> M B) :
  preserves proj m -> (forall a, preserves proj (k a)) ->
  preserves proj (bind m k).
Proof.
  intros Hm Hk w. unfold bind. specialize (Hm w).
  destruct (m w) as [[a|e] w']; simpl in *.
  - now rewrite Hk.
  - assumption.
Qed.

Lemma preserves_try_except {A} (m : M A) (h : exn -> M A) :
  preserves proj m -> (forall e, preserves proj (h e)) ->
  preserves proj (try_except m h).
Proof.
  intros Hm Hh w. unfold try_except. specialize (Hm w).
  destruct (m w) as [[a|e] w']; simpl in *.
  - assumption.
  - now rewrite Hh.
Qed.

Lemma preserves_modify (f : World -> World) :
  (forall w, proj (f w) = proj w) -> preserves proj (modify f).
Proof. intros H w. apply H. Qed.

Lemma preserves_scalar_one_or_none {A} (rows : list A) :
  preserves proj (scalar_one_or_none rows).
Proof. intros w. destruct rows as [|? [|? ?]]; reflexivity. Qed.

Lemma preserves_lift {A} (o : outcome A) :
  preserves proj (fun w => (o, w)).
Proof. intros w. reflexivity. Qed.
End Preserves.

Ltac preserve :=
  repeat first
    [ progress cbv zeta
    | apply preserves_bind; [|intros ?]
    | apply preserves_try_except; [|intros ?]
    | apply preserves_ret
    | apply preserves_raise
    | apply preserves_get
    | apply preserves_scalar_one_or_none
    | apply preserves_lift
    | apply preserves_modify; intros ?; reflexivity
    | match goal with
      | |- preserves _ (match ?x with _ => _ end) => destruct x
      end ].

Lemma storage_calls_keep_tables_remove env p :
  preserves tables (storage.remote_remove env p).
Proof. unfold storage.remote_remove. preserve. Qed.

Lemma storage_calls_keep_tables_upload env p c t :
  preserves tables (storage.remote_upload env p c t).
Proof. unfold storage.remote_upload. preserve. Qed.

Lemma print_keeps_tables line : preserves tables (print line).
Proof. unfold print. preserve. Qed.

Lemma local_mkdir_keeps_tables d : preserves tables (local_mkdir d).
Proof. unfold local_mkdir. preserve. Qed.

Lemma local_write_keeps_tables p c : preserves tables (local_write p c).
Proof. unfold local_write. preserve. Qed.

Create HintDb keeps.

#[local] Hint Resolve storage_calls_keep_tables_remove
  storage_calls_keep_tables_upload print_keeps_tables
  local_mkdir_keeps_tables local_write_keeps_tables : keeps.

Ltac preserve_tables := preserve; auto with keeps.

Lemma upload_profile_image_keeps_tables env uid f c :
  preserves tables (storage.upload_profile_image env uid f c).
Proof. unfold storage.upload_profile_image. preserve_tables. Qed.

Lemma upload_verification_document_keeps_tables env uid f c :
  preserves tables (storage.upload_verification_document env uid f c).
Proof. unfold storage.upload_verification_document. preserve_tables. Qed.

Lemma upload_marketplace_item_keeps_tables env uid i f c :
  preserves tables (storage.upload_marketplace_item env uid i f c).
Proof. unfold storage.upload_marketplace_item. preserve_tables. Qed.

Lemma upload_event_image_keeps_tables env i o f c :
  preserves tables (storage.upload_event_image env i o f c).
Proof. unfold storage.upload_event_image. preserve_tables. Qed.

#[local] Hint Resolve upload_profile_image_keeps_tables
  upload_verification_document_keeps_tables
  upload_marketplace_item_keeps_tables
  upload_event_image_keeps_tables : keeps.

(* ================================================================== *)
(** ** The storage client *)

Ltac quiet_now :=
  eexists; eexists; split; [reflexivity|]; simpl; repeat split.

Lemma upload_profile_image_quiet env uid f c :
  quiet (storage.upload_profile_image env uid f c).
Proof.
  intros w. unfold storage.upload_profile_image.
  destruct (storage.is_configured env); simpl; [|quiet_now].
  unfold storage.remote_remove, storage.remote_upload. run_handler.
  destruct (remote_remove_raises env _); simpl;
    destruct (remote_upload_raises env _); simpl; quiet_now.
Qed.

Lemma upload_verification_document_quiet env uid f c :
  quiet (storage.upload_verification_document env uid f c).
Proof.
  intros w. unfold storage.upload_verification_document.
  destruct (storage.is_configured env); simpl; [|quiet_now].
  unfold storage.remote_upload. run_handler.
  destruct (remote_upload_raises env _); simpl; quiet_now.
Qed.

Lemma upload_marketplace_item_quiet env uid i f c :
  quiet (storage.upload_marketplace_item env uid i f c).
Proof.
  intros w. unfold storage.upload_marketplace_item.
  destruct (storage.is_configured env); simpl; [|quiet_now].
  unfold storage.remote_upload. run_handler.
  destruct (remote_upload_raises env _); simpl; quiet_now.
Qed.

Lemma upload_event_image_quiet env i o f c :
  quiet (storage.upload_event_image env i o f c).
Proof.
  intros w. unfold storage.upload_event_image.
  destruct (storage.is_configured env); simpl; [|quiet_now].
  unfold storage.remote_upload. run_handler.
  destruct (remote_upload_raises env _); simpl; quiet_now.
Qed.

(* ================================================================== *)
(** ** Local files *)

Lemma split_is_nonempty sep s : Py.split sep s <> [].
Proof.
  destruct s as [|c s]; simpl; [discriminate|].
  destruct (Ascii.eqb c sep); [discriminate|].
  destruct (Py.split sep s); discriminate.
Qed.

Lemma split_plain sep s :
  has_char sep s = false -> Py.split sep s = [s].
Proof.
  induction s as [|c s IH]; simpl; intros H; [reflexivity|].
  apply orb_false_iff in H. destruct H as [C H].
  rewrite C, (IH H). reflexivity.
Qed.

Lemma split_append sep a b :
  Py.split sep (a ++ String sep b)
  = (Py.split sep a ++ Py.split sep b)%list.
Proof.
  induction a as [|c a IH]; simpl.
  - now rewrite Ascii.eqb_refl.
  - destruct (Ascii.eqb c sep); [now rewrite IH|].
    rewrite IH.
    destruct (Py.split sep a) as [|hd tl] eqn:E; [|reflexivity].
    now apply split_is_nonempty in E.
Qed.

(** Joining the pieces of a split gives the string back. *)
Lemma join_split sep s :
  Py.join (String sep "") (Py.split sep s) = s.
Proof.
  induction s as [|c s IH]; [reflexivity|]. simpl Py.split.
  destruct (Ascii.eqb_spec c sep) as [E|E].
  - subst c. destruct (Py.split sep s) as [|hd tl] eqn:S;
      [now apply split_is_nonempty in S|].
    change (Py.join (String sep "") ("" :: hd :: tl))
      with (String sep (Py.join (String sep "") (hd :: tl))).
    now rewrite IH.
  - destruct (Py.split sep s) as [|hd tl] eqn:S;
      [now apply split_is_nonempty in S|].
    destruct tl as [|x tl].
    + simpl in *. now rewrite IH.
    + change (Py.join (String sep "") (String c hd :: x :: tl))
        with (String c (Py.join (String sep "") (hd :: x :: tl))).
      now rewrite IH.
Qed.

(** The directory and the name of [d/n] for a name without a slash. *)
Lemma path_of_plain_name d n :
  has_char "/" n = false ->
  path_dir (d ++ "/" ++ n) = d /\ path_base (d ++ "/" ++ n) = n.
Proof.
  intros H. unfold path_dir, path_base, Py.last_item.
  change (d ++ "/" ++ n) with (d ++ String "/" n).
  rewrite split_append, (split_plain _ _ H), removelast_last, last_last.
  split; [apply join_split | reflexivity].
Qed.

Lemma path_join_plain d n :
  has_char "/" n = false -> n <> "" -> n <> "." ->
  Py.path_join d n = d ++ "/" ++ n.
Proof.
  intros H E D. unfold Py.path_join, Py.path_parts.
  rewrite (split_plain _ _ H). simpl.
  destruct (String.eqb_spec n ""); [contradiction|].
  destruct (String.eqb_spec n "."); [contradiction|].
  reflexivity.
Qed.

Lemma has_char_app c a b :
  has_char c (a ++ b) = has_char c a || has_char c b.
Proof.
  induction a as [|x a IH]; simpl; [reflexivity|].
  now rewrite IH, orb_assoc.
Qed.

Lemma digits_without_slash u :
  has_char "/" (NilEmpty.string_of_uint u) = false.
Proof. induction u; simpl; assumption || reflexivity. Qed.

Lemma digits_without_nul u :
  has_char Ascii.zero (NilEmpty.string_of_uint u) = false.
Proof. induction u; simpl; assumption || reflexivity. Qed.

Lemma str_without_slash z : has_char "/" (Py.str z) = false.
Proof.
  unfold Py.str, NilZero.string_of_int, NilZero.string_of_uint.
  destruct (Z.to_int z) as [u|u]; destruct u; simpl;
    reflexivity || apply digits_without_slash.
Qed.

Lemma str_without_nul z : has_char Ascii.zero (Py.str z) = false.
Proof.
  unfold Py.str, NilZero.string_of_int, NilZero.string_of_uint.
  destruct (Z.to_int z) as [u|u]; destruct u; simpl;
    reflexivity || apply digits_without_nul.
Qed.

(** The extensions of the image allow-list are plain. *)
Lemma image_extension_is_plain ext :
  Py.mem ext image_extensions = true ->
  has_char "/" ext = false /\ has_char Ascii.zero ext = false.
Proof.
  unfold Py.mem, image_extensions. simpl. intros H.
  repeat (apply orb_true_iff in H; destruct H as [H|H];
          [apply String.eqb_eq in H; subst; split; reflexivity|]).
  discriminate.
Qed.

Lemma valid_name_with_underscore n :
  has_char "_" n = true -> has_char Ascii.zero n = false ->
  valid_file_name n = true.
Proof.
  intros U Z. unfold valid_file_name. rewrite Z.
  destruct (String.eqb_spec n ""); [subst; discriminate|].
  destruct (String.eqb_spec n "."); [subst; discriminate|].
  destruct (String.eqb_spec n ".."); [subst; discriminate|].
  reflexivity.
Qed.

Lemma dir_made_by_mkdir d w :
  dir_made d (with_storage_calls (fun l => (l ++ [LocalMkdir d])%list) w)
  = true.
Proof.
  unfold dir_made. simpl. rewrite existsb_app. simpl.
  now rewrite String.eqb_refl, orb_true_r.
Qed.

Lemma valid_name_without_nul n :
  valid_file_name n = true -> has_char Ascii.zero n = false.
Proof.
  unfold valid_file_name. intros V. apply andb_true_iff in V.
  destruct V as (_ & V). now apply negb_true_iff in V.
Qed.

(** [upload_dir.mkdir(...)] and then the write of a file of a valid name
    right under it: the file is written, and the handler goes on. *)
Lemma local_save_writes {A} d n c (k : M A) w :
  has_char "/" n = false -> valid_file_name n = true ->
  has_char Ascii.zero d = false ->
  (local_mkdir d ;;; local_write (d ++ "/" ++ n) c ;;; k) w
  = k (with_storage_calls
         (fun l => (l ++ [LocalMkdir d; LocalWrite (d ++ "/" ++ n) c])%list)
         w).
Proof.
  intros S V Z. unfold local_mkdir, local_write, bind, modify, get.
  cbv beta iota.
  assert (N : has_char Ascii.zero (d ++ "/" ++ n) = false).
  { rewrite !has_char_app, Z, (valid_name_without_nul n V). reflexivity. }
  rewrite N.
  destruct (path_of_plain_name d n S) as (D & B). rewrite D, B.
  rewrite dir_made_by_mkdir, V. cbv beta iota.
  f_equal. unfold with_storage_calls. simpl. now rewrite <- app_assoc.
Qed.

(** The write under a directory that was never made raises, and so does
    the write of a name that is no file name; nothing is written and the
    handler stops there. *)
Lemma local_save_raises {A} d p c (k : M A) w :
  has_char Ascii.zero p = false ->
  dir_made (path_dir p) (with_storage_calls
                           (fun l => (l ++ [LocalMkdir d])%list) w)
  && valid_file_name (path_base p) = false ->
  (local_mkdir d ;;; local_write p c ;;; k) w
  = (Raise (Exception "OSError"),
     with_storage_calls (fun l => (l ++ [LocalMkdir d])%list) w).
Proof.
  intros Z H. unfold local_mkdir, local_write, bind, modify, get.
  cbv beta iota. now rewrite Z, H.
Qed.

(* ================================================================== *)
(** ** The verification workflow *)

Lemma pending_of_app uid l1 l2 :
  pending_of uid (l1 ++ l2) = (pending_of uid l1 ++ pending_of uid l2)%list.
Proof. apply filter_app. Qed.

(** A rewrite of rows that only produces rows which are not pending adds
    no pending request. *)
Lemma pending_of_map_le uid (f : VerificationRequest.t -> VerificationRequest.t) l :
  (forall x, f x = x
             \/ String.eqb (VerificationRequest.status (f x)) "pending"
                = false) ->
  (List.length (pending_of uid (map f l))
   <= List.length (pending_of uid l))%nat.
Proof.
  intros F. induction l as [|a l IH]; simpl; [lia|].
  destruct (F a) as [E|E].
  - rewrite E.
    destruct ((VerificationRequest.user_id a =? uid)
              && String.eqb (VerificationRequest.status a) "pending")%bool;
      simpl; lia.
  - rewrite E, andb_false_r.
    destruct ((VerificationRequest.user_id a =? uid)
              && String.eqb (VerificationRequest.status a) "pending")%bool;
      simpl; lia.
Qed.

Lemma at_most_one_pending_replace l (v : VerificationRequest.t) :
  String.eqb (VerificationRequest.status v) "pending" = false ->
  at_most_one_pending l -> at_most_one_pending (replace_request v l).
Proof.
  intros S H uid. unfold replace_request.
  eapply Nat.le_trans; [apply pending_of_map_le | apply H].
  intros x. simpl. destruct (VerificationRequest.id x =? _); auto.
Qed.

Lemma at_most_one_pending_add l (v : VerificationRequest.t) :
  pending_of (VerificationRequest.user_id v) l = [] ->
  at_most_one_pending l -> at_most_one_pending (l ++ [v]).
Proof.
  intros E H uid. rewrite pending_of_app, length_app. simpl.
  destruct (Z.eqb_spec (VerificationRequest.user_id v) uid) as [K|K]; simpl.
  - subst uid. rewrite E. simpl.
    destruct (String.eqb _ _); simpl; lia.
  - specialize (H uid). lia.
Qed.

(** Under the invariant, the pending request of an actor who has one is
    the single row of the query. *)
Lemma pending_of_single l (v : VerificationRequest.t) :
  at_most_one_pending l -> In v l ->
  VerificationRequest.status v = "pending" ->
  pending_of (VerificationRequest.user_id v) l = [v].
Proof.
  intros H I S.
  assert (P : In v (pending_of (VerificationRequest.user_id v) l)).
  { unfold pending_of. apply filter_In. split; [assumption|].
    now rewrite Z.eqb_refl, S. }
  specialize (H (VerificationRequest.user_id v)).
  destruct (pending_of (VerificationRequest.user_id v) l) as [|a [|b r]];
    simpl in *.
  - contradiction.
  - destruct P as [-> | []]. reflexivity.
  - lia.
Qed.


(** What a submission does once the pending-request guard and the
    extension check are passed: it adds one pending row for the actor, or
    it raises out of the local write and adds none. *)
Lemma create_verification_request_stores env filename contents u w :
  pending_of (User.id u) (verification_requests w) = [] ->
  Py.mem (file_extension_of filename) document_extensions = true ->
  exists o w',
    create_verification_request env filename contents u w = (o, w')
    /\ ((o = Return "Verification request submitted successfully"
         /\ exists url,
              verification_requests w'
              = (verification_requests w
                 ++ [VerificationRequest.mk
                       (next_id (map VerificationRequest.id
                                     (verification_requests w)))
                       (User.id u) url "pending" None (now env)])%list)
        \/ ((exists m, o = Raise (Exception m))
            /\ verification_requests w' = verification_requests w)).
Proof.
  intros P X. unfold create_verification_request.
  unfold bind at 1. unfold get at 1. cbv beta iota. rewrite P.
  unfold bind at 1. unfold scalar_one_or_none, ret at 1.
  cbv beta iota zeta. rewrite X. unfold negb. cbv beta iota.
  destruct (upload_verification_document_quiet env (User.id u) filename
              contents w)
    as (o & w1 & E & _ & _ & _ & _ & _ & V & _).
  unfold bind at 1. rewrite E.
  destruct o as [url|].
  - run_handler. rewrite V.
    eexists; eexists; (split; [reflexivity|]). left.
    split; [reflexivity|]. eexists.
    unfold with_verification_requests; simpl; now rewrite V.
  - cbv beta iota. unfold bind at 1. unfold bind at 1.
    unfold local_mkdir at 1. unfold modify at 1. cbv beta iota.
    unfold bind at 1. unfold local_write, bind, get. cbv beta iota.
    destruct (has_char Ascii.zero _).
    { run_handler. eexists; eexists; (split; [reflexivity|]). right.
      split; [now eexists | exact V]. }
    match goal with
    | |- context [if ?b then _ else _] => destruct b
    end.
    + run_handler. rewrite V.
      eexists; eexists; (split; [reflexivity|]). left.
      split; [reflexivity|]. eexists.
      unfold with_verification_requests; simpl; now rewrite V.
    + run_handler. eexists; eexists; (split; [reflexivity|]). right.
      split; [now eexists | exact V].
Qed.


(** Every other outcome of a submission leaves the world as it was. *)
Lemma create_verification_request_refused env filename contents u w :
  pending_of (User.id u) (verification_requests w) <> []
  \/ Py.mem (file_extension_of filename) document_extensions = false ->
  exists e,
    create_verification_request env filename contents u w = (Raise e, w).
Proof.
  intros H. unfold create_verification_request.
  unfold bind at 1. unfold get at 1.
  destruct (pending_of (User.id u) (verification_requests w))
    as [|a [|b r]] eqn:P.
  - destruct H as [H|H]; [congruence|].
    unfold bind at 1. unfold scalar_one_or_none, ret at 1.
    cbv beta iota zeta. rewrite H. simpl. eexists. reflexivity.
  - run_handler. eexists. reflexivity.
  - run_handler. eexists. reflexivity.
Qed.

Lemma create_verification_request_invariant env filename contents u w :
  at_most_one_pending (verification_requests w) ->
  at_most_one_pending
    (verification_requests
       (snd (create_verification_request env filename contents u w))).
Proof.
  intros H.
  destruct (pending_of (User.id u) (verification_requests w)) eqn:P;
    [destruct (Py.mem (file_extension_of filename) document_extensions)
       eqn:X |].
  - destruct (create_verification_request_stores env filename contents u w
                P X) as (o & w' & E & [(_ & url & V) | (_ & V)]).
    + rewrite E. simpl. rewrite V. now apply at_most_one_pending_add.
    + rewrite E. simpl. now rewrite V.
  - destruct (create_verification_request_refused env filename contents u w)
      as (e & E); [now right|]. now rewrite E.
  - destruct (create_verification_request_refused env filename contents u w)
      as (e & E); [left; congruence|]. now rewrite E.
Qed.

Lemma approve_request_denied id u w :
  college_admin_or_above u = false ->
  approve_request id u w = (Raise PermissionDenied, w).
Proof.
  intros C. unfold approve_request, get_current_active_college_admin.
  now rewrite C.
Qed.

Lemma approve_request_missing id u w :
  college_admin_or_above u = true -> requests_by_id id w = [] ->
  approve_request id u w
  = (Raise (HTTPException 404 "Verification request not found"), w).
Proof.
  intros C E. unfold approve_request, get_current_active_college_admin.
  rewrite C. run_handler. now rewrite E.
Qed.

Lemma approve_request_found id u w vr :
  college_admin_or_above u = true -> requests_by_id id w = [vr] ->
  approve_request id u w
  = (Return "Approved",
     with_verification_requests
       (replace_request (VerificationRequest.set_status vr "approved")) w).
Proof.
  intros C E. unfold approve_request, get_current_active_college_admin.
  rewrite C. run_handler. now rewrite E.
Qed.

Lemma approve_request_ambiguous id u w a b r :
  college_admin_or_above u = true -> requests_by_id id w = a :: b :: r ->
  approve_request id u w = (Raise MultipleResultsFound, w).
Proof.
  intros C E. unfold approve_request, get_current_active_college_admin.
  rewrite C. run_handler. now rewrite E.
Qed.

Lemma reject_request_denied id note u w :
  college_admin_or_above u = false ->
  reject_request id note u w = (Raise PermissionDenied, w).
Proof.
  intros C. unfold reject_request, get_current_active_college_admin.
  now rewrite C.
Qed.

Lemma reject_request_missing id note u w :
  college_admin_or_above u = true -> requests_by_id id w = [] ->
  reject_request id note u w
  = (Raise (HTTPException 404 "Verification request not found"), w).
Proof.
  intros C E. unfold reject_request, get_current_active_college_admin.
  rewrite C. run_handler. now rewrite E.
Qed.

Lemma reject_request_found id note u w vr :
  college_admin_or_above u = true -> requests_by_id id w = [vr] ->
  reject_request id note u w
  = (Return "Rejected",
     with_verification_requests
       (replace_request
          (VerificationRequest.set_admin_note
             (VerificationRequest.set_status vr "rejected") note)) w).
Proof.
  intros C E. unfold reject_request, get_current_active_college_admin.
  rewrite C. run_handler. now rewrite E.
Qed.

Lemma reject_request_ambiguous id note u w a b r :
  college_admin_or_above u = true -> requests_by_id id w = a :: b :: r ->
  reject_request id note u w = (Raise MultipleResultsFound, w).
Proof.
  intros C E. unfold reject_request, get_current_active_college_admin.
  rewrite C. run_handler. now rewrite E.
Qed.

Lemma approve_request_invariant id u w :
  at_most_one_pending (verification_requests w) ->
  at_most_one_pending (verification_requests (snd (approve_request id u w))).
Proof.
  intros H. destruct (college_admin_or_above u) eqn:C.
  - destruct (requests_by_id id w) as [|a [|b r]] eqn:E.
    + now rewrite approve_request_missing.
    + rewrite (approve_request_found id u w a C E). simpl.
      now apply at_most_one_pending_replace.
    + now rewrite (approve_request_ambiguous id u w a b r C E).
  - now rewrite approve_request_denied.
Qed.

Lemma reject_request_invariant id note u w :
  at_most_one_pending (verification_requests w) ->
  at_most_one_pending
    (verification_requests (snd (reject_request id note u w))).
Proof.
  intros H. destruct (college_admin_or_above u) eqn:C.
  - destruct (requests_by_id id w) as [|a [|b r]] eqn:E.
    + now rewrite reject_request_missing.
    + rewrite (reject_request_found id note u w a C E). simpl.
      now apply at_most_one_pending_replace.
    + now rewrite (reject_request_ambiguous id note u w a b r C E).
  - now rewrite reject_request_denied.
Qed.

(** The handlers outside the verification workflow do not touch the
    table of verification requests. *)
Lemma tables_verification_requests {A} (m : M A) :
  preserves tables m -> preserves verification_requests m.
Proof.
  intros H w. specialize (H w). unfold tables in H. now inversion H.
Qed.

Ltac preserve_requests :=
  preserve;
  try (apply tables_verification_requests; auto with keeps).

Lemma read_events_keeps_requests u skip limit :
  preserves verification_requests (read_events u skip limit).
Proof. unfold read_events. preserve_requests. Qed.

Lemma create_event_keeps_requests env e u :
  preserves verification_requests (create_event env e u).
Proof.
  unfold create_event, get_current_active_college_admin,
    commit_notification, broadcast, print, respond.
  preserve_requests.
Qed.

Lemma read_event_keeps_requests id :
  preserves verification_requests (read_event id).
Proof. unfold read_event. preserve_requests. Qed.

Lemma update_event_keeps_requests id e u :
  preserves verification_requests (update_event id e u).
Proof. unfold update_event. preserve_requests. Qed.

Lemma delete_event_keeps_requests id u :
  preserves verification_requests (delete_event id u).
Proof. unfold delete_event. preserve_requests. Qed.

Lemma upload_event_image_keeps_requests env id f c u :
  preserves verification_requests (upload_event_image env id f c u).
Proof. unfold upload_event_image. preserve_requests. Qed.

Lemma update_user_me_keeps_requests env d u :
  preserves verification_requests (update_user_me env d u).
Proof.
  unfold update_user_me, checked_email, checked_college. preserve_requests.
Qed.

Lemma upload_profile_image_keeps_requests env f c u :
  preserves verification_requests (upload_profile_image env f c u).
Proof. unfold upload_profile_image. preserve_requests. Qed.

Lemma create_item_keeps_requests env t d p c f u :
  preserves verification_requests (create_item env t d p c f u).
Proof. unfold create_item. preserve_requests. Qed.

Lemma read_verification_requests_keeps_requests u status :
  preserves verification_requests (read_verification_requests u status).
Proof.
  unfold read_verification_requests, get_current_active_college_admin.
  preserve_requests.
Qed.

Lemma create_user_keeps_requests env d invite_code :
  preserves verification_requests (create_user env d invite_code).
Proof. unfold create_user. preserve_requests. Qed.

Lemma read_users_keeps_requests u skip limit :
  preserves verification_requests (read_users u skip limit).
Proof.
  unfold read_users, get_current_active_college_admin. preserve_requests.
Qed.

Lemma read_user_me_keeps_requests u :
  preserves verification_requests (read_user_me u).
Proof. unfold read_user_me. preserve_requests. Qed.

Lemma join_college_keeps_requests invite_code u :
  preserves verification_requests (join_college invite_code u).
Proof. unfold join_college. preserve_requests. Qed.

Lemma read_items_keeps_requests u skip limit :
  preserves verification_requests (read_items u skip limit).
Proof. unfold read_items. preserve_requests. Qed.

Lemma delete_item_keeps_requests id u :
  preserves verification_requests (delete_item id u).
Proof. unfold delete_item. preserve_requests. Qed.

(** Deleting rows adds no pending request. *)
Lemma at_most_one_pending_filter (f : VerificationRequest.t -> bool) l :
  at_most_one_pending l -> at_most_one_pending (filter f l).
Proof.
  intros H uid. eapply Nat.le_trans; [|apply (H uid)].
  unfold pending_of. clear H. induction l as [|a l IH]; simpl; [lia|].
  destruct (f a); simpl;
    destruct ((VerificationRequest.user_id a =? uid)
              && String.eqb (VerificationRequest.status a) "pending")%bool;
    simpl; lia.
Qed.

Lemma delete_user_invariant id u w :
  at_most_one_pending (verification_requests w) ->
  at_most_one_pending (verification_requests (snd (delete_user id u w))).
Proof.
  intros H. unfold delete_user.
  destruct (negb (User.is_superuser u) && negb (User.id u =? id))%bool;
    [exact H|].
  run_handler.
  destruct (filter (fun u0 => User.id u0 =? id) (users w)) as [|a [|b r]];
    simpl; try exact H.
  now apply at_most_one_pending_filter.
Qed.

(** C3.  In a world where every user has at most one pending verification
    request, an actor who has one cannot submit another: whatever the
    document, the submission fails with the 400 of the pending-request
    guard (the Conflict of the spec) and the world, its table of requests
    included, is as before.  And every request of the API leaves a world
    in which every user still has at most one pending request. *)
Theorem pending_request_blocks_submission (env : Env) (w : World) :
  at_most_one_pending (verification_requests w) ->
  (forall (u : User.t) (v : VerificationRequest.t)
          (filename : string) (contents : bytes),
      In v (verification_requests w) ->
      VerificationRequest.user_id v = User.id u ->
      VerificationRequest.status v = "pending" ->
      create_verification_request env filename contents u w
      = (Raise (HTTPException 400
                  "A pending verification request already exists."), w))
  /\ (forall r : request,
        at_most_one_pending (verification_requests (world_after env r w))).
Proof.
  intros H. split.
  - intros u v filename contents I U S.
    unfold create_verification_request. run_handler.
    rewrite <- U, (pending_of_single _ v H I S). reflexivity.
  - intros r. destruct r; unfold world_after.
    + now rewrite read_events_keeps_requests.
    + now rewrite create_event_keeps_requests.
    + now rewrite read_event_keeps_requests.
    + now rewrite update_event_keeps_requests.
    + now rewrite delete_event_keeps_requests.
    + now rewrite upload_event_image_keeps_requests.
    + now rewrite update_user_me_keeps_requests.
    + now rewrite upload_profile_image_keeps_requests.
    + now rewrite create_item_keeps_requests.
    + now apply create_verification_request_invariant.
    + now apply approve_request_invariant.
    + now apply reject_request_invariant.
    + now rewrite read_verification_requests_keeps_requests.
    + now rewrite create_user_keeps_requests.
    + now rewrite read_users_keeps_requests.
    + now rewrite read_user_me_keeps_requests.
    + now rewrite join_college_keeps_requests.
    + now apply delete_user_invariant.
    + now rewrite read_items_keeps_requests.
    + now rewrite delete_item_keeps_requests.
Qed.

Lemma sample_world_one_pending :
  at_most_one_pending (verification_requests Sample.world).
Proof.
  intros uid. unfold pending_of. cbn -[Z.eqb].
  destruct (11 =? uid); destruct (20 =? uid); cbn; lia.
Qed.

Lemma pending_request_blocks_submission_witness :
  at_most_one_pending (verification_requests Sample.world)
  /\ create_verification_request Sample.env_online "id.png" Sample.content
       Sample.student_t1 Sample.world
     = (Raise (HTTPException 400
                 "A pending verification request already exists."),
        Sample.world)
  /\ at_most_one_pending
       (verification_requests
          (world_after Sample.env_online
             (CreateVerificationRequest "document.pdf" Sample.content
                                        Sample.student_t2)
             Sample.world)).
Proof.
  split; [apply sample_world_one_pending|].
  destruct (pending_request_blocks_submission Sample.env_online Sample.world
              sample_world_one_pending) as [B K].
  split.
  - apply (B Sample.student_t1 (Sample.request 1 11 "pending")).
    + simpl. now left.
    + reflexivity.
    + reflexivity.
  - apply K.
Defined.

(* ================================================================== *)
(** ** Deciding a verification request *)

Lemma requests_by_id_absent id w :
  ~ In id (map VerificationRequest.id (verification_requests w)) ->
  requests_by_id id w = [].
Proof. apply (filter_key_absent VerificationRequest.id). Qed.

Lemma requests_by_id_present w vr :
  NoDup (map VerificationRequest.id (verification_requests w)) ->
  In vr (verification_requests w) ->
  requests_by_id (VerificationRequest.id vr) w = [vr].
Proof. apply (filter_key_unique VerificationRequest.id). Qed.

Lemma requests_by_id_replaced w vr vr' :
  NoDup (map VerificationRequest.id (verification_requests w)) ->
  In vr (verification_requests w) ->
  VerificationRequest.id vr' = VerificationRequest.id vr ->
  requests_by_id (VerificationRequest.id vr)
                 (with_verification_requests (replace_request vr') w)
  = [vr'].
Proof.
  intros ND I E. unfold requests_by_id, replace_request. simpl.
  now apply (filter_key_replaced VerificationRequest.id).
Qed.

(** C4.  For a reviewer with the capability, in a table where the id is
    the primary key: a decision on an id that no request has fails with
    404 and changes nothing; a decision on the id of a request [vr]
    succeeds whatever the status of [vr] was, and the row of that id then
    is [vr] with status "approved", or with status "rejected" and the
    note supplied. *)
Theorem decide_request (w : World) (reviewer : User.t) (id : Z)
    (note : option string) :
  college_admin_or_above reviewer = true ->
  NoDup (map VerificationRequest.id (verification_requests w)) ->
  (~ In id (map VerificationRequest.id (verification_requests w)) ->
     approve_request id reviewer w
     = (Raise (HTTPException 404 "Verification request not found"), w)
     /\ reject_request id note reviewer w
        = (Raise (HTTPException 404 "Verification request not found"), w))
  /\ (forall vr : VerificationRequest.t,
        In vr (verification_requests w) ->
        VerificationRequest.id vr = id ->
        (exists w',
            approve_request id reviewer w = (Return "Approved", w')
            /\ requests_by_id id w'
               = [VerificationRequest.mk
                    id (VerificationRequest.user_id vr)
                    (VerificationRequest.id_card_url vr) "approved"
                    (VerificationRequest.admin_note vr)
                    (VerificationRequest.created_at vr)])
        /\ (exists w',
               reject_request id note reviewer w = (Return "Rejected", w')
               /\ requests_by_id id w'
                  = [VerificationRequest.mk
                       id (VerificationRequest.user_id vr)
                       (VerificationRequest.id_card_url vr) "rejected"
                       note (VerificationRequest.created_at vr)])).
Proof.
  intros C ND. split.
  - intros A. apply requests_by_id_absent in A. split.
    + now apply approve_request_missing.
    + now apply reject_request_missing.
  - intros vr I <-. pose proof (requests_by_id_present w vr ND I) as E.
    split; eexists; split.
    + exact (approve_request_found _ _ _ vr C E).
    + now rewrite requests_by_id_replaced.
    + exact (reject_request_found _ note _ _ vr C E).
    + now rewrite requests_by_id_replaced.
Qed.

Lemma sample_world_request_ids :
  NoDup (map VerificationRequest.id (verification_requests Sample.world)).
Proof.
  simpl. repeat constructor; simpl; intuition discriminate.
Qed.

Lemma decide_request_witness :
  college_admin_or_above Sample.admin_t1 = true
  /\ NoDup (map VerificationRequest.id (verification_requests Sample.world))
  /\ approve_request 7 Sample.admin_t1 Sample.world
     = (Raise (HTTPException 404 "Verification request not found"),
        Sample.world)
  /\ exists w',
       approve_request 2 Sample.admin_t1 Sample.world
       = (Return "Approved", w')
       /\ requests_by_id 2 w'
          = [VerificationRequest.mk 2 20 "static/verifications/id.png"
                                    "approved" None 1690000000].
Proof.
  split; [reflexivity|]. split; [apply sample_world_request_ids|].
  split.
  - apply (decide_request Sample.world Sample.admin_t1 7 None eq_refl
             sample_world_request_ids).
    simpl. intuition discriminate.
  - destruct (decide_request Sample.world Sample.admin_t1 2 None eq_refl
                sample_world_request_ids) as [_ F].
    destruct (F (Sample.request 2 20 "rejected")) as [A _].
    + simpl. now right; left.
    + reflexivity.
    + exact A.
Defined.

(** C9.  A decision looks at the reviewer's capability and at the id of
    the request, and at nothing else: a [college_admin] approves and
    rejects the request of a user of another college just as one of the
    same college, and any two reviewers with the capability get the same
    outcome. *)
Theorem decision_crosses_tenants (w : World) (reviewer submitter : User.t)
    (vr : VerificationRequest.t) (note : option string) :
  User.role reviewer = Some "college_admin" ->
  NoDup (map VerificationRequest.id (verification_requests w)) ->
  In vr (verification_requests w) ->
  In submitter (users w) ->
  User.id submitter = VerificationRequest.user_id vr ->
  User.college_id submitter <> User.college_id reviewer ->
  approve_request (VerificationRequest.id vr) reviewer w
  = (Return "Approved",
     with_verification_requests
       (replace_request (VerificationRequest.set_status vr "approved")) w)
  /\ reject_request (VerificationRequest.id vr) note reviewer w
     = (Return "Rejected",
        with_verification_requests
          (replace_request
             (VerificationRequest.set_admin_note
                (VerificationRequest.set_status vr "rejected") note)) w)
  /\ (forall (other : User.t) (id : Z),
        college_admin_or_above other = true ->
        approve_request id other w = approve_request id reviewer w
        /\ reject_request id note other w
           = reject_request id note reviewer w).
Proof.
  intros R ND I _ _ _.
  assert (C : college_admin_or_above reviewer = true).
  { unfold college_admin_or_above. rewrite R. reflexivity. }
  pose proof (requests_by_id_present w vr ND I) as E.
  split; [exact (approve_request_found _ _ _ vr C E)|].
  split; [exact (reject_request_found _ note _ _ vr C E)|].
  intros other id C'.
  unfold approve_request, reject_request, get_current_active_college_admin.
  now rewrite C, C'.
Qed.

Lemma decision_crosses_tenants_witness :
  User.role Sample.admin_t1 = Some "college_admin"
  /\ User.college_id Sample.student_t2 <> User.college_id Sample.admin_t1
  /\ approve_request 2 Sample.admin_t1 Sample.world
     = (Return "Approved",
        with_verification_requests
          (replace_request
             (VerificationRequest.set_status
                (Sample.request 2 20 "rejected") "approved"))
          Sample.world).
Proof.
  split; [reflexivity|]. split; [discriminate|].
  assert (I : In (Sample.request 2 20 "rejected")
                 (verification_requests Sample.world))
    by (simpl; now right; left).
  assert (U : In Sample.student_t2 (users Sample.world))
    by (simpl; now right; right; right; left).
  assert (T : User.college_id Sample.student_t2
              <> User.college_id Sample.admin_t1) by discriminate.
  destruct (decision_crosses_tenants Sample.world Sample.admin_t1
              Sample.student_t2 (Sample.request 2 20 "rejected") None
              eq_refl sample_world_request_ids I U eq_refl T) as [A _].
  exact A.
Defined.

(* ================================================================== *)
(** ** Reading and changing one event *)

Lemma events_by_id_present w e :
  NoDup (map Event.id (events w)) -> In e (events w) ->
  events_by_id (Event.id e) w = [e].
Proof. apply (filter_key_unique Event.id). Qed.

(** [read_event] takes no actor: whoever asks gets the event. *)
Lemma read_event_unscoped w e :
  NoDup (map Event.id (events w)) -> In e (events w) ->
  read_event (Event.id e) w = (Return e, w).
Proof.
  intros ND I. unfold read_event. run_handler.
  now rewrite (events_by_id_present w e ND I).
Qed.

(** What [update_event] and [delete_event] answer to an actor who is
    neither a superuser nor the organizer. *)
Lemma update_event_denied w e u event_in :
  NoDup (map Event.id (events w)) -> In e (events w) ->
  User.is_superuser u = false -> Event.organizer_id e <> User.id u ->
  update_event (Event.id e) event_in u w
  = (Raise (HTTPException 400 "Not enough permissions"), w)
  /\ delete_event (Event.id e) u w
     = (Raise (HTTPException 400 "Not enough permissions"), w).
Proof.
  intros ND I S O. apply Z.eqb_neq in O.
  unfold update_event, delete_event. run_handler.
  rewrite (events_by_id_present w e ND I). simpl.
  now rewrite S, O.
Qed.

(** C5, on the code.  A student of college 2 reads the event of college 1
    by id; the update and the deletion of that event by the same student
    are refused and change nothing, with status 400 where the claim says
    403; the image upload, which makes the same check, answers 403. *)
Theorem update_event_denied_status :
  read_event 1 Sample.world = (Return Sample.hack_night, Sample.world)
  /\ update_event 1 Sample.rename Sample.student_t2 Sample.world
     = (Raise (HTTPException 400 "Not enough permissions"), Sample.world)
  /\ delete_event 1 Sample.student_t2 Sample.world
     = (Raise (HTTPException 400 "Not enough permissions"), Sample.world)
  /\ upload_event_image Sample.env_offline 1 "pic.png" Sample.content
       Sample.student_t2 Sample.world
     = (Raise (HTTPException 403 "Not enough permissions"), Sample.world).
Proof.
  split; [reflexivity | split; [reflexivity | split; reflexivity]].
Qed.

(* ================================================================== *)
(** ** The extension allow-lists *)

Lemma upload_profile_image_refused env filename contents u w :
  Py.mem (file_extension_of filename) image_extensions = false ->
  upload_profile_image env filename contents u w
  = (Raise (HTTPException 400
              "Invalid file type. Only JPG/PNG/WEBP allowed."), w).
Proof.
  intros X. unfold upload_profile_image. cbv zeta. now rewrite X.
Qed.

Lemma create_verification_request_bad_extension env filename contents u w :
  Py.mem (file_extension_of filename) document_extensions = false ->
  pending_of (User.id u) (verification_requests w) = [] ->
  create_verification_request env filename contents u w
  = (Raise (HTTPException 400
              "Invalid file type. Only JPG/PNG/PDF allowed."), w).
Proof.
  intros X P. unfold create_verification_request.
  unfold bind at 1. unfold get at 1. cbv beta iota. rewrite P.
  unfold bind at 1. unfold scalar_one_or_none, ret at 1.
  cbv beta iota zeta. now rewrite X.
Qed.

Lemma create_verification_request_pending env filename contents u w v :
  pending_of (User.id u) (verification_requests w) = [v] ->
  create_verification_request env filename contents u w
  = (Raise (HTTPException 400
              "A pending verification request already exists."), w).
Proof.
  intros P. unfold create_verification_request. run_handler.
  now rewrite P.
Qed.

(** C6, as amended.  An upload whose extension (the last dot-separated
    piece of the filename, in lower case) is outside the allow-list of its
    kind is refused with the world as it was: no storage call, remote or
    local, is in the trace, and no row has changed.  The refusal is the
    400 of the file-type check for a profile image, and for a verification
    document when the actor has no pending request; an actor with a
    pending request gets the 400 of the pending-request guard, which comes
    first. *)
Theorem bad_extension_refused
    (env : Env) (filename : string) (contents : bytes) (u : User.t)
    (w : World) :
  (Py.mem (file_extension_of filename) image_extensions = false ->
     upload_profile_image env filename contents u w
     = (Raise (HTTPException 400
                 "Invalid file type. Only JPG/PNG/WEBP allowed."), w))
  /\ (Py.mem (file_extension_of filename) document_extensions = false ->
        (exists e,
            create_verification_request env filename contents u w
            = (Raise e, w))
        /\ (pending_of (User.id u) (verification_requests w) = [] ->
              create_verification_request env filename contents u w
              = (Raise (HTTPException 400
                          "Invalid file type. Only JPG/PNG/PDF allowed."),
                 w))
        /\ (forall v,
              pending_of (User.id u) (verification_requests w) = [v] ->
              create_verification_request env filename contents u w
              = (Raise (HTTPException 400
                          "A pending verification request already exists."),
                 w))).
Proof.
  split.
  - apply upload_profile_image_refused.
  - intros X. split; [|split].
    + apply create_verification_request_refused. now right.
    + now apply create_verification_request_bad_extension.
    + intros v. apply create_verification_request_pending.
Qed.

Lemma bad_extension_refused_witness :
  Py.mem (file_extension_of "photo.gif") image_extensions = false
  /\ upload_profile_image Sample.env_online "photo.gif" Sample.content
       Sample.student_t2 Sample.world
     = (Raise (HTTPException 400
                 "Invalid file type. Only JPG/PNG/WEBP allowed."),
        Sample.world)
  /\ create_verification_request Sample.env_online "photo.gif"
       Sample.content Sample.student_t2 Sample.world
     = (Raise (HTTPException 400
                 "Invalid file type. Only JPG/PNG/PDF allowed."),
        Sample.world).
Proof.
  destruct (bad_extension_refused Sample.env_online "photo.gif"
              Sample.content Sample.student_t2 Sample.world) as [P [_ [D _]]].
  - reflexivity.
  - split; [reflexivity|]. split.
    + apply P. reflexivity.
    + apply D. reflexivity.
Defined.

(** C6, as stated, fails: a student with a pending request who submits
    [photo.gif] as a verification document is refused by the
    pending-request guard, not by the file-type check. *)
Lemma pending_guard_precedes_file_type :
  Py.mem (file_extension_of "photo.gif") document_extensions = false
  /\ fst (create_verification_request Sample.env_online "photo.gif"
            Sample.content Sample.student_t1 Sample.world)
     <> Raise (HTTPException 400
                 "Invalid file type. Only JPG/PNG/PDF allowed.").
Proof. split; [reflexivity|]. vm_compute. discriminate. Qed.

(* ================================================================== *)
(** ** Storing an image *)

Lemma storage_unconfigured env uid iid f c w :
  storage.is_configured env = false ->
  storage.upload_profile_image env uid f c w = (Return None, w)
  /\ storage.upload_event_image env iid uid f c w = (Return None, w)
  /\ storage.upload_marketplace_item env uid iid f c w = (Return None, w).
Proof.
  intros N.
  unfold storage.upload_profile_image, storage.upload_event_image,
    storage.upload_marketplace_item.
  rewrite N. repeat split.
Qed.

(** The names of the local copies of event and profile images: built
    from the id and the accepted extension, they are plain file names. *)
Lemma image_file_name (prefix : string) id ext :
  has_char "/" prefix = false -> has_char Ascii.zero prefix = false ->
  has_char "_" prefix = true ->
  Py.mem ext image_extensions = true ->
  has_char "/" (prefix ++ Py.str id ++ "." ++ ext) = false
  /\ valid_file_name (prefix ++ Py.str id ++ "." ++ ext) = true
  /\ forall d, Py.path_join d (prefix ++ Py.str id ++ "." ++ ext)
               = d ++ "/" ++ (prefix ++ Py.str id ++ "." ++ ext).
Proof.
  intros S Z U X. destruct (image_extension_is_plain ext X) as (XS & XZ).
  assert (A : has_char "/" (prefix ++ Py.str id ++ "." ++ ext) = false).
  { rewrite !has_char_app, S, str_without_slash, XS. reflexivity. }
  assert (B : valid_file_name (prefix ++ Py.str id ++ "." ++ ext) = true).
  { apply valid_name_with_underscore.
    - rewrite has_char_app, U. reflexivity.
    - rewrite !has_char_app, Z, str_without_nul, XZ. reflexivity. }
  split; [exact A|]. split; [exact B|]. intros d.
  apply path_join_plain; [exact A | |].
  - intros K. rewrite K in B. discriminate.
  - intros K. rewrite K in B. discriminate.
Qed.

(** With any store, an accepted event image ends as a URL on the event. *)
Lemma upload_event_image_persists env id filename contents u w e :
  events_by_id id w = [e] ->
  negb (User.is_superuser u) && negb (Event.organizer_id e =? User.id u)
  = false ->
  Py.mem (file_extension_of filename) image_extensions = true ->
  exists url w',
    upload_event_image env id filename contents u w
    = (Return (Event.set_image_url e (Some url)), w')
    /\ events w'
       = replace_event (Event.set_image_url e (Some url)) (events w).
Proof.
  intros E P X.
  destruct (image_file_name "event_" (Event.id e) (file_extension_of filename)
              eq_refl eq_refl eq_refl X) as (A & B & J).
  unfold upload_event_image.
  unfold bind at 1. unfold get at 1. cbv beta iota. rewrite E.
  unfold bind at 1. unfold scalar_one_or_none, ret at 1.
  cbv beta iota zeta. rewrite P, X. unfold negb. cbv beta iota.
  destruct (upload_event_image_quiet env (Event.id e) (Event.organizer_id e)
              filename contents w)
    as (o & w1 & Q & _ & V & _).
  unfold bind at 1. rewrite Q.
  destruct o as [url|].
  - run_handler. eexists; eexists; (split; [reflexivity|]).
    unfold with_events; simpl; now rewrite V.
  - cbv beta iota. rewrite J. unfold bind at 1.
    rewrite (local_save_writes "static/events" _ contents _ w1 A B eq_refl).
    unfold ret at 1. cbv beta iota.
    unfold bind, modify, ret. cbv beta iota.
    eexists; eexists; (split; [reflexivity|]).
    unfold with_events; simpl; now rewrite V.
Qed.

Lemma upload_event_image_local env id filename contents u w e :
  storage.is_configured env = false ->
  events_by_id id w = [e] ->
  negb (User.is_superuser u) && negb (Event.organizer_id e =? User.id u)
  = false ->
  Py.mem (file_extension_of filename) image_extensions = true ->
  exists w',
    upload_event_image env id filename contents u w
    = (Return (Event.set_image_url e
                 (Some ("/static/events/"
                          ++ ("event_" ++ Py.str (Event.id e)
                                ++ "." ++ file_extension_of filename)))),
       w')
    /\ events w'
       = replace_event
           (Event.set_image_url e
              (Some ("/static/events/"
                       ++ ("event_" ++ Py.str (Event.id e)
                             ++ "." ++ file_extension_of filename))))
           (events w)
    /\ storage_calls w'
       = (storage_calls w
          ++ [LocalMkdir "static/events";
              LocalWrite
                ("static/events" ++ "/"
                   ++ ("event_" ++ Py.str (Event.id e) ++ "."
                         ++ file_extension_of filename))
                contents])%list.
Proof.
  intros N E P X.
  destruct (image_file_name "event_" (Event.id e) (file_extension_of filename)
              eq_refl eq_refl eq_refl X) as (A & B & J).
  unfold upload_event_image.
  unfold bind at 1. unfold get at 1. cbv beta iota. rewrite E.
  unfold bind at 1. unfold scalar_one_or_none, ret at 1.
  cbv beta iota zeta. rewrite P, X. unfold negb. cbv beta iota.
  destruct (storage_unconfigured env (Event.organizer_id e) (Event.id e)
              filename contents w N) as (_ & Q & _).
  unfold bind at 1. rewrite Q. cbv beta iota. rewrite J.
  unfold bind at 1.
  rewrite (local_save_writes "static/events" _ contents _ w A B eq_refl).
  unfold ret at 1. cbv beta iota.
  unfold bind, modify, ret. cbv beta iota.
  eexists. split; [reflexivity|]. split; reflexivity.
Qed.

Lemma upload_profile_image_persists env filename contents u w :
  Py.mem (file_extension_of filename) image_extensions = true ->
  exists url w',
    upload_profile_image env filename contents u w
    = (Return (set_profile_image_url u (Some url)), w')
    /\ users w'
       = replace_user (set_profile_image_url u (Some url)) (users w).
Proof.
  intros X.
  destruct (image_file_name "user_" (User.id u) (file_extension_of filename)
              eq_refl eq_refl eq_refl X) as (A & B & J).
  unfold upload_profile_image.
  cbv beta iota zeta. rewrite X. unfold negb. cbv beta iota.
  destruct (upload_profile_image_quiet env (User.id u) filename contents w)
    as (o & w1 & Q & V & _).
  unfold bind at 1. rewrite Q.
  destruct o as [url|].
  - run_handler. eexists; eexists; (split; [reflexivity|]).
    unfold with_users; simpl; now rewrite V.
  - cbv beta iota. rewrite J. unfold bind at 1.
    rewrite (local_save_writes "static/profile_images" _ contents _ w1 A B eq_refl).
    unfold ret at 1. cbv beta iota.
    unfold bind, modify, ret. cbv beta iota.
    eexists; eexists; (split; [reflexivity|]).
    unfold with_users; simpl; now rewrite V.
Qed.

Lemma upload_profile_image_local env filename contents u w :
  storage.is_configured env = false ->
  Py.mem (file_extension_of filename) image_extensions = true ->
  exists w',
    upload_profile_image env filename contents u w
    = (Return (set_profile_image_url u
                 (Some ("/static/profile_images/"
                          ++ ("user_" ++ Py.str (User.id u) ++ "."
                                ++ file_extension_of filename)))), w')
    /\ users w'
       = replace_user
           (set_profile_image_url u
              (Some ("/static/profile_images/"
                       ++ ("user_" ++ Py.str (User.id u) ++ "."
                             ++ file_extension_of filename))))
           (users w)
    /\ storage_calls w'
       = (storage_calls w
          ++ [LocalMkdir "static/profile_images";
              LocalWrite
                ("static/profile_images" ++ "/"
                   ++ ("user_" ++ Py.str (User.id u) ++ "."
                         ++ file_extension_of filename))
                contents])%list.
Proof.
  intros N X.
  destruct (image_file_name "user_" (User.id u) (file_extension_of filename)
              eq_refl eq_refl eq_refl X) as (A & B & J).
  unfold upload_profile_image.
  cbv beta iota zeta. rewrite X. unfold negb. cbv beta iota.
  destruct (storage_unconfigured env (User.id u) 0 filename contents w N)
    as (Q & _).
  unfold bind at 1. rewrite Q. cbv beta iota. rewrite J.
  unfold bind at 1.
  rewrite (local_save_writes "static/profile_images" _ contents _ w A B eq_refl).
  unfold ret at 1. cbv beta iota.
  unfold bind, modify, ret. cbv beta iota.
  eexists. split; [reflexivity|]. split; reflexivity.
Qed.




(** C10.  [create_item] commits the row and then checks the extension of
    the file: with a file whose extension is outside the allow-list the
    request fails with the 400 of the file-type check, and the table has
    the new row, with no image URL; no storage call was made. *)
Theorem create_item_commits_before_check
    (env : Env) (title description : string) (price : float)
    (category filename : string) (contents : bytes) (u : User.t)
    (w : World) :
  Py.mem (file_extension_of filename) image_extensions = false ->
  exists w',
    create_item env title description price category
                (Some (filename, contents)) u w
    = (Raise (HTTPException 400
                "Invalid file type. Only JPG/PNG/WEBP allowed."), w')
    /\ marketplace_items w'
       = (marketplace_items w
          ++ [new_item env title description price category u w])%list
    /\ MarketplaceItem.image_url
         (new_item env title description price category u w) = None
    /\ w' <> w
    /\ storage_calls w' = storage_calls w.
Proof.
  intros X. unfold create_item.
  unfold bind at 1. unfold get at 1. cbv beta iota zeta.
  unfold bind at 1. unfold modify at 1. cbv beta iota.
  rewrite X. unfold negb. cbv beta iota.
  fold (new_item env title description price category u w).
  eexists. split; [reflexivity|]. simpl.
  split; [reflexivity|]. split; [reflexivity|]. split; [|reflexivity].
  intros H. apply (f_equal marketplace_items) in H. simpl in H.
  apply (f_equal (@List.length _)) in H. rewrite length_app in H.
  simpl in H. lia.
Qed.

Lemma create_item_commits_before_check_witness :
  Py.mem (file_extension_of "photo.gif") image_extensions = false
  /\ exists w',
       create_item Sample.env_online "Lamp" "Desk lamp" 5%float "other"
                   (Some ("photo.gif", Sample.content)) Sample.student_t1
                   Sample.world
       = (Raise (HTTPException 400
                   "Invalid file type. Only JPG/PNG/WEBP allowed."), w')
       /\ List.length (marketplace_items w') = 1%nat.
Proof.
  split; [reflexivity|].
  destruct (create_item_commits_before_check Sample.env_online "Lamp"
              "Desk lamp" 5%float "other" "photo.gif" Sample.content
              Sample.student_t1 Sample.world eq_refl)
    as (w' & E & I & _).
  exists w'. split; [exact E|]. now rewrite I.
Defined.

(** C7, on the code.  No store is configured and a client sends the image
    [a/b.png], whose extension is accepted.  As an event image and as a
    profile image it is written under the name built from the id,
    [event_1.png] and [user_11.png], the URL of that name is returned and
    is read back from the row.  As the image of a new marketplace item it
    is written under the name of the client, [11_a/b.png]: the directory
    [static/marketplace/11_a] was never made, the write raises, the
    request fails, and the item stays committed without an image.  With
    the filename [lamp.png] the item gets [static/marketplace/11_lamp.png],
    a path made of the filename of the client. *)
Theorem marketplace_fallback_trusts_the_filename :
  storage.is_configured Sample.env_offline = false
  /\ Py.mem (file_extension_of "a/b.png") image_extensions = true
  /\ fst (create_item Sample.env_offline "Lamp" "Desk lamp" 5%float "other"
            (Some ("a/b.png", Sample.content)) Sample.student_t1
            Sample.world)
     = Raise (Exception "OSError")
  /\ map MarketplaceItem.image_url
       (marketplace_items
          (snd (create_item Sample.env_offline "Lamp" "Desk lamp" 5%float
                  "other" (Some ("a/b.png", Sample.content))
                  Sample.student_t1 Sample.world)))
     = [None]
  /\ storage_calls
       (snd (create_item Sample.env_offline "Lamp" "Desk lamp" 5%float
               "other" (Some ("a/b.png", Sample.content))
               Sample.student_t1 Sample.world))
     = [LocalMkdir "static/marketplace"]
  /\ (exists e' w',
         upload_event_image Sample.env_offline 1 "a/b.png" Sample.content
                            Sample.admin_t1 Sample.world
         = (Return e', w')
         /\ Event.image_url e' = Some "/static/events/event_1.png"
         /\ read_event 1 w' = (Return e', w')
         /\ storage_calls w'
            = [LocalMkdir "static/events";
               LocalWrite "static/events/event_1.png" Sample.content])
  /\ (exists u' w',
         upload_profile_image Sample.env_offline "a/b.png" Sample.content
                              Sample.student_t1 Sample.world
         = (Return u', w')
         /\ User.profile_image_url u'
            = Some "/static/profile_images/user_11.png"
         /\ In u' (users w')
         /\ storage_calls w'
            = [LocalMkdir "static/profile_images";
               LocalWrite "static/profile_images/user_11.png"
                          Sample.content])
  /\ (exists i' w',
         create_item Sample.env_offline "Lamp" "Desk lamp" 5%float "other"
                     (Some ("lamp.png", Sample.content)) Sample.student_t1
                     Sample.world
         = (Return i', w')
         /\ MarketplaceItem.image_url i'
            = Some "static/marketplace/11_lamp.png"
         /\ marketplace_items w' = [i']).
Proof.
  split; [reflexivity|]. split; [reflexivity|]. split; [reflexivity|].
  split; [reflexivity|]. split; [reflexivity|].
  split; [|split].
  - eexists. eexists. split; [lazy; reflexivity|].
    split; [reflexivity|]. split; reflexivity.
  - eexists. eexists. split; [lazy; reflexivity|].
    split; [reflexivity|]. split; [|reflexivity].
    simpl. right; right; left. reflexivity.
  - eexists. eexists. split; [lazy; reflexivity|].
    split; reflexivity.
Qed.

(* ================================================================== *)
(** ** Updating one's own profile *)

Lemma replace_user_in (u' x : User.t) (l : list User.t) :
  In x l -> User.id x = User.id u' -> In u' (replace_user u' l).
Proof.
  intros I E. unfold replace_user.
  apply in_map_iff. exists x. split; [|assumption].
  now rewrite E, Z.eqb_refl.
Qed.

(** What [update_user_me] does with a request that the commit accepts:
    [e] is the email and [h] the password hash of the committed row. *)
Lemma update_user_me_commits env (user_in : UserUpdate.t) u w e h :
  (UserUpdate.email user_in = None /\ e = User.email u
   \/ UserUpdate.email user_in = Some (Some e)
      /\ forall x, In x (users w) -> User.email x = e ->
                   User.id x = User.id u) ->
  (UserUpdate.password user_in = None /\ h = User.hashed_password u
   \/ exists p, UserUpdate.password user_in = Some p
                /\ get_password_hash env p = Return h) ->
  (forall c, UserUpdate.college_id user_in = Some (Some c) ->
             exists col, In col (colleges w) /\ College.id col = c) ->
  update_user_me env user_in u w
  = (Return (apply_user_update u user_in e h),
     with_users (replace_user (apply_user_update u user_in e h)) w).
Proof.
  intros E P F. unfold update_user_me.
  assert (HP : forall k : string -> M User.t,
             (hashed_password <-
                match UserUpdate.password user_in with
                | Some p => (fun w0 => (get_password_hash env p, w0))
                | None => ret (User.hashed_password u)
                end ;; k hashed_password) w = k h w).
  { intros k. unfold bind.
    destruct P as [(P & ->) | (p & P & H)]; rewrite P;
      [reflexivity | now rewrite H]. }
  rewrite HP.
  assert (HE : checked_email u (UserUpdate.email user_in) w
               = (Return e, w)).
  { unfold checked_email. destruct E as [(E & ->) | (E & U)]; rewrite E;
      [reflexivity|].
    unfold bind, get. cbv beta iota.
    destruct (existsb _ (users w)) eqn:X; [|reflexivity].
    apply existsb_exists in X. destruct X as (x & I & K).
    apply andb_true_iff in K. destruct K as (K1 & K2).
    apply String.eqb_eq in K1. apply negb_true_iff, Z.eqb_neq in K2.
    now destruct (K2 (U x I K1)). }
  unfold bind at 1. rewrite HE.
  assert (HC : checked_college (UserUpdate.college_id user_in) w
               = (Return tt, w)).
  { unfold checked_college.
    destruct (UserUpdate.college_id user_in) as [[c|]|] eqn:C;
      try reflexivity.
    unfold bind, get. cbv beta iota.
    destruct (F c eq_refl) as (col & I & K).
    assert (X : existsb (fun x => College.id x =? c) (colleges w) = true).
    { apply existsb_exists. exists col. split; [exact I|].
      now apply Z.eqb_eq. }
    now rewrite X. }
  unfold bind at 1. rewrite HC. reflexivity.
Qed.

(** A request that sets neither the email, nor the password, nor the
    college is applied field by field, with no check of the actor. *)
Lemma update_user_me_applies env (user_in : UserUpdate.t) u w :
  UserUpdate.email user_in = None -> UserUpdate.password user_in = None ->
  UserUpdate.college_id user_in = None ->
  update_user_me env user_in u w
  = (Return (apply_user_update u user_in (User.email u)
                               (User.hashed_password u)),
     with_users
       (replace_user (apply_user_update u user_in (User.email u)
                                        (User.hashed_password u))) w).
Proof.
  intros E P C. apply update_user_me_commits.
  - now left.
  - now left.
  - intros c K. rewrite C in K. discriminate.
Qed.

Lemma replace_user_only (u' x : User.t) (l : list User.t) :
  In x (replace_user u' l) -> User.id x = User.id u' -> x = u'.
Proof.
  unfold replace_user. intros I E. apply in_map_iff in I.
  destruct I as (y & K & _).
  destruct (Z.eqb_spec (User.id y) (User.id u')) as [Y|Y];
    [now symmetry | subst; contradiction].
Qed.

(** C8.  [update_user_me] writes every field that the request sets on the
    current user, [role], [is_superuser] and [college_id] among them, and
    keeps the others, for any actor: whenever the commit accepts the row
    (the email is the user's own or nobody else's, the password hashes,
    the new college exists), the returned user has, field by field, the
    value of the request where it sets one and the old value elsewhere,
    and that user is the row of its id in the table.  So for every actor
    there is a request that makes the actor a superuser, and for every
    college of the table one that moves the actor there. *)
Theorem update_user_me_escalates (env : Env) (u : User.t) (w : World) :
  (forall (user_in : UserUpdate.t) (e h : string),
      (UserUpdate.email user_in = None /\ e = User.email u
       \/ UserUpdate.email user_in = Some (Some e)
          /\ forall x, In x (users w) -> User.email x = e ->
                       User.id x = User.id u) ->
      (UserUpdate.password user_in = None /\ h = User.hashed_password u
       \/ exists p, UserUpdate.password user_in = Some p
                    /\ get_password_hash env p = Return h) ->
      (forall c, UserUpdate.college_id user_in = Some (Some c) ->
                 exists col, In col (colleges w) /\ College.id col = c) ->
      exists u' w',
        update_user_me env user_in u w = (Return u', w')
        /\ User.id u' = User.id u
        /\ User.email u' = e
        /\ User.hashed_password u' = h
        /\ assigned (UserUpdate.role user_in) (User.role u) (User.role u')
        /\ assigned (UserUpdate.is_superuser user_in) (User.is_superuser u)
                    (User.is_superuser u')
        /\ assigned (UserUpdate.college_id user_in) (User.college_id u)
                    (User.college_id u')
        /\ assigned (UserUpdate.is_active user_in) (User.is_active u)
                    (User.is_active u')
        /\ assigned (UserUpdate.full_name user_in) (User.full_name u)
                    (User.full_name u')
        /\ assigned (UserUpdate.phone_number user_in) (User.phone_number u)
                    (User.phone_number u')
        /\ assigned (UserUpdate.address user_in) (User.address u)
                    (User.address u')
        /\ assigned (UserUpdate.interests user_in) (User.interests u)
                    (User.interests u')
        /\ assigned (UserUpdate.college_name user_in) (User.college_name u)
                    (User.college_name u')
        /\ assigned (UserUpdate.profile_image_url user_in)
                    (User.profile_image_url u) (User.profile_image_url u')
        /\ assigned (UserUpdate.theme_preference user_in)
                    (User.theme_preference u) (User.theme_preference u')
        /\ User.events_count u' = User.events_count u
        /\ User.buddies_count u' = User.buddies_count u
        /\ (forall x, In x (users w) -> User.id x = User.id u ->
                      In u' (users w'))
        /\ (forall x, In x (users w') -> User.id x = User.id u -> x = u'))
  /\ (exists user_in u' w',
         update_user_me env user_in u w = (Return u', w')
         /\ User.is_superuser u' = true
         /\ (forall x, In x (users w) -> User.id x = User.id u ->
                       In u' (users w')))
  /\ (forall col : College.t,
         In col (colleges w) ->
         exists user_in u' w',
           update_user_me env user_in u w = (Return u', w')
           /\ User.college_id u' = Some (College.id col)
           /\ (forall x, In x (users w) -> User.id x = User.id u ->
                         In u' (users w'))).
Proof.
  split; [|split].
  - intros user_in e h E P F. eexists. eexists.
    split; [exact (update_user_me_commits env user_in u w e h E P F)|].
    simpl. split; [reflexivity|]. split; [reflexivity|].
    split; [reflexivity|].
    unfold assigned.
    repeat (split;
            [match goal with
             | |- match ?r with _ => _ end => destruct r; reflexivity
             end|]).
    split; [reflexivity|]. split; [reflexivity|]. split.
    + intros x I K. now apply (replace_user_in _ x).
    + intros x I K. now apply (replace_user_only _ x _ I).
  - eexists. eexists. eexists. split.
    + apply (update_user_me_applies env
               (UserUpdate.mk None None (Some true) None None None None
                              None None None None None None));
        reflexivity.
    + split; [reflexivity|]. intros x I K. simpl.
      now apply (replace_user_in _ x).
  - intros col I. eexists. eexists. eexists. split.
    + apply (update_user_me_commits env
               (UserUpdate.mk None None None None None None None None None
                              None (Some (Some (College.id col))) None None)
               u w (User.email u) (User.hashed_password u)).
      * now left.
      * now left.
      * intros c K. inversion K. now exists col.
    + split; [reflexivity|]. intros x J K. simpl.
      now apply (replace_user_in _ x).
Qed.

Lemma update_user_me_escalates_witness :
  In Sample.college_t2 (colleges Sample.world)
  /\ exists u' w',
       update_user_me Sample.env_online
         (UserUpdate.mk None None (Some true) (Some (Some "Sam S.")) None
                        None None None None None (Some (Some 2))
                        (Some (Some "super_admin")) (Some (Some "secret")))
         Sample.student_t1 Sample.world
       = (Return u', w')
       /\ User.is_superuser u' = true
       /\ User.college_id u' = Some 2
       /\ User.role u' = Some "super_admin"
       /\ User.full_name u' = Some "Sam S."
       /\ User.hashed_password u' = "hash:secret"
       /\ In u' (users w').
Proof.
  split; [simpl; now right; left|].
  destruct (update_user_me_escalates Sample.env_online Sample.student_t1
              Sample.world) as (G & _).
  destruct (G (UserUpdate.mk None None (Some true) (Some (Some "Sam S."))
                             None None None None None None (Some (Some 2))
                             (Some (Some "super_admin"))
                             (Some (Some "secret")))
              "sam@campus.edu" "hash:secret")
    as (u' & w' & E & _ & _ & H & R & S & C & _ & N & _ & _ & _ & _ & _ & _
        & _ & _ & I & _).
  - left. split; reflexivity.
  - right. exists (Some "secret"). split; reflexivity.
  - intros c K. inversion K. exists Sample.college_t2.
    split; [simpl; now right; left | reflexivity].
  - exists u', w'. split; [exact E|]. split; [exact S|]. split; [exact C|].
    split; [exact R|]. split; [exact N|]. split; [exact H|].
    apply (I Sample.student_t1); [|reflexivity].
    simpl. now right; right; left.
Defined.

(* ================================================================== *)
(** ** More on the storage client *)

Lemma delete_file_quiet env p : quiet (storage.delete_file env p).
Proof.
  intros w. unfold storage.delete_file.
  destruct (storage.is_configured env); simpl; [|quiet_now].
  unfold storage.remote_remove. run_handler.
  destruct (remote_remove_raises env _); simpl; quiet_now.
Qed.

(** X1.  No method of the storage client raises into its caller, whatever
    the remote store does: each returns a value (a URL or [None], a
    boolean for [delete_file]) and leaves every database table as it
    was. *)
Theorem storage_client_never_raises
    (env : Env) (uid iid : Z) (file_path storage_path : string)
    (content : bytes) :
  quiet (storage.upload_profile_image env uid file_path content)
  /\ quiet (storage.upload_verification_document env uid file_path content)
  /\ quiet (storage.upload_marketplace_item env uid iid file_path content)
  /\ quiet (storage.upload_event_image env iid uid file_path content)
  /\ quiet (storage.delete_file env storage_path).
Proof.
  split; [apply upload_profile_image_quiet|].
  split; [apply upload_verification_document_quiet|].
  split; [apply upload_marketplace_item_quiet|].
  split; [apply upload_event_image_quiet | apply delete_file_quiet].
Qed.

(** X2.  With a configured store that accepts the upload, a profile image
    is stored at [users/{id}/profile_picture/profile_picture{suffix}]
    after an attempt to remove the object of that path, and the public
    URL of that path is returned, whether the removal worked or not. *)
Theorem profile_image_survives_failed_removal
    (env : Env) (uid : Z) (file_path : string) (content : bytes)
    (w : World) :
  let ext := Py.lower (Py.suffix file_path) in
  let storage_path :=
    "users/" ++ Py.str uid ++ "/profile_picture/"
      ++ ("profile_picture" ++ ext) in
  storage.is_configured env = true ->
  remote_upload_raises env storage_path = false ->
  exists w',
    storage.upload_profile_image env uid file_path content w
    = (Return (Some (storage._get_public_url env storage_path)), w')
    /\ storage_calls w'
       = (storage_calls w
          ++ [RemoteRemove storage_path;
              RemoteUpload storage_path content
                           (storage._get_content_type ext)])%list
    /\ printed w' = printed w
    /\ tables w' = tables w.
Proof.
  intros ext storage_path C U. unfold storage.upload_profile_image.
  rewrite C. cbv beta iota zeta. unfold negb. cbv iota.
  fold ext. fold storage_path.
  unfold storage.remote_remove, storage.remote_upload.
  unfold try_except, bind, modify, raise, ret. cbv beta iota.
  rewrite U.
  destruct (remote_remove_raises env storage_path);
    (eexists; split; [reflexivity|]); simpl;
    rewrite <- app_assoc; repeat split.
Qed.

Lemma profile_image_survives_failed_removal_witness :
  storage.is_configured Fixture.env_no_removal = true
  /\ exists w',
       storage.upload_profile_image Fixture.env_no_removal 11 "me.JPG"
                                    Sample.content Sample.world
       = (Return (Some "https://x.supabase.co/storage/v1/object/public/campus-storage/users/11/profile_picture/profile_picture.jpg"),
          w')
       /\ storage_calls w'
          = [RemoteRemove "users/11/profile_picture/profile_picture.jpg";
             RemoteUpload "users/11/profile_picture/profile_picture.jpg"
                          Sample.content "image/jpeg"].
Proof.
  split; [reflexivity|].
  destruct (profile_image_survives_failed_removal Fixture.env_no_removal 11
              "me.JPG" Sample.content Sample.world eq_refl eq_refl)
    as (w' & E & S & _).
  exists w'. split; [exact E | exact S].
Defined.


Lemma upload_event_image_stored env event_id organizer_id f c w :
  let ext := Py.lower (Py.suffix f) in
  let storage_path :=
    "events/" ++ Py.str event_id ++ "/" ++ ("event_image" ++ ext) in
  storage.is_configured env = true ->
  remote_upload_raises env storage_path = false ->
  storage.upload_event_image env event_id organizer_id f c w
  = (Return (Some (storage._get_public_url env storage_path)),
     with_storage_calls
       (fun l => (l ++ [RemoteUpload storage_path c
                          (storage._get_content_type ext)])%list) w).
Proof.
  intros ext storage_path C U. unfold storage.upload_event_image.
  rewrite C. cbv beta iota zeta. unfold negb. cbv iota.
  fold ext. fold storage_path. unfold storage.remote_upload.
  unfold try_except, bind, modify, raise, ret. cbv beta iota.
  now rewrite U.
Qed.



(** X4.  With a configured store that accepts the upload, an accepted
    event image goes to [events/{id}/event_image{suffix}] and nowhere
    else: no local directory is made and no local file written, and the
    event gets the public URL of that path. *)
Theorem event_image_stored_remotely
    (env : Env) (id : Z) (filename : string) (contents : bytes)
    (u : User.t) (w : World) (e : Event.t) :
  let ext := Py.lower (Py.suffix filename) in
  let storage_path :=
    "events/" ++ Py.str (Event.id e) ++ "/" ++ ("event_image" ++ ext) in
  let url := storage._get_public_url env storage_path in
  storage.is_configured env = true ->
  remote_upload_raises env storage_path = false ->
  events_by_id id w = [e] ->
  negb (User.is_superuser u) && negb (Event.organizer_id e =? User.id u)
  = false ->
  Py.mem (file_extension_of filename) image_extensions = true ->
  exists w',
    upload_event_image env id filename contents u w
    = (Return (Event.set_image_url e (Some url)), w')
    /\ events w' = replace_event (Event.set_image_url e (Some url)) (events w)
    /\ storage_calls w'
       = (storage_calls w
          ++ [RemoteUpload storage_path contents
                           (storage._get_content_type ext)])%list.
Proof.
  intros ext storage_path url C U E P X. unfold upload_event_image.
  unfold bind at 1. unfold get at 1. cbv beta iota. rewrite E.
  unfold bind at 1. unfold scalar_one_or_none, ret at 1.
  cbv beta iota zeta. rewrite P, X. unfold negb. cbv beta iota.
  unfold bind at 1.
  rewrite (upload_event_image_stored env (Event.id e) (Event.organizer_id e)
             filename contents w C U).
  run_handler. eexists. split; [reflexivity|]. simpl.
  split; reflexivity.
Qed.

Lemma event_image_stored_remotely_witness :
  storage.is_configured Sample.env_online = true
  /\ exists w',
       upload_event_image Sample.env_online 1 "Poster.final.PNG"
                          Sample.content Sample.admin_t1 Sample.world
       = (Return (Event.set_image_url Sample.hack_night
                    (Some "https://x.supabase.co/storage/v1/object/public/campus-storage/events/1/event_image.png")),
          w')
       /\ storage_calls w'
          = [RemoteUpload "events/1/event_image.png" Sample.content
                          "image/png"].
Proof.
  split; [reflexivity|].
  destruct (event_image_stored_remotely Sample.env_online 1
              "Poster.final.PNG" Sample.content Sample.admin_t1 Sample.world
              Sample.hack_night eq_refl eq_refl eq_refl eq_refl eq_refl)
    as (w' & E & _ & S).
  exists w'. split; [exact E | exact S].
Defined.

(* ================================================================== *)
(** ** Filenames and extensions *)

Lemma split_nonempty sep s : Py.split sep s <> [].
Proof.
  destruct s as [|c s]; simpl; [discriminate|].
  destruct (Ascii.eqb c sep); [discriminate|].
  destruct (Py.split sep s); discriminate.
Qed.

Lemma split_without_sep sep s :
  has_char sep s = false -> Py.split sep s = [s].
Proof.
  induction s as [|c s IH]; simpl; intros H; [reflexivity|].
  apply orb_false_iff in H. destruct H as [C H].
  rewrite C, (IH H). reflexivity.
Qed.

Lemma split_at_sep sep a b :
  Py.split sep (a ++ String sep b)
  = (Py.split sep a ++ Py.split sep b)%list.
Proof.
  induction a as [|c a IH]; simpl.
  - now rewrite Ascii.eqb_refl.
  - destruct (Ascii.eqb c sep); [now rewrite IH|].
    rewrite IH.
    destruct (Py.split sep a) as [|hd tl] eqn:E; [|reflexivity].
    now apply split_nonempty in E.
Qed.

Lemma last_of_app {A} (l1 l2 : list A) (d : A) :
  l2 <> [] -> List.last (l1 ++ l2) d = List.last l2 d.
Proof.
  intros N. induction l1 as [|a l1 IH]; simpl; [reflexivity|].
  destruct (l1 ++ l2)%list eqn:E; [|exact IH].
  apply app_eq_nil in E. now destruct E.
Qed.

Lemma has_char_append c a b :
  has_char c (a ++ b) = has_char c a || has_char c b.
Proof.
  induction a as [|x a IH]; simpl; [reflexivity|].
  now rewrite IH, orb_assoc.
Qed.

Lemma string_length_append a b :
  String.length (a ++ b) = (String.length a + String.length b)%nat.
Proof. induction a as [|x a IH]; simpl; [reflexivity | now rewrite IH]. Qed.

Lemma split_pieces_without c sep s x :
  has_char c s = false -> In x (Py.split sep s) -> has_char c x = false.
Proof.
  revert x. induction s as [|y s IH]; simpl; intros x H I.
  - destruct I as [<- | []]. reflexivity.
  - apply orb_false_iff in H. destruct H as [C H].
    destruct (Ascii.eqb y sep).
    + destruct I as [<- | I]; [reflexivity | now apply IH].
    + destruct (Py.split sep s) as [|hd tl] eqn:E.
      * destruct I as [<- | []]. simpl. now rewrite C.
      * destruct I as [<- | I].
        -- simpl. rewrite C. apply IH; [assumption | now left].
        -- apply IH; [assumption | now right].
Qed.

Lemma path_name_plain (f : string) :
  has_char "/" f = false -> (2 <= String.length f)%nat ->
  Py.path_name f = f.
Proof.
  intros S L. unfold Py.path_name, Py.path_parts.
  rewrite (split_without_sep _ _ S). simpl.
  destruct f as [|a [|b f]]; simpl in L; try lia.
  destruct (String.eqb_spec (String a (String b f)) "."); [discriminate|].
  reflexivity.
Qed.

(** X5.  For a plain filename [stem.ext] (no slash, a stem, an extension
    without a dot) the two readings of the extension agree: the handlers'
    [filename.split(".")[-1].lower()] is the extension in lower case, and
    the storage client's [Path(filename).suffix.lower()] is the same with
    its dot. *)
Theorem plain_filename_extensions_agree (stem ext : string) :
  stem <> "" -> ext <> "" ->
  has_char "/" stem = false -> has_char "/" ext = false ->
  has_char "." ext = false ->
  file_extension_of (stem ++ "." ++ ext) = Py.lower ext
  /\ Py.suffix (stem ++ "." ++ ext) = "." ++ ext
  /\ Py.lower (Py.suffix (stem ++ "." ++ ext))
     = "." ++ file_extension_of (stem ++ "." ++ ext).
Proof.
  intros NS NE SS SE DE.
  assert (L : Py.last_item (Py.split "." (stem ++ "." ++ ext)) = ext).
  { unfold Py.last_item. simpl append. rewrite split_at_sep.
    rewrite last_of_app by apply split_nonempty.
    now rewrite (split_without_sep _ _ DE). }
  assert (F : file_extension_of (stem ++ "." ++ ext) = Py.lower ext).
  { unfold file_extension_of. now rewrite L. }
  assert (S : Py.suffix (stem ++ "." ++ ext) = "." ++ ext).
  { unfold Py.suffix.
    rewrite path_name_plain.
    - rewrite L. simpl append at 1. rewrite split_at_sep, length_app.
      assert (1 <= List.length (Py.split "." stem))%nat.
      { destruct (Py.split "." stem) eqn:E; simpl; [|lia].
        now apply split_nonempty in E. }
      rewrite (split_without_sep _ _ DE). simpl List.length.
      replace (Nat.leb 2 (List.length (Py.split "." stem) + 1)) with true
        by (symmetry; apply Nat.leb_le; lia).
      destruct (String.eqb_spec ext ""); [contradiction|].
      rewrite string_length_append. simpl String.length.
      replace (Nat.ltb (String.length ext + 1)
                 (String.length stem + S (String.length ext))) with true.
      + reflexivity.
      + symmetry. apply Nat.ltb_lt.
        destruct stem; [contradiction | simpl; lia].
    - rewrite has_char_append. simpl. now rewrite SS, SE.
    - rewrite string_length_append. simpl.
      destruct stem; [contradiction | simpl; lia]. }
  split; [exact F|]. split; [exact S|].
  rewrite S, F. reflexivity.
Qed.

Lemma plain_filename_extensions_agree_witness :
  file_extension_of "photo.final.JPG" = "jpg"
  /\ Py.suffix "photo.final.JPG" = ".JPG".
Proof.
  destruct (plain_filename_extensions_agree "photo.final" "JPG")
    as (F & S & _); try reflexivity; try discriminate.
  split; [exact F | exact S].
Defined.

(** X6.  A filename without a dot is its own extension for the handlers:
    a file named [PNG] passes the image allow-list exactly when its whole
    name, in lower case, is in the list, while the storage client finds
    no suffix in it. *)
Theorem dotless_filename_is_its_extension (filename : string) :
  has_char "." filename = false ->
  file_extension_of filename = Py.lower filename
  /\ Py.mem (file_extension_of filename) image_extensions
     = Py.mem (Py.lower filename) image_extensions
  /\ Py.suffix filename = "".
Proof.
  intros D.
  assert (F : file_extension_of filename = Py.lower filename).
  { unfold file_extension_of. now rewrite (split_without_sep _ _ D). }
  split; [exact F|]. split; [now rewrite F|].
  unfold Py.suffix.
  assert (N : has_char "." (Py.path_name filename) = false).
  { unfold Py.path_name, Py.path_parts.
    assert (G : forall l, (forall x, In x l -> has_char "." x = false) ->
                  has_char "." (List.last l "") = false).
    { induction l as [|a l IH]; intros H; [reflexivity|].
      simpl. destruct l; [apply H; now left|].
      apply IH. intros x I. apply H. now right. }
    apply G. intros x I. apply filter_In in I. destruct I as [I _].
    now apply (split_pieces_without "." "/" filename). }
  now rewrite (split_without_sep _ _ N).
Qed.

Lemma dotless_filename_is_its_extension_witness :
  has_char "." "PNG" = false
  /\ Py.mem (file_extension_of "PNG") image_extensions = true
  /\ Py.suffix "PNG" = "".
Proof.
  split; [reflexivity|].
  destruct (dotless_filename_is_its_extension "PNG" eq_refl)
    as (_ & M & S).
  split; [rewrite M; reflexivity | exact S].
Defined.

(* ================================================================== *)
(** ** More on events *)

Lemma events_by_id_absent id w :
  ~ In id (map Event.id (events w)) -> events_by_id id w = [].
Proof. apply (filter_key_absent Event.id). Qed.

Lemma events_by_id_id id w e :
  events_by_id id w = [e] -> Event.id e = id.
Proof.
  intros E. assert (I : In e (events_by_id id w)) by (rewrite E; now left).
  apply filter_In in I. destruct I as [_ I]. now apply Z.eqb_eq.
Qed.

(** X7.  Every handler that takes an event id answers an id that no event
    has with 404 "Event not found" and changes nothing, whoever asks: the
    lookup comes before any permission check. *)
Theorem missing_event_is_404
    (env : Env) (id : Z) (event_in : EventUpdate.t) (filename : string)
    (contents : bytes) (u : User.t) (w : World) :
  ~ In id (map Event.id (events w)) ->
  read_event id w = (Raise (HTTPException 404 "Event not found"), w)
  /\ update_event id event_in u w
     = (Raise (HTTPException 404 "Event not found"), w)
  /\ delete_event id u w
     = (Raise (HTTPException 404 "Event not found"), w)
  /\ upload_event_image env id filename contents u w
     = (Raise (HTTPException 404 "Event not found"), w).
Proof.
  intros A. apply events_by_id_absent in A.
  unfold read_event, update_event, delete_event, upload_event_image.
  run_handler. rewrite A. repeat split.
Qed.

Lemma missing_event_is_404_witness :
  read_event 7 Sample.world
  = (Raise (HTTPException 404 "Event not found"), Sample.world)
  /\ delete_event 7 Sample.root Sample.world
     = (Raise (HTTPException 404 "Event not found"), Sample.world).
Proof.
  destruct (missing_event_is_404 Sample.env_online 7 Sample.rename "a.png"
              Sample.content Sample.root Sample.world) as (R & _ & D & _).
  - simpl. intuition discriminate.
  - split; [exact R | exact D].
Defined.

(** X8.  [upload_event_image] checks the actor before the file: an actor
    who is neither a superuser nor the organizer gets 403 whatever the
    filename, and the organizer or a superuser with a filename outside
    the allow-list gets 400; neither changes anything nor reaches a
    store. *)
Theorem event_image_checks_actor_then_file
    (env : Env) (id : Z) (filename : string) (contents : bytes)
    (u : User.t) (w : World) (e : Event.t) :
  events_by_id id w = [e] ->
  (User.is_superuser u = false -> Event.organizer_id e <> User.id u ->
     upload_event_image env id filename contents u w
     = (Raise (HTTPException 403 "Not enough permissions"), w))
  /\ (User.is_superuser u = true \/ Event.organizer_id e = User.id u ->
      Py.mem (file_extension_of filename) image_extensions = false ->
        upload_event_image env id filename contents u w
        = (Raise (HTTPException 400
                    "Invalid file type. Only JPG/PNG/WEBP allowed."), w)).
Proof.
  intros E. split.
  - intros S O. apply Z.eqb_neq in O. unfold upload_event_image.
    unfold bind at 1. unfold get at 1. cbv beta iota. rewrite E.
    unfold bind at 1. unfold scalar_one_or_none, ret at 1.
    cbv beta iota zeta. now rewrite S, O.
  - intros P X. unfold upload_event_image.
    unfold bind at 1. unfold get at 1. cbv beta iota. rewrite E.
    unfold bind at 1. unfold scalar_one_or_none, ret at 1.
    cbv beta iota zeta. rewrite X.
    destruct P as [S | O].
    + now rewrite S.
    + apply Z.eqb_eq in O. rewrite O. now rewrite andb_false_r.
Qed.

Lemma event_image_checks_actor_then_file_witness :
  events_by_id 1 Sample.world = [Sample.hack_night]
  /\ upload_event_image Sample.env_online 1 "photo.gif" Sample.content
       Sample.student_t2 Sample.world
     = (Raise (HTTPException 403 "Not enough permissions"), Sample.world)
  /\ upload_event_image Sample.env_online 1 "photo.gif" Sample.content
       Sample.admin_t1 Sample.world
     = (Raise (HTTPException 400
                 "Invalid file type. Only JPG/PNG/WEBP allowed."),
        Sample.world).
Proof.
  split; [reflexivity|].
  split.
  - destruct (event_image_checks_actor_then_file Sample.env_online 1
                "photo.gif" Sample.content Sample.student_t2 Sample.world
                Sample.hack_night eq_refl) as (D & _).
    apply D; [reflexivity | discriminate].
  - destruct (event_image_checks_actor_then_file Sample.env_online 1
                "photo.gif" Sample.content Sample.admin_t1 Sample.world
                Sample.hack_night eq_refl) as (_ & F).
    apply F; [now right | reflexivity].
Defined.

(** X9.  When the organizer or a superuser deletes an event, the handler
    returns it, the other events stay, no participation refers to the
    event any more, and reading the id afterwards gives 404. *)
Theorem deleted_event_is_gone
    (id : Z) (u : User.t) (w : World) (e : Event.t) :
  events_by_id id w = [e] ->
  negb (User.is_superuser u) && negb (Event.organizer_id e =? User.id u)
  = false ->
  exists w',
    delete_event id u w = (Return e, w')
    /\ read_event id w'
       = (Raise (HTTPException 404 "Event not found"), w')
    /\ (forall x, In x (events w') <-> In x (events w) /\ Event.id x <> id)
    /\ (forall p, In p (participations w') <->
                  In p (participations w) /\ Participation.event_id p <> id)
    /\ users w' = users w
    /\ verification_requests w' = verification_requests w.
Proof.
  intros E P. pose proof (events_by_id_id id w e E) as I.
  unfold delete_event.
  unfold bind at 1. unfold get at 1. cbv beta iota. rewrite E.
  unfold bind at 1. unfold scalar_one_or_none, ret at 1.
  cbv beta iota. rewrite P. run_handler. rewrite I.
  eexists. split; [reflexivity|].
  split; [| split; [| split; [| split; reflexivity]]].
  - match goal with
    | |- read_event ?i ?w' = _ => assert (G : events_by_id i w' = [])
    end.
    { unfold events_by_id. simpl. induction (events w) as [|a l IH];
        [reflexivity|]. simpl.
      destruct (Z.eqb_spec (Event.id a) id) as [K|K]; simpl; [exact IH|].
      apply Z.eqb_neq in K. now rewrite K. }
    unfold read_event, bind, get. cbv beta iota. now rewrite G.
  - intros x. simpl. rewrite filter_In, negb_true_iff, Z.eqb_neq.
    reflexivity.
  - intros p. simpl. rewrite filter_In, negb_true_iff, Z.eqb_neq.
    reflexivity.
Qed.

Lemma deleted_event_is_gone_witness :
  events_by_id 1 Fixture.busy_world = [Sample.hack_night]
  /\ exists w',
       delete_event 1 Sample.admin_t1 Fixture.busy_world
       = (Return Sample.hack_night, w')
       /\ events w' = [Sample.quiz]
       /\ participations w' = [Fixture.participation 3 20 2]
       /\ read_event 1 w'
          = (Raise (HTTPException 404 "Event not found"), w').
Proof.
  split; [reflexivity|].
  destruct (deleted_event_is_gone 1 Sample.admin_t1 Fixture.busy_world
              Sample.hack_night eq_refl eq_refl) as (w' & D & R & _).
  exists w'. split; [exact D|].
  inversion D. subst w'. split; [reflexivity|]. split; [reflexivity|].
  reflexivity.
Defined.

(** X10.  With the event id as primary key, the image an organizer or a
    superuser uploads is what a later read of the event shows: the upload
    returns the event with some URL, and [read_event] then returns that
    same event, URL included. *)
Theorem uploaded_image_is_read_back
    (env : Env) (filename : string) (contents : bytes) (u : User.t)
    (w : World) (e : Event.t) :
  NoDup (map Event.id (events w)) ->
  In e (events w) ->
  negb (User.is_superuser u) && negb (Event.organizer_id e =? User.id u)
  = false ->
  Py.mem (file_extension_of filename) image_extensions = true ->
  exists url w',
    upload_event_image env (Event.id e) filename contents u w
    = (Return (Event.set_image_url e (Some url)), w')
    /\ read_event (Event.id e) w'
       = (Return (Event.set_image_url e (Some url)), w')
    /\ Event.image_url (Event.set_image_url e (Some url)) = Some url
    /\ Event.title (Event.set_image_url e (Some url)) = Event.title e
    /\ Event.organizer_id (Event.set_image_url e (Some url))
       = Event.organizer_id e
    /\ Event.college_id (Event.set_image_url e (Some url))
       = Event.college_id e.
Proof.
  intros ND I P X.
  destruct (upload_event_image_persists env (Event.id e) filename contents
              u w e (events_by_id_present w e ND I) P X)
    as (url & w' & U & Ev).
  exists url, w'. split; [exact U|]. split; [|repeat split].
  unfold read_event, bind, get. cbv beta iota.
  unfold events_by_id. rewrite Ev. unfold replace_event.
  now rewrite (filter_key_replaced Event.id (events w) e
                 (Event.set_image_url e (Some url)) ND I eq_refl).
Qed.

Lemma sample_world_event_ids :
  NoDup (map Event.id (events Sample.world)).
Proof. simpl. repeat constructor; simpl; intuition discriminate. Qed.

Lemma uploaded_image_is_read_back_witness :
  NoDup (map Event.id (events Sample.world))
  /\ exists url w',
       upload_event_image Sample.env_offline 1 "pic.png" Sample.content
                          Sample.admin_t1 Sample.world
       = (Return (Event.set_image_url Sample.hack_night (Some url)), w')
       /\ read_event 1 w'
          = (Return (Event.set_image_url Sample.hack_night (Some url)), w').
Proof.
  split; [apply sample_world_event_ids|].
  assert (I : In Sample.hack_night (events Sample.world))
    by (simpl; now left).
  destruct (uploaded_image_is_read_back Sample.env_offline "pic.png"
              Sample.content Sample.admin_t1 Sample.world Sample.hack_night
              sample_world_event_ids I eq_refl eq_refl)
    as (url & w' & U & R & _).
  exists url, w'. split; [exact U | exact R].
Defined.

(** X11.  An event is created in the college of its creator, with the
    creator as organizer and an id that no event had; the row is committed
    whatever happens to the notification, and the call returns it when the
    commit of the notification goes through.  Afterwards an actor who is
    not a superuser may see the event exactly when the actor's
    [college_id] equals the creator's (two actors without a college
    included), and a superuser may see it in any case. *)
Theorem created_event_is_seen_in_its_college
    (env : Env) (event_in : EventCreate.t) (u : User.t) (w : World) :
  college_admin_or_above u = true ->
  exists db_obj o w',
    create_event env event_in u w = (o, w')
    /\ events w' = (events w ++ [db_obj])%list
    /\ (notification_commit_raises env = false -> o = Return db_obj)
    /\ ~ In (Event.id db_obj) (map Event.id (events w))
    /\ Event.organizer_id db_obj = User.id u
    /\ (forall actor : User.t,
          In db_obj (visible_events actor w') <->
          User.is_superuser actor = true
          \/ User.college_id actor = User.college_id u).
Proof.
  intros C. unfold create_event, get_current_active_college_admin.
  rewrite C. unfold commit_notification, broadcast, respond.
  assert (F : ~ In (next_id (map Event.id (events w)))
                   (map Event.id (events w))).
  { intros I. apply next_id_above in I. lia. }
  assert (V : forall (actor : User.t) (x : Event.t) (w' : World),
             events w' = (events w ++ [x])%list ->
             Event.college_id x = User.college_id u ->
             (In x (visible_events actor w') <->
              User.is_superuser actor = true
              \/ User.college_id actor = User.college_id u)).
  { intros actor x w' Ev Co. unfold visible_events. rewrite Ev.
    destruct (User.is_superuser actor).
    - split; [now left|]. intros _. apply in_or_app. right. now left.
    - rewrite filter_In, Co, opt_Z_eqb_eq. split.
      + intros [_ K]. now right.
      + intros [K|K]; [discriminate|]. split; [|now symmetry].
        apply in_or_app. right. now left. }
  destruct (notification_commit_raises env) eqn:N;
    [| destruct (broadcast_raises env) eqn:B]; run_handler;
    rewrite ?N, ?B; simpl;
    (eexists; eexists; eexists; split; [reflexivity|]);
    (split; [reflexivity|]);
    (split; [first [discriminate | reflexivity]|]);
    (split; [exact F|]); (split; [reflexivity|]);
    intros actor; apply V; reflexivity.
Qed.

Lemma created_event_is_seen_in_its_college_witness :
  college_admin_or_above Sample.admin_t1 = true
  /\ exists db_obj w',
       create_event Sample.env_online Sample.hack_night_in Sample.admin_t1
                    Sample.world = (Return db_obj, w')
       /\ In db_obj (visible_events Sample.student_t1 w')
       /\ ~ In db_obj (visible_events Sample.student_t2 w').
Proof.
  split; [reflexivity|].
  destruct (created_event_is_seen_in_its_college Sample.env_online
              Sample.hack_night_in Sample.admin_t1 Sample.world eq_refl)
    as (db_obj & o & w' & E & _ & R & _ & _ & V).
  exists db_obj, w'. rewrite (R eq_refl) in E. split; [exact E|]. split.
  - apply V. now right.
  - intros I. apply V in I. destruct I as [I|I]; discriminate.
Defined.

(** X12.  [create_event] hands a payload to the broadcaster only after the
    notification row is committed, and the payload is that row: its id,
    title "New Event!", type "info" and message.  The row is addressed to
    nobody (a broadcast).  When the commit of the row fails, nothing is
    handed to the broadcaster, no notification is left, and the call ends
    in a 500 although the event is committed. *)
Theorem broadcast_follows_the_notification
    (env : Env) (event_in : EventCreate.t) (u : User.t) (w : World) :
  college_admin_or_above u = true ->
  exists db_obj o w',
    create_event env event_in u w = (o, w')
    /\ events w' = (events w ++ [db_obj])%list
    /\ (notification_commit_raises env = true ->
          o = Raise (HTTPException 500 "Internal Server Error")
          /\ broadcasts w' = broadcasts w
          /\ notifications w' = notifications w)
    /\ (notification_commit_raises env = false ->
          o = Return db_obj
          /\ exists n,
               notifications w' = (notifications w ++ [n])%list
               /\ broadcasts w'
                  = (broadcasts w
                     ++ [mkPayload "notification" (Notification.title n)
                                   (Notification.message n)
                                   (Notification.type n)
                                   (Notification.id n)])%list
               /\ Notification.user_id n = None
               /\ Notification.title n = "New Event!"
               /\ Notification.type n = "info"
               /\ Notification.is_read n = false
               /\ Notification.message n
                  = EventCreate.title event_in ++ " has been organized by "
                      ++ Py.str_opt (User.full_name u)
               /\ ~ In (Notification.id n)
                       (map Notification.id (notifications w))).
Proof.
  intros C. unfold create_event, get_current_active_college_admin.
  rewrite C. unfold commit_notification, broadcast, respond.
  assert (F : ~ In (next_id (map Notification.id (notifications w)))
                   (map Notification.id (notifications w))).
  { intros I. apply next_id_above in I. lia. }
  destruct (notification_commit_raises env) eqn:N;
    [| destruct (broadcast_raises env) eqn:B]; run_handler;
    rewrite ?N, ?B; simpl;
    (eexists; eexists; eexists; split; [reflexivity|]); simpl;
    (split; [reflexivity|]).
  - split; [intros _; repeat split | discriminate].
  - split; [discriminate|]. intros _. split; [reflexivity|]. eexists.
    split; [reflexivity|]. split; [reflexivity|].
    repeat (split; [reflexivity|]). exact F.
  - split; [discriminate|]. intros _. split; [reflexivity|]. eexists.
    split; [reflexivity|]. split; [reflexivity|].
    repeat (split; [reflexivity|]). exact F.
Qed.

Lemma broadcast_follows_the_notification_witness :
  college_admin_or_above Sample.admin_t1 = true
  /\ exists db_obj w',
       create_event Sample.env_online Sample.hack_night_in Sample.admin_t1
                    Sample.world = (Return db_obj, w')
       /\ broadcasts w'
          = [mkPayload "notification" "New Event!"
                       "Hack Night has been organized by alice" "info" 1].
Proof.
  split; [reflexivity|].
  destruct (broadcast_follows_the_notification Sample.env_online
              Sample.hack_night_in Sample.admin_t1 Sample.world eq_refl)
    as (db_obj & o & w' & E & _ & _ & B).
  destruct (B eq_refl) as (R & _). rewrite R in E.
  exists db_obj, w'. split; [exact E|].
  inversion E. reflexivity.
Defined.

(* ================================================================== *)
(** ** Registration and profile *)

Lemma filter_email_absent (l : list User.t) (e : string) :
  (forall x, In x l -> User.email x <> e) ->
  filter (fun u => String.eqb (User.email u) e) l = [].
Proof.
  induction l as [|a l IH]; simpl; intros H; [reflexivity|].
  destruct (String.eqb_spec (User.email a) e) as [K|K].
  - exfalso. now apply (H a); [left|].
  - apply IH. intros x I. apply H. now right.
Qed.

Lemma filter_email_unique (l : list User.t) (x : User.t) :
  NoDup (map User.email l) -> In x l ->
  filter (fun u => String.eqb (User.email u) (User.email x)) l = [x].
Proof.
  induction l as [|a l IH]; simpl; intros ND I; [contradiction|].
  inversion ND as [|? ? NI ND']; subst.
  destruct I as [-> | I].
  - rewrite String.eqb_refl. f_equal. apply filter_email_absent.
    intros y J K. apply NI. rewrite <- K. now apply in_map.
  - destruct (String.eqb_spec (User.email a) (User.email x)) as [K|K].
    + exfalso. apply NI. rewrite K. now apply in_map.
    + now apply IH.
Qed.

(** X13.  [create_user] refuses, with 400 and no change, an email that a
    user already has, and, for a new email, an invite code that is not
    empty and that no college has. *)
Theorem create_user_refuses
    (env : Env) (user_in : UserCreate.t) (invite_code : option string)
    (w : World) :
  NoDup (map User.email (users w)) ->
  (forall x, In x (users w) -> User.email x = UserCreate.email user_in ->
     create_user env user_in invite_code w
     = (Raise (HTTPException 400
          "The user with this username already exists in the system."), w))
  /\ ((forall x, In x (users w) ->
                 User.email x <> UserCreate.email user_in) ->
      Py.truthy invite_code = true ->
      colleges_by_invite_code (Py.str_opt invite_code) w = [] ->
        create_user env user_in invite_code w
        = (Raise (HTTPException 400 "Invalid invite code"), w)).
Proof.
  intros ND. split.
  - intros x I E. unfold create_user.
    unfold bind at 1. unfold get at 1. cbv beta iota.
    rewrite <- E, (filter_email_unique _ x ND I). reflexivity.
  - intros A T C. unfold create_user.
    unfold bind at 1. unfold get at 1. cbv beta iota.
    rewrite (filter_email_absent _ _ A).
    unfold bind at 1. unfold scalar_one_or_none, ret at 1. cbv beta iota.
    rewrite T. unfold bind at 1. unfold bind at 1. rewrite C.
    reflexivity.
Qed.

Lemma sample_world_emails :
  NoDup (map User.email (users Sample.world)).
Proof.
  simpl. repeat constructor; simpl; intuition discriminate.
Qed.

Lemma create_user_refuses_witness :
  NoDup (map User.email (users Sample.world))
  /\ create_user Sample.env_online
       (UserCreate.mk "sam@campus.edu" "pw" None false) None Sample.world
     = (Raise (HTTPException 400
          "The user with this username already exists in the system."),
        Sample.world)
  /\ create_user Sample.env_online Fixture.eve (Some "NOPE") Sample.world
     = (Raise (HTTPException 400 "Invalid invite code"), Sample.world).
Proof.
  split; [apply sample_world_emails|]. split.
  - destruct (create_user_refuses Sample.env_online
                (UserCreate.mk "sam@campus.edu" "pw" None false) None
                Sample.world sample_world_emails) as (D & _).
    apply (D Sample.student_t1); [simpl; now right; right; left|].
    reflexivity.
  - destruct (create_user_refuses Sample.env_online Fixture.eve
                (Some "NOPE") Sample.world sample_world_emails) as (_ & C).
    apply C; [| reflexivity | reflexivity].
    intros x I. simpl in I.
    repeat (destruct I as [<- | I]; [discriminate|]). contradiction.
Defined.

(** What a registration that goes through creates. *)
Lemma create_user_creates env user_in invite_code w c h :
  (forall x, In x (users w) -> User.email x <> UserCreate.email user_in) ->
  (Py.truthy invite_code = true ->
     colleges_by_invite_code (Py.str_opt invite_code) w = [c]) ->
  get_password_hash env (Some (UserCreate.password user_in)) = Return h ->
  create_user env user_in invite_code w
  = (Return
       (User.mk (next_id (map User.id (users w)))
                (UserCreate.full_name user_in) (UserCreate.email user_in) h
                (Some (if UserCreate.is_superuser user_in
                       then "super_admin" else "student"))
                (if Py.truthy invite_code then Some (College.id c)
                 else None)
                None None None None None (Some "system") (Some true)
                (UserCreate.is_superuser user_in) (Some 0) (Some 0)),
     with_users
       (fun l =>
          (l ++ [User.mk (next_id (map User.id (users w)))
                   (UserCreate.full_name user_in)
                   (UserCreate.email user_in) h
                   (Some (if UserCreate.is_superuser user_in
                          then "super_admin" else "student"))
                   (if Py.truthy invite_code then Some (College.id c)
                    else None)
                   None None None None None (Some "system") (Some true)
                   (UserCreate.is_superuser user_in) (Some 0) (Some 0)])%list)
       w).
Proof.
  intros A C H. unfold create_user.
  unfold bind at 1. unfold get at 1. cbv beta iota.
  rewrite (filter_email_absent _ _ A).
  unfold bind at 1. unfold scalar_one_or_none, ret at 1. cbv beta iota.
  destruct (Py.truthy invite_code) eqn:T.
  - unfold bind at 1. unfold bind at 1. rewrite (C eq_refl).
    unfold ret at 1. cbv beta iota.
    unfold bind at 1. rewrite H. run_handler.
    now destruct (UserCreate.is_superuser user_in).
  - unfold bind at 1. unfold ret at 1. cbv beta iota.
    unfold bind at 1. rewrite H. run_handler.
    now destruct (UserCreate.is_superuser user_in).
Qed.

(** X14.  A registration with a new email needs no actor and trusts the
    request: the user is created with the [is_superuser] of the request,
    and with role "super_admin" exactly when it is set, "student"
    otherwise.  The college is the one of the invite code; an empty
    invite code counts as none.  The password is stored hashed, the id is
    new, the account is active. *)
Theorem create_user_trusts_the_request
    (env : Env) (user_in : UserCreate.t) (invite_code : option string)
    (w : World) (c : College.t) (h : string) :
  (forall x, In x (users w) -> User.email x <> UserCreate.email user_in) ->
  (Py.truthy invite_code = true ->
     colleges_by_invite_code (Py.str_opt invite_code) w = [c]) ->
  get_password_hash env (Some (UserCreate.password user_in)) = Return h ->
  exists db_obj,
    create_user env user_in invite_code w
    = (Return db_obj, with_users (fun l => (l ++ [db_obj])%list) w)
    /\ ~ In (User.id db_obj) (map User.id (users w))
    /\ User.email db_obj = UserCreate.email user_in
    /\ User.hashed_password db_obj = h
    /\ User.is_superuser db_obj = UserCreate.is_superuser user_in
    /\ (User.role db_obj = Some "super_admin" <->
        UserCreate.is_superuser user_in = true)
    /\ (User.role db_obj = Some "student" <->
        UserCreate.is_superuser user_in = false)
    /\ (invite_code = None \/ invite_code = Some "" ->
        User.college_id db_obj = None)
    /\ (Py.truthy invite_code = true ->
        User.college_id db_obj = Some (College.id c))
    /\ User.is_active db_obj = Some true.
Proof.
  intros A C H. eexists.
  split; [exact (create_user_creates env user_in invite_code w c h A C H)|].
  simpl.
  split; [intros I; apply next_id_above in I; lia|].
  split; [reflexivity|]. split; [reflexivity|]. split; [reflexivity|].
  split; [destruct (UserCreate.is_superuser user_in); split;
          try reflexivity; discriminate|].
  split; [destruct (UserCreate.is_superuser user_in); split;
          try reflexivity; discriminate|].
  split; [intros [-> | ->]; reflexivity|].
  split; [intros T; now rewrite T | reflexivity].
Qed.

Lemma create_user_trusts_the_request_witness :
  get_password_hash Sample.env_online (Some "pw") = Return "hash:pw"
  /\ exists db_obj,
       create_user Sample.env_online Fixture.eve (Some "ABC123")
                   Sample.world
       = (Return db_obj,
          with_users (fun l => (l ++ [db_obj])%list) Sample.world)
       /\ User.is_superuser db_obj = true
       /\ User.role db_obj = Some "super_admin"
       /\ User.college_id db_obj = Some 1.
Proof.
  split; [reflexivity|].
  destruct (create_user_trusts_the_request Sample.env_online Fixture.eve
              (Some "ABC123") Sample.world Sample.college_t1 "hash:pw")
    as (db_obj & E & _ & _ & _ & S & R & _ & _ & C & _).
  - intros x I. simpl in I.
    repeat (destruct I as [<- | I]; [discriminate|]). contradiction.
  - reflexivity.
  - reflexivity.
  - exists db_obj. split; [exact E|]. split; [exact S|].
    split; [now apply R | now apply C].
Defined.

(** X15.  An email registers once: after a registration that went
    through, any registration with the same email is refused with 400,
    whatever its other fields and its invite code. *)
Theorem email_registers_once
    (env : Env) (user_in again : UserCreate.t)
    (invite_code invite_again : option string) (w : World) (c : College.t)
    (h : string) :
  (forall x, In x (users w) -> User.email x <> UserCreate.email user_in) ->
  (Py.truthy invite_code = true ->
     colleges_by_invite_code (Py.str_opt invite_code) w = [c]) ->
  get_password_hash env (Some (UserCreate.password user_in)) = Return h ->
  UserCreate.email again = UserCreate.email user_in ->
  exists db_obj w',
    create_user env user_in invite_code w = (Return db_obj, w')
    /\ create_user env again invite_again w'
       = (Raise (HTTPException 400
            "The user with this username already exists in the system."),
          w').
Proof.
  intros A C H E. eexists. eexists.
  split; [exact (create_user_creates env user_in invite_code w c h A C H)|].
  unfold create_user. unfold bind at 1. unfold get at 1. cbv beta iota.
  simpl users. rewrite filter_app, E, (filter_email_absent _ _ A).
  simpl. now rewrite String.eqb_refl.
Qed.

Lemma email_registers_once_witness :
  exists db_obj w',
    create_user Sample.env_online Fixture.eve None Sample.world
    = (Return db_obj, w')
    /\ create_user Sample.env_online
         (UserCreate.mk "eve@campus.edu" "other" None false)
         (Some "ABC123") w'
       = (Raise (HTTPException 400
            "The user with this username already exists in the system."),
          w').
Proof.
  apply (email_registers_once Sample.env_online Fixture.eve
           (UserCreate.mk "eve@campus.edu" "other" None false) None
           (Some "ABC123") Sample.world Sample.college_t1 "hash:pw").
  - intros x I. simpl in I.
    repeat (destruct I as [<- | I]; [discriminate|]). contradiction.
  - discriminate.
  - reflexivity.
  - reflexivity.
Defined.

Lemma replace_user_same (u : User.t) (l : list User.t) :
  NoDup (map User.id l) -> In u l -> replace_user u l = l.
Proof.
  intros ND I. unfold replace_user.
  rewrite <- (map_id l) at 2. apply map_ext_in. intros y J.
  destruct (Z.eqb_spec (User.id y) (User.id u)) as [K|K]; [|reflexivity].
  pose proof (filter_key_unique User.id l u ND I) as F.
  assert (Y : In y (filter (fun z => User.id z =? User.id u) l)).
  { apply filter_In. split; [assumption | now apply Z.eqb_eq]. }
  rewrite F in Y. destruct Y as [-> | []]. reflexivity.
Qed.

Lemma replace_user_twice (u : User.t) (l : list User.t) :
  replace_user u (replace_user u l) = replace_user u l.
Proof.
  unfold replace_user. rewrite map_map. apply map_ext. intros y.
  destruct (Z.eqb_spec (User.id y) (User.id u)) as [K|K].
  - now rewrite Z.eqb_refl.
  - apply Z.eqb_neq in K. now rewrite K.
Qed.

(** X16.  An update request that sets no field changes nothing: with the
    user id as primary key, [update_user_me] returns the current user as
    it is and leaves the world as it was. *)
Theorem empty_update_changes_nothing (env : Env) (u : User.t) (w : World) :
  NoDup (map User.id (users w)) -> In u (users w) ->
  update_user_me env UserUpdate.unset u w = (Return u, w).
Proof.
  intros ND I. rewrite update_user_me_applies by reflexivity.
  assert (E : apply_user_update u UserUpdate.unset (User.email u)
                                (User.hashed_password u) = u)
    by (destruct u; reflexivity).
  rewrite E. f_equal. unfold with_users.
  rewrite (replace_user_same u _ ND I). now destruct w.
Qed.

Lemma sample_world_user_ids :
  NoDup (map User.id (users Sample.world)).
Proof. simpl. repeat constructor; simpl; intuition discriminate. Qed.

Lemma empty_update_changes_nothing_witness :
  NoDup (map User.id (users Sample.world))
  /\ update_user_me Sample.env_online UserUpdate.unset Sample.student_t1
                    Sample.world
     = (Return Sample.student_t1, Sample.world).
Proof.
  split; [apply sample_world_user_ids|].
  apply (empty_update_changes_nothing Sample.env_online Sample.student_t1
           Sample.world sample_world_user_ids).
  simpl. now right; right; left.
Defined.

(** X17.  [join_college] with a code that no college has fails with 400
    and changes nothing.  With the code of a college, active or not, it
    writes the id and the name of that college on the user and keeps the
    other fields; joining again with the same code gives the same answer
    and leaves the world as the first join left it. *)
Theorem join_college_is_idempotent
    (invite_code : string) (u : User.t) (w : World) :
  (colleges_by_invite_code invite_code w = [] ->
     join_college invite_code u w
     = (Raise (HTTPException 400 "Invalid invite code"), w))
  /\ (forall c : College.t,
         colleges_by_invite_code invite_code w = [c] ->
         exists u' w',
           join_college invite_code u w
           = (Return ("Successfully joined " ++ College.name c), w')
           /\ users w' = replace_user u' (users w)
           /\ User.id u' = User.id u
           /\ User.college_id u' = Some (College.id c)
           /\ User.college_name u' = Some (College.name c)
           /\ User.role u' = User.role u
           /\ User.is_superuser u' = User.is_superuser u
           /\ join_college invite_code u' w'
              = (Return ("Successfully joined " ++ College.name c), w')).
Proof.
  split.
  - intros E. unfold join_college. run_handler. now rewrite E.
  - intros c E.
    exists (set_college u (Some (College.id c)) (Some (College.name c))).
    eexists. split.
    + unfold join_college, bind, get. cbv beta iota. rewrite E.
      reflexivity.
    + simpl. repeat (split; [reflexivity|]).
      unfold join_college, bind, get. cbv beta iota.
      unfold colleges_by_invite_code in *. simpl colleges. rewrite E.
      unfold scalar_one_or_none, ret, modify. cbv beta iota.
      f_equal. unfold with_users. simpl.
      f_equal. apply (replace_user_twice
                        (set_college u (Some (College.id c))
                                     (Some (College.name c)))).
Qed.

Lemma join_college_is_idempotent_witness :
  colleges_by_invite_code "XYZ789" Sample.world = [Sample.college_t2]
  /\ join_college "NOPE" Sample.student_t1 Sample.world
     = (Raise (HTTPException 400 "Invalid invite code"), Sample.world)
  /\ exists u' w',
       join_college "XYZ789" Sample.student_t1 Sample.world
       = (Return "Successfully joined South College", w')
       /\ User.college_id u' = Some 2
       /\ join_college "XYZ789" u' w'
          = (Return "Successfully joined South College", w').
Proof.
  split; [reflexivity|].
  destruct (join_college_is_idempotent "NOPE" Sample.student_t1
              Sample.world) as (N & _).
  split; [apply N; reflexivity|].
  destruct (join_college_is_idempotent "XYZ789" Sample.student_t1
              Sample.world) as (_ & J).
  destruct (J Sample.college_t2 eq_refl)
    as (u' & w' & A & _ & _ & C & _ & _ & _ & B).
  exists u', w'. split; [exact A|]. split; [exact C | exact B].
Defined.

(** X18.  [delete_user] checks the actor before it looks for the user: an
    actor who is not a superuser and asks for another id gets 403 whether
    or not a user has that id; a superuser, or the user asking for their
    own id, gets 404 when no user has it.  Nothing changes in either
    case. *)
Theorem delete_user_checks_actor_first (id : Z) (u : User.t) (w : World) :
  (User.is_superuser u = false -> User.id u <> id ->
     delete_user id u w
     = (Raise (HTTPException 403 "Not enough permissions"), w))
  /\ (User.is_superuser u = true \/ User.id u = id ->
      ~ In id (map User.id (users w)) ->
        delete_user id u w
        = (Raise (HTTPException 404 "User not found"), w)).
Proof.
  split.
  - intros S N. apply Z.eqb_neq in N. unfold delete_user.
    now rewrite S, N.
  - intros P A. unfold delete_user.
    assert (G : negb (User.is_superuser u) && negb (User.id u =? id)
                = false).
    { destruct P as [-> | ->]; [reflexivity|].
      now rewrite Z.eqb_refl, andb_false_r. }
    rewrite G. run_handler.
    now rewrite (filter_key_absent User.id (users w) id A).
Qed.

Lemma delete_user_checks_actor_first_witness :
  delete_user 999 Sample.student_t1 Sample.world
  = (Raise (HTTPException 403 "Not enough permissions"), Sample.world)
  /\ delete_user 999 Sample.root Sample.world
     = (Raise (HTTPException 404 "User not found"), Sample.world).
Proof.
  split.
  - destruct (delete_user_checks_actor_first 999 Sample.student_t1
                Sample.world) as (D & _).
    apply D; [reflexivity | discriminate].
  - destruct (delete_user_checks_actor_first 999 Sample.root Sample.world)
      as (_ & N).
    apply N; [now left|]. simpl. intuition discriminate.
Defined.

(** X19.  When a superuser, or the user themself, deletes a user, the rows
    that refer to the user go with it: afterwards no user has the id, no
    event is organized by it, no participation, verification request or
    marketplace item belongs to it, no participation is left for an event
    it organized and no notification is addressed to it; every other row
    of these tables stays, and the colleges are as before. *)
Theorem deleted_user_leaves_no_rows
    (id : Z) (u x : User.t) (w : World) :
  User.is_superuser u = true \/ User.id u = id ->
  filter (fun y => User.id y =? id) (users w) = [x] ->
  exists w',
    delete_user id u w = (Return "User deleted", w')
    /\ (forall y, In y (users w') <-> In y (users w) /\ User.id y <> id)
    /\ (forall e, In e (events w') <->
                  In e (events w) /\ Event.organizer_id e <> id)
    /\ (forall p, In p (participations w') <->
                  In p (participations w)
                  /\ Participation.user_id p <> id
                  /\ (forall e, In e (events w) ->
                                Event.organizer_id e = id ->
                                Participation.event_id p <> Event.id e))
    /\ (forall n, In n (notifications w') <->
                  In n (notifications w)
                  /\ Notification.user_id n <> Some id)
    /\ (forall i, In i (marketplace_items w') <->
                  In i (marketplace_items w)
                  /\ MarketplaceItem.owner_id i <> id)
    /\ (forall v, In v (verification_requests w') <->
                  In v (verification_requests w)
                  /\ VerificationRequest.user_id v <> id)
    /\ colleges w' = colleges w.
Proof.
  intros P F.
  assert (X : User.id x = id).
  { assert (I : In x (filter (fun y => User.id y =? id) (users w)))
      by (rewrite F; now left).
    apply filter_In in I. destruct I as [_ I]. now apply Z.eqb_eq. }
  assert (G : negb (User.is_superuser u) && negb (User.id u =? id) = false).
  { destruct P as [-> | ->]; [reflexivity|].
    now rewrite Z.eqb_refl, andb_false_r. }
  unfold delete_user. rewrite G.
  unfold bind at 1. unfold get at 1. cbv beta iota. rewrite F.
  unfold bind at 1. unfold scalar_one_or_none, ret at 1. cbv beta iota.
  unfold bind, modify, ret. cbv beta iota. rewrite X.
  eexists. split; [reflexivity|]. unfold delete_user_rows. simpl.
  split; [intros y; now rewrite filter_In, negb_true_iff, Z.eqb_neq|].
  split; [intros e; now rewrite filter_In, negb_true_iff, Z.eqb_neq|].
  split.
  { intros p. rewrite filter_In, andb_true_iff, !negb_true_iff, Z.eqb_neq.
    split.
    - intros (I & N & E). split; [exact I|]. split; [exact N|].
      intros e Ie Oe K.
      assert (T : existsb (Z.eqb (Participation.event_id p))
                    (map Event.id
                       (filter (fun e0 => Event.organizer_id e0 =? id)
                               (events w))) = true).
      { apply existsb_exists. exists (Event.id e). split.
        - apply in_map. apply filter_In. split; [exact Ie|].
          now apply Z.eqb_eq.
        - now apply Z.eqb_eq. }
      congruence.
    - intros (I & N & E). split; [exact I|]. split; [exact N|].
      destruct (existsb _ _) eqn:T; [|reflexivity].
      apply existsb_exists in T. destruct T as (k & Ik & Ek).
      apply in_map_iff in Ik. destruct Ik as (e & <- & Ie).
      apply filter_In in Ie. destruct Ie as (Ie & Oe).
      apply Z.eqb_eq in Oe, Ek. now destruct (E e Ie Oe). }
  split.
  { intros n. rewrite filter_In, negb_true_iff. split.
    - intros (I & N). split; [exact I|]. intros K.
      apply opt_Z_eqb_eq in K. congruence.
    - intros (I & N). split; [exact I|].
      destruct (opt_Z_eqb _ _) eqn:K; [|reflexivity].
      now apply opt_Z_eqb_eq in K. }
  split; [intros i; now rewrite filter_In, negb_true_iff, Z.eqb_neq|].
  split; [intros v; now rewrite filter_In, negb_true_iff, Z.eqb_neq|].
  reflexivity.
Qed.

Lemma deleted_user_leaves_no_rows_witness :
  exists w',
    delete_user 20 Sample.student_t2 Fixture.busy_world
    = (Return "User deleted", w')
    /\ verification_requests w' = [Sample.request 1 11 "pending"]
    /\ marketplace_items w'
       = [Fixture.item 1 11 "Lamp" true; Fixture.item 3 99 "Orphan" true]
    /\ participations w'
       = [Fixture.participation 1 11 1; Fixture.participation 4 10 1].
Proof.
  destruct (deleted_user_leaves_no_rows 20 Sample.student_t2
              Sample.student_t2 Fixture.busy_world
              (or_intror eq_refl) eq_refl) as (w' & D & _).
  exists w'. split; [exact D|]. inversion D.
  split; [reflexivity|]. split; reflexivity.
Defined.

(** X20.  [read_users] gives a college administrator who is not a
    superuser a page of users of the administrator's own college and no
    one else; it gives a superuser a page of all users.  It changes
    nothing. *)
Theorem read_users_stays_in_college
    (u : User.t) (skip limit : nat) (w : World) :
  college_admin_or_above u = true ->
  exists page,
    read_users u skip limit w = (Return page, w)
    /\ (User.is_superuser u = false ->
          page = firstn limit
                   (skipn skip
                      (filter (fun x => opt_Z_eqb (User.college_id x)
                                                  (User.college_id u))
                              (users w)))
          /\ forall x, In x page ->
                       In x (users w)
                       /\ User.college_id x = User.college_id u)
    /\ (User.is_superuser u = true ->
          page = firstn limit (skipn skip (users w))).
Proof.
  intros C. unfold read_users, get_current_active_college_admin.
  rewrite C. run_handler.
  destruct (User.is_superuser u); simpl;
    (eexists; split; [reflexivity|]); split; try discriminate.
  - reflexivity.
  - intros _. split; [reflexivity|]. intros x I.
    apply in_page in I. apply filter_In in I. destruct I as [I E].
    split; [exact I | now apply opt_Z_eqb_eq].
Qed.

Lemma read_users_stays_in_college_witness :
  college_admin_or_above Sample.admin_t2 = true
  /\ read_users Sample.admin_t2 0 100 Sample.world
     = (Return [Sample.student_t2; Sample.admin_t2], Sample.world).
Proof.
  split; [reflexivity|].
  destruct (read_users_stays_in_college Sample.admin_t2 0 100 Sample.world
              eq_refl) as (page & E & P & _).
  destruct (P eq_refl) as (Q & _). rewrite E, Q. reflexivity.
Defined.

Lemma nodup_length_le (l : list Z) :
  (List.length (nodup Z.eq_dec l) <= List.length l)%nat.
Proof.
  induction l as [|a l IH]; simpl; [lia|].
  destruct (in_dec Z.eq_dec a l); simpl; lia.
Qed.

Lemma filter_and_length_le {A} (f g : A -> bool) (l : list A) :
  (List.length (filter (fun x => f x && g x) l)
   <= List.length (filter g l))%nat.
Proof.
  induction l as [|a l IH]; simpl; [lia|].
  destruct (f a), (g a); simpl; lia.
Qed.

(** X21.  [read_user_me] counts: [events_count] becomes the number of the
    user's participations, and [buddies_count] the number of distinct
    other users in the events of those participations, which is at most
    the number of participations of other users.  A user without a
    participation gets 0 and 0.  The counters are committed on the user's
    row and the other fields are kept. *)
Theorem read_user_me_counts (u : User.t) (w : World) :
  exists (u' : User.t) (buddies : Z),
    read_user_me u w = (Return u', with_users (replace_user u') w)
    /\ User.events_count u'
       = Some (Z.of_nat
                 (List.length
                    (filter (fun p => Participation.user_id p =? User.id u)
                            (participations w))))
    /\ User.buddies_count u' = Some buddies
    /\ 0 <= buddies
       <= Z.of_nat
            (List.length
               (filter (fun p => negb (Participation.user_id p
                                       =? User.id u))
                       (participations w)))
    /\ ((forall p, In p (participations w) ->
                   Participation.user_id p <> User.id u) ->
        User.events_count u' = Some 0 /\ buddies = 0)
    /\ User.id u' = User.id u
    /\ User.role u' = User.role u
    /\ User.is_superuser u' = User.is_superuser u
    /\ User.college_id u' = User.college_id u.
Proof.
  unfold read_user_me. run_handler. eexists. eexists.
  split; [reflexivity|]. simpl.
  split; [reflexivity|]. split; [reflexivity|].
  split.
  - split; [lia|]. apply inj_le.
    eapply Nat.le_trans; [apply nodup_length_le|].
    rewrite length_map.
    apply (filter_and_length_le
             (fun p => existsb (Z.eqb (Participation.event_id p))
                         (map Participation.event_id
                            (filter (fun p0 => Participation.user_id p0
                                               =? User.id u)
                                    (participations w))))
             (fun p => negb (Participation.user_id p =? User.id u))).
  - split; [|repeat split].
    intros N.
    assert (E : filter (fun p => Participation.user_id p =? User.id u)
                       (participations w) = []).
    { induction (participations w) as [|a l IH]; [reflexivity|]. simpl.
      destruct (Z.eqb_spec (Participation.user_id a) (User.id u)) as [K|K].
      - exfalso. apply (N a); [now left | exact K].
      - apply IH. intros p I. apply N. now right. }
    rewrite E. simpl. split; [reflexivity|].
    assert (Z0 : forall l : list Participation.t,
               filter (fun p => false
                        && negb (Participation.user_id p =? User.id u)) l
               = []).
    { induction l as [|a l IH]; [reflexivity | exact IH]. }
    now rewrite Z0.
Qed.

Lemma read_user_me_counts_witness :
  exists u',
    read_user_me Sample.student_t1 Fixture.busy_world
    = (Return u', with_users (replace_user u') Fixture.busy_world)
    /\ User.events_count u' = Some 1
    /\ User.buddies_count u' = Some 2.
Proof.
  destruct (read_user_me_counts Sample.student_t1 Fixture.busy_world)
    as (u' & b & E & C & B & _).
  exists u'. split; [exact E|]. inversion E.
  split; reflexivity.
Defined.

(* ================================================================== *)
(** ** More on the marketplace *)

(** X22.  [read_items] is the same for every actor: there is no college
    filter.  Every row is an item of the table that is available, with
    the name of a user whose id is the item's [owner_id]; an item that is
    not available, or whose owner has no row, is not listed.  Nothing
    changes. *)
Theorem read_items_lists_available_items
    (u : User.t) (skip limit : nat) (w : World) :
  exists page,
    read_items u skip limit w = (Return page, w)
    /\ (forall other : User.t,
          read_items other skip limit w = (Return page, w))
    /\ (forall (i : MarketplaceItem.t) (name : option string),
          In (i, name) page ->
          In i (marketplace_items w)
          /\ MarketplaceItem.is_available i = true
          /\ exists owner,
               In owner (users w)
               /\ User.id owner = MarketplaceItem.owner_id i
               /\ User.full_name owner = name).
Proof.
  unfold read_items. run_handler. eexists. split; [reflexivity|].
  split; [reflexivity|].
  intros i name I. apply in_page in I.
  apply in_flat_map in I. destruct I as (j & J & I).
  apply filter_In in J. destruct J as (J & A).
  apply in_map_iff in I. destruct I as (o & E & O).
  inversion E; subst. apply filter_In in O. destruct O as (O & K).
  split; [exact J|]. split; [exact A|].
  exists o. split; [exact O|]. split; [|reflexivity].
  symmetry. now apply Z.eqb_eq.
Qed.

Lemma read_items_lists_available_items_witness :
  read_items Sample.student_t2 0 100 Fixture.busy_world
  = (Return [(Fixture.item 1 11 "Lamp" true, Some "sam")],
     Fixture.busy_world).
Proof.
  destruct (read_items_lists_available_items Sample.student_t2 0 100
              Fixture.busy_world) as (page & E & _).
  rewrite E. inversion E. reflexivity.
Defined.

Lemma items_by_id_absent id (l : list MarketplaceItem.t) :
  ~ In id (map MarketplaceItem.id l) ->
  filter (fun i => MarketplaceItem.id i =? id) l = [].
Proof. apply (filter_key_absent MarketplaceItem.id). Qed.

Lemma filter_other_ids id (l : list MarketplaceItem.t) :
  ~ In id (map MarketplaceItem.id l) ->
  filter (fun i => negb (MarketplaceItem.id i =? id)) l = l.
Proof.
  induction l as [|a l IH]; simpl; intros H; [reflexivity|].
  destruct (Z.eqb_spec (MarketplaceItem.id a) id) as [K|K]; simpl.
  - exfalso. apply H. now left.
  - f_equal. apply IH. intros I. apply H. now right.
Qed.

(** X23.  An item created without a file has no image URL and reaches no
    store, and its owner can take it back: [delete_item] with the id that
    [create_item] returned leaves the table of items as it was before the
    creation. *)
Theorem created_item_can_be_deleted
    (env : Env) (title description : string) (price : float)
    (category : string) (u : User.t) (w : World) :
  exists item w1 w2,
    create_item env title description price category None u w
    = (Return item, w1)
    /\ MarketplaceItem.image_url item = None
    /\ MarketplaceItem.owner_id item = User.id u
    /\ marketplace_items w1 = (marketplace_items w ++ [item])%list
    /\ storage_calls w1 = storage_calls w
    /\ delete_item (MarketplaceItem.id item) u w1
       = (Return "Item deleted", w2)
    /\ marketplace_items w2 = marketplace_items w.
Proof.
  assert (F : ~ In (next_id (map MarketplaceItem.id (marketplace_items w)))
                   (map MarketplaceItem.id (marketplace_items w))).
  { intros I. apply next_id_above in I. lia. }
  exists (new_item env title description price category u w).
  exists (with_marketplace_items
            (fun l =>
               (l ++ [new_item env title description price category u w])%list)
            w).
  eexists.
  split; [reflexivity|]. split; [reflexivity|]. split; [reflexivity|].
  split; [reflexivity|]. split; [reflexivity|].
  unfold delete_item, bind, get. cbv beta iota. simpl marketplace_items.
  change (MarketplaceItem.id
            (new_item env title description price category u w))
    with (next_id (map MarketplaceItem.id (marketplace_items w))).
  rewrite filter_app, (items_by_id_absent _ _ F).
  cbn [filter app new_item MarketplaceItem.id MarketplaceItem.owner_id].
  rewrite Z.eqb_refl.
  unfold scalar_one_or_none, ret, modify. cbv beta iota.
  cbn [new_item MarketplaceItem.id MarketplaceItem.owner_id].
  rewrite Z.eqb_refl, andb_false_r.
  split; [reflexivity|]. simpl marketplace_items.
  rewrite filter_app, (filter_other_ids _ _ F).
  cbn [filter app new_item MarketplaceItem.id].
  rewrite Z.eqb_refl. simpl. apply app_nil_r.
Qed.

(** X24.  [delete_item] looks for the item before it checks the actor: an
    id that no item has gives 404 to anyone, and the item of another user
    gives 403 to an actor who is not a superuser.  Nothing changes in
    either case. *)
Theorem delete_item_refuses (id : Z) (u : User.t) (w : World) :
  (~ In id (map MarketplaceItem.id (marketplace_items w)) ->
     delete_item id u w = (Raise (HTTPException 404 "Item not found"), w))
  /\ (forall item,
         filter (fun i => MarketplaceItem.id i =? id) (marketplace_items w)
         = [item] ->
         User.is_superuser u = false ->
         MarketplaceItem.owner_id item <> User.id u ->
         delete_item id u w
         = (Raise (HTTPException 403 "Not enough permissions"), w)).
Proof.
  split.
  - intros A. unfold delete_item. run_handler.
    now rewrite (items_by_id_absent _ _ A).
  - intros item F S O. apply Z.eqb_neq in O.
    unfold delete_item, bind, get. cbv beta iota. rewrite F.
    unfold scalar_one_or_none, ret. cbv beta iota. now rewrite S, O.
Qed.

Lemma delete_item_refuses_witness :
  delete_item 9 Sample.student_t1 Fixture.busy_world
  = (Raise (HTTPException 404 "Item not found"), Fixture.busy_world)
  /\ delete_item 2 Sample.student_t1 Fixture.busy_world
     = (Raise (HTTPException 403 "Not enough permissions"),
        Fixture.busy_world).
Proof.
  destruct (delete_item_refuses 9 Sample.student_t1 Fixture.busy_world)
    as (A & _).
  destruct (delete_item_refuses 2 Sample.student_t1 Fixture.busy_world)
    as (_ & B).
  split.
  - apply A. simpl. intuition discriminate.
  - apply (B (Fixture.item 2 20 "Bike" false)); try reflexivity.
    discriminate.
Defined.

(* ================================================================== *)
(** ** More on the verification workflow *)

(** X25.  [read_verification_requests] lists, with the name of the
    submitter, exactly the requests of the status asked for whose
    submitter has a row and, for a reviewer who is not a superuser, is of
    the reviewer's college; a superuser gets those of every college.
    Nothing changes. *)
Theorem verification_list_stays_in_college
    (u : User.t) (status : string) (w : World) :
  college_admin_or_above u = true ->
  exists rows,
    read_verification_requests u status w = (Return rows, w)
    /\ (forall (v : VerificationRequest.t) (name : option string),
          In (v, name) rows <->
          In v (verification_requests w)
          /\ VerificationRequest.status v = status
          /\ exists s,
               In s (users w)
               /\ User.id s = VerificationRequest.user_id v
               /\ User.full_name s = name
               /\ (User.is_superuser u = true
                   \/ User.college_id s = User.college_id u)).
Proof.
  intros C. unfold read_verification_requests,
    get_current_active_college_admin.
  rewrite C. run_handler. eexists. split; [reflexivity|].
  intros v name. rewrite in_flat_map. split.
  - intros (x & X & I). apply filter_In in X. destruct X as (X & S).
    apply in_map_iff in I. destruct I as (s & E & I).
    inversion E; subst. apply filter_In in I. destruct I as (I & K).
    apply andb_true_iff in K. destruct K as (K1 & K2).
    split; [exact X|]. split; [now apply String.eqb_eq|].
    exists s. split; [exact I|]. split; [symmetry; now apply Z.eqb_eq|].
    split; [reflexivity|].
    apply orb_true_iff in K2. destruct K2 as [K2|K2]; [now left|].
    right. now apply opt_Z_eqb_eq.
  - intros (X & S & s & I & K1 & N & K2).
    exists v. split.
    + apply filter_In. split; [exact X | now apply String.eqb_eq].
    + apply in_map_iff. exists s. split; [now rewrite N|].
      apply filter_In. split; [exact I|].
      apply andb_true_iff. split; [apply Z.eqb_eq; now symmetry|].
      apply orb_true_iff. destruct K2 as [K2|K2]; [now left|].
      right. now apply opt_Z_eqb_eq.
Qed.

Lemma verification_list_stays_in_college_witness :
  college_admin_or_above Sample.admin_t2 = true
  /\ read_verification_requests Sample.admin_t2 "pending" Sample.world
     = (Return [], Sample.world)
  /\ read_verification_requests Sample.admin_t1 "pending" Sample.world
     = (Return [(Sample.request 1 11 "pending", Some "sam")], Sample.world).
Proof.
  split; [reflexivity|].
  destruct (verification_list_stays_in_college Sample.admin_t2 "pending"
              Sample.world eq_refl) as (r2 & E2 & _).
  destruct (verification_list_stays_in_college Sample.admin_t1 "pending"
              Sample.world eq_refl) as (r1 & E1 & _).
  split.
  - rewrite E2. inversion E2. reflexivity.
  - rewrite E1. inversion E1. reflexivity.
Defined.






Lemma replace_request_ids (v' : VerificationRequest.t) l :
  map VerificationRequest.id (replace_request v' l)
  = map VerificationRequest.id l.
Proof.
  unfold replace_request. rewrite map_map. apply map_ext.
  intros x.
  destruct (Z.eqb_spec (VerificationRequest.id x)
                       (VerificationRequest.id v')) as [K|K];
    [now rewrite K | reflexivity].
Qed.

(** X28.  An approval does not clear the note of an earlier rejection:
    after a request is rejected with a note and then approved, its row
    has status "approved" and still carries the note. *)
Theorem approval_keeps_the_rejection_note
    (w : World) (reviewer : User.t) (vr : VerificationRequest.t)
    (note : option string) :
  college_admin_or_above reviewer = true ->
  NoDup (map VerificationRequest.id (verification_requests w)) ->
  In vr (verification_requests w) ->
  exists w1 w2,
    reject_request (VerificationRequest.id vr) note reviewer w
    = (Return "Rejected", w1)
    /\ approve_request (VerificationRequest.id vr) reviewer w1
       = (Return "Approved", w2)
    /\ requests_by_id (VerificationRequest.id vr) w2
       = [VerificationRequest.mk
            (VerificationRequest.id vr) (VerificationRequest.user_id vr)
            (VerificationRequest.id_card_url vr) "approved" note
            (VerificationRequest.created_at vr)].
Proof.
  intros C ND I.
  pose proof (requests_by_id_present w vr ND I) as E.
  set (r := VerificationRequest.set_admin_note
              (VerificationRequest.set_status vr "rejected") note).
  set (w1 := with_verification_requests (replace_request r) w).
  assert (E1 : requests_by_id (VerificationRequest.id vr) w1 = [r])
    by (apply requests_by_id_replaced; [assumption | assumption
                                        | reflexivity]).
  assert (ND1 : NoDup (map VerificationRequest.id
                           (verification_requests w1))).
  { unfold w1. simpl. now rewrite replace_request_ids. }
  assert (I1 : In r (verification_requests w1)).
  { assert (Y : In r (requests_by_id (VerificationRequest.id vr) w1))
      by (rewrite E1; now left).
    now apply filter_In in Y. }
  exists w1. eexists.
  split; [exact (reject_request_found _ note _ _ vr C E)|].
  split; [exact (approve_request_found _ _ _ r C E1)|].
  change (VerificationRequest.id vr) with (VerificationRequest.id r).
  now rewrite (requests_by_id_replaced w1 r
                 (VerificationRequest.set_status r "approved") ND1 I1
                 eq_refl).
Qed.

Lemma approval_keeps_the_rejection_note_witness :
  exists w1 w2,
    reject_request 1 (Some "blurred") Sample.admin_t1 Sample.world
    = (Return "Rejected", w1)
    /\ approve_request 1 Sample.admin_t1 w1 = (Return "Approved", w2)
    /\ requests_by_id 1 w2
       = [VerificationRequest.mk 1 11 "static/verifications/id.png"
                                 "approved" (Some "blurred") 1690000000].
Proof.
  apply (approval_keeps_the_rejection_note Sample.world Sample.admin_t1
           (Sample.request 1 11 "pending") (Some "blurred") eq_refl
           sample_world_request_ids).
  simpl. now left.
Defined.

(* ================================================================== *)
(** ** Local copies of images *)

(** X29.  Without a store, an accepted event image or profile image never
    fails, whatever the filename of the client: the file is written as
    [static/events/event_{id}.{ext}], or as
    [static/profile_images/user_{id}.{ext}], a name built from the id of
    the row and the accepted extension alone; the URL of that file is on
    the returned row, and the returned row is the one of the table. *)
Theorem image_fallback_names_the_file
    (env : Env) (filename : string) (contents : bytes) :
  storage.is_configured env = false ->
  Py.mem (file_extension_of filename) image_extensions = true ->
  (forall (u : User.t) (w : World) (e : Event.t),
      NoDup (map Event.id (events w)) ->
      In e (events w) ->
      negb (User.is_superuser u) && negb (Event.organizer_id e =? User.id u)
      = false ->
      exists e' w',
        upload_event_image env (Event.id e) filename contents u w
        = (Return e', w')
        /\ Event.image_url e'
           = Some ("/static/events/event_" ++ Py.str (Event.id e) ++ "."
                     ++ file_extension_of filename)
        /\ Event.id e' = Event.id e
        /\ Event.title e' = Event.title e
        /\ read_event (Event.id e) w' = (Return e', w')
        /\ storage_calls w'
           = (storage_calls w
              ++ [LocalMkdir "static/events";
                  LocalWrite ("static/events/event_" ++ Py.str (Event.id e)
                                ++ "." ++ file_extension_of filename)
                             contents])%list)
  /\ (forall (u : User.t) (w : World),
         In u (users w) ->
         exists u' w',
           upload_profile_image env filename contents u w = (Return u', w')
           /\ User.profile_image_url u'
              = Some ("/static/profile_images/user_" ++ Py.str (User.id u)
                        ++ "." ++ file_extension_of filename)
           /\ User.id u' = User.id u
           /\ User.email u' = User.email u
           /\ In u' (users w')
           /\ storage_calls w'
              = (storage_calls w
                 ++ [LocalMkdir "static/profile_images";
                     LocalWrite ("static/profile_images/user_"
                                   ++ Py.str (User.id u) ++ "."
                                   ++ file_extension_of filename)
                                contents])%list).
Proof.
  intros N X. split.
  - intros u w e ND I P.
    destruct (upload_event_image_local env (Event.id e) filename contents
                u w e N (events_by_id_present w e ND I) P X)
      as (w' & U & Ev & T).
    match type of U with
    | _ = (Return ?x, _) => set (e' := x) in *
    end.
    exists e', w'. split; [exact U|].
    split; [reflexivity|]. split; [reflexivity|]. split; [reflexivity|].
    split; [|exact T].
    unfold read_event, bind, get. cbv beta iota.
    unfold events_by_id. rewrite Ev. unfold replace_event.
    now rewrite (filter_key_replaced Event.id (events w) e e' ND I eq_refl).
  - intros u w I.
    destruct (upload_profile_image_local env filename contents u w N X)
      as (w' & U & Us & T).
    eexists. exists w'. split; [exact U|].
    split; [reflexivity|]. split; [reflexivity|]. split; [reflexivity|].
    split; [|exact T].
    rewrite Us. now apply (replace_user_in _ u).
Qed.

Lemma image_fallback_names_the_file_witness :
  storage.is_configured Sample.env_offline = false
  /\ (exists e' w',
         upload_event_image Sample.env_offline 1 "../up/x.PNG" Sample.content
                            Sample.admin_t1 Sample.world
         = (Return e', w')
         /\ Event.image_url e' = Some "/static/events/event_1.png")
  /\ (exists u' w',
         upload_profile_image Sample.env_offline "../up/x.PNG"
                              Sample.content Sample.student_t1 Sample.world
         = (Return u', w')
         /\ User.profile_image_url u'
            = Some "/static/profile_images/user_11.png").
Proof.
  split; [reflexivity|].
  destruct (image_fallback_names_the_file Sample.env_offline "../up/x.PNG"
              Sample.content eq_refl eq_refl) as (E & P).
  split.
  - destruct (E Sample.admin_t1 Sample.world Sample.hack_night
                sample_world_event_ids (or_introl eq_refl) eq_refl)
      as (e' & w' & U & L & _).
    exists e', w'. split; [exact U | exact L].
  - destruct (P Sample.student_t1 Sample.world
                (or_intror (or_intror (or_introl eq_refl))))
      as (u' & w' & U & L & _).
    exists u', w'. split; [exact U | exact L].
Defined.


